(** * Riztoo: the order checkout and vendor-payout pipeline

    A shallow embedding of the Express/Mongoose handlers of
    [server/routes/orders.js], [server/routes/payments.js],
    [server/routes/cart.js], [server/routes/reviews.js],
    [server/routes/vendors.js] and [server/routes/optimized-products.js],
    together with the Mongoose schemas they save through, the response
    cache of [server/middleware/cache.js] and the session middleware of
    [server/middlewares/auth.js].

    Collections keyed by [_id] are finite maps, collections that are only
    searched and appended to are lists, and every handler is a function
    from the database state and the session to a response, a new state
    and a new session.  A [try { ... } catch] block is an [option] or a
    sum whose failure case is the 500 answer of the handler.

    Conventions.  A stored document id is the string [_id.toString()]
    gives, 24 lower-case hexadecimal digits, and the maps of the state are
    keyed by it.  An id that a request sends is any string: where Mongoose
    casts it ([findById], a filter on [_id]) the handler goes through
    [castObjectId], and where the handler compares strings the model
    compares strings.  The ids that the order, payment and listing-update
    handlers look up are taken as the handlers of this application wrote
    them (an order id from the answer of create-order, a listing id from
    the product list), that is, in their stored spelling.  Strings are
    strings of one-byte characters.  A listing names its product and its
    vendor by id; the product or the vendor may be gone, and [populate]
    then leaves [null] where the handler expects a document.  Stock and
    quantities are integers ([Z]), standing for the integer-valued
    Numbers of the code within the range in which a double is exact;
    prices and amounts are JavaScript Numbers, see [JsNumber].
    [save()] validates a document against its schema ([required], [min],
    [max], [enum], [maxlength], unique indexes) before it writes, and a
    schema drops the paths it does not declare.  What a handler reads from
    outside the database ([Date.now()], a fresh [_id], the environment
    variables, the answer of the payment gateway) is its [Env]. *)

From Stdlib Require Import ZArith List Ascii String Bool Lia.
From Stdlib Require Import QArith Qcanon.
From Stdlib Require Import Floats.PrimFloat Floats.SpecFloat Floats.FloatOps.
From stdpp Require Import gmap strings pretty.
Import ListNotations.

Local Open Scope string_scope.
Local Open Scope list_scope.
Local Open Scope Z_scope.

(** ** JavaScript numbers

    Prices and amounts are JavaScript [Number]s.  The handlers are written
    once over the operations they use; [binary64] is the arithmetic the
    code runs on, [Qc] is the exact arithmetic a decimal type would give. *)

Class JsNumber (num : Type) := {
  num_zero : num;                    (* the literal 0 *)
  num_lit_0_01 : num;                (* the literal 0.01 *)
  num_lit_1_0 : num;                 (* the literal 1.0 *)
  num_lit_100 : num;                 (* the literal 100 *)
  num_add : num -> num -> num;
  num_sub : num -> num -> num;
  num_mul : num -> num -> num;
  num_div : num -> num -> num;
  num_of_Z : Z -> num;               (* an integer-valued Number (a quantity) *)
  num_leb : num -> num -> bool       (* <= *)
}.

(** Laws of an exact number type.  They fail for [binary64]. *)
Class ExactArith (num : Type) `{JsNumber num} : Prop := {
  exact_add_0_l : forall a, num_add num_zero a = a;
  exact_add_comm : forall a b, num_add a b = num_add b a;
  exact_add_assoc : forall a b c, num_add a (num_add b c) = num_add (num_add a b) c;
  exact_mul_0_l : forall c, num_mul num_zero c = num_zero;
  exact_mul_add_distr_r : forall a b c,
    num_mul (num_add a b) c = num_add (num_mul a c) (num_mul b c);
  exact_sub_0_r : forall a, num_sub a num_zero = a;
  exact_sub_add : forall a b x y,
    num_add (num_sub a x) (num_sub b y) = num_sub (num_add a b) (num_add x y);
  exact_percent : forall a,
    num_div (num_mul a num_lit_1_0) num_lit_100 = num_mul a num_lit_0_01
}.

(** IEEE 754 binary64, the arithmetic of the JavaScript engine.  An
    integer becomes the nearest double, ties to even. *)
Definition float_of_Z (z : Z) : float :=
  SF2Prim (binary_normalize 53 1024 z 0 false).

#[export] Instance binary64 : JsNumber float := {
  num_zero := PrimFloat.zero;
  num_lit_0_01 := 0x1.47ae147ae147bp-7%float;
  num_lit_1_0 := PrimFloat.one;
  num_lit_100 := float_of_Z 100;
  num_add := PrimFloat.add;
  num_sub := PrimFloat.sub;
  num_mul := PrimFloat.mul;
  num_div := PrimFloat.div;
  num_of_Z := float_of_Z;
  num_leb := PrimFloat.leb
}.

(** Canonical rationals, an exact decimal arithmetic. *)
#[export] Instance exactQc : JsNumber Qc := {
  num_zero := Q2Qc 0;
  num_lit_0_01 := Q2Qc (1 # 100);
  num_lit_1_0 := Q2Qc 1;
  num_lit_100 := Q2Qc 100;
  num_add := Qcplus;
  num_sub := Qcminus;
  num_mul := Qcmult;
  num_div := Qcdiv;
  num_of_Z := fun z => Q2Qc (inject_Z z);
  num_leb := fun a b => Qle_bool (this a) (this b)
}.

#[export] Instance exactQc_laws : ExactArith Qc.
Proof.
  split; simpl; intros.
  - ring.
  - ring.
  - ring.
  - ring.
  - ring.
  - ring.
  - ring.
  - assert (Hne : Q2Qc 100 <> Q2Qc 0).
    { intro E. apply (f_equal this) in E. discriminate E. }
    assert (Hc : Q2Qc (1 # 100) = (/ Q2Qc 100)%Qc).
    { apply Qc_is_canon. reflexivity. }
    rewrite Hc. field. exact Hne.
Qed.

(** ** Small JavaScript helpers *)

(** String conversion of a possibly [undefined] field, as [+] does it. *)
Definition js_str (v : option string) : string :=
  match v with Some s => s | None => "undefined" end.

(** Truthiness of a possibly [undefined] string. *)
Definition truthy (v : option string) : bool :=
  match v with Some s => negb (String.eqb s "") | None => false end.

(** [a !== b] for an [undefined]-or-string [b] against a string [a]. *)
Definition strict_neq (a : string) (b : option string) : bool :=
  match b with Some s => negb (String.eqb a s) | None => true end.

Definition is_hex_digit (c : Ascii.ascii) : bool :=
  let n := Ascii.nat_of_ascii c in
  ((48 <=? n) && (n <=? 57) || (65 <=? n) && (n <=? 70) || (97 <=? n) && (n <=? 102))%nat.

Fixpoint all_hex (s : string) : bool :=
  match s with
  | EmptyString => true
  | String c rest => is_hex_digit c && all_hex rest
  end.

Definition nonempty_hex (s : string) : bool :=
  negb (String.eqb s "") && all_hex s.

(** validator.js [isHexadecimal]: [/^(0x|0h)?[0-9A-F]+$/i]. *)
Definition isHexadecimal (s : string) : bool :=
  nonempty_hex s
  || match s with
     | String c0 (String c1 rest) =>
       Ascii.eqb c0 "0"%char
       && (Ascii.eqb c1 "x"%char || Ascii.eqb c1 "X"%char
           || Ascii.eqb c1 "h"%char || Ascii.eqb c1 "H"%char)
       && nonempty_hex rest
     | _ => false
     end.

(** express-validator's [isMongoId]: [isHexadecimal(str) && str.length === 24]. *)
Definition isMongoId (s : string) : bool :=
  isHexadecimal s && (String.length s =? 24)%nat.

(** ** ObjectIds

    A document's [_id] is kept as the string [_id.toString()] gives: 24
    lower-case hexadecimal digits.  A string that Mongoose has to cast to
    an ObjectId ([findById], a filter on [_id]) is accepted when it is
    24 hexadecimal digits in either case, or 12 one-byte characters, which
    stand for their bytes; anything else is a CastError. *)

Definition to_lower (c : Ascii.ascii) : Ascii.ascii :=
  let n := Ascii.nat_of_ascii c in
  if ((65 <=? n) && (n <=? 90))%nat then Ascii.ascii_of_nat (n + 32) else c.

Fixpoint lower (s : string) : string :=
  match s with
  | EmptyString => EmptyString
  | String c rest => String (to_lower c) (lower rest)
  end.

Definition hex_digit (n : nat) : Ascii.ascii :=
  if (n <? 10)%nat then Ascii.ascii_of_nat (48 + n) else Ascii.ascii_of_nat (87 + n).

Fixpoint hex_of_bytes (s : string) : string :=
  match s with
  | EmptyString => EmptyString
  | String c rest =>
    let n := Ascii.nat_of_ascii c in
    String (hex_digit (n / 16)) (String (hex_digit (n mod 16)) (hex_of_bytes rest))
  end.

Fixpoint all_one_byte (s : string) : bool :=
  match s with
  | EmptyString => true
  | String c rest => (Ascii.nat_of_ascii c <? 128)%nat && all_one_byte rest
  end.

Definition castObjectId (s : string) : option string :=
  if (String.length s =? 24)%nat && all_hex s then Some (lower s)
  else if (String.length s =? 12)%nat && all_one_byte s then Some (hex_of_bytes s)
  else None.

(** ** Trimming

    [String.prototype.trim] and validator.js [trim] on the white space of
    ASCII: space, tab, line feed, vertical tab, form feed, carriage return. *)

Definition is_space (c : Ascii.ascii) : bool :=
  let n := Ascii.nat_of_ascii c in
  ((n =? 32) || (9 <=? n) && (n <=? 13))%nat.

Fixpoint ltrim (s : string) : string :=
  match s with
  | EmptyString => EmptyString
  | String c rest => if is_space c then ltrim rest else s
  end.

Fixpoint rtrim (s : string) : string :=
  match s with
  | EmptyString => EmptyString
  | String c rest =>
    let rest' := rtrim rest in
    if is_space c && String.eqb rest' "" then EmptyString else String c rest'
  end.

Definition trim (s : string) : string := rtrim (ltrim s).

(** ** Documents *)

Section Pipeline.
Context {num : Type} `{JsNumber num}.

(** [crypto.createHmac('sha256', key).update(msg).digest('hex')]. *)
Variable hmac_sha256_hex : string -> string -> string.

(** models/ProductMaster.js and models/Vendor.js, the paths that the
    handlers select when they [populate] a listing. *)
Record ProductMaster := { pm_name : string }.

Record Vendor := { vendor_storeName : string }.

(** models/VendorProduct.js: a vendor's priced, stocked listing.  Its
    [productId] and [vendorId] refer to a ProductMaster and a Vendor,
    which may have been deleted since: [populate] then leaves [null]. *)
Record VendorProduct := {
  vp_vendorId : string;
  vp_productId : string;
  vp_price : num;
  vp_stock : Z;
  vp_isActive : bool
}.

(** models/Order.js, one element of [items]. The schema is strict: the
    [productName] and [storeName] that create-order also pushes are not
    schema paths and are not stored. *)
Record OrderItem := {
  oi_vendorProductId : string;
  oi_productId : string;
  oi_vendorId : string;
  oi_price : num;
  oi_qty : Z
}.

Record Order := {
  o_userId : string;
  o_items : list OrderItem;
  o_totalAmount : num;
  o_status : string;
  o_paymentType : string;
  o_razorpayOrderId : option string;
  o_razorpayPaymentId : option string;
  o_paidAt : option Z
}.

(** models/Payment.js, one element of [vendorPayouts]. *)
Record VendorPayout := {
  po_vendorId : string;
  po_amount : num;
  po_commission : num;
  po_netAmount : num;
  po_status : string
}.

(** models/Payment.js. A field that the caller of [new Payment] may leave
    out is an [option]; [required] is checked by [paymentSchema_validate]. *)
Record Payment := {
  pay_orderId : option string;
  pay_userId : option string;
  pay_razorpayOrderId : option string;
  pay_razorpayPaymentId : option string;
  pay_razorpaySignature : option string;
  pay_amount : option num;
  pay_status : string;
  pay_vendorPayouts : list VendorPayout
}.

(** The object literal handed to [new Payment({...})] by orders.js. *)
Record PaymentInit := {
  pi_orderId : option string;
  pi_userId : option string;
  pi_vendorId : option string;
  pi_amount : option num;
  pi_commission : option num;
  pi_razorpayOrderId : option string;
  pi_razorpayPaymentId : option string;
  pi_status : option string;
  pi_type : option string
}.

(** models/Review.js. *)
Record Review := {
  r_userId : string;
  r_orderId : string;
  r_vendorId : string;
  r_productId : string;
  r_vendorProductId : string;
  r_rating : Z;
  r_comment : string
}.

(** One line of [req.session.cart] (routes/cart.js). *)
Record CartItem := {
  ci_vendorProductId : string;
  ci_productId : string;
  ci_vendorId : string;
  ci_qty : Z;
  ci_price : num;
  ci_productName : string;
  ci_storeName : string
}.

Record SessionUser := { su_id : string; su_role : string }.

Record Session := {
  sess_user : option SessionUser;
  sess_cart : option (list CartItem)
}.

(** middleware/cache.js: the four NodeCache instances. *)
Record Caches := {
  cache_short : gmap string string;
  cache_medium : gmap string string;
  cache_long : gmap string string;
  cache_session : gmap string string
}.

(** The database and the process-local cache. *)
Record State := {
  productMasters : gmap string ProductMaster;
  vendors : gmap string Vendor;
  vendorProducts : gmap string VendorProduct;
  orders : gmap string Order;
  payments : list Payment;
  reviews : list Review;
  caches : Caches
}.

(** What a request reads from its environment. *)
Record Env := {
  env_now : Z;                              (* Date.now() *)
  env_newId : string;                       (* _id of the document being created *)
  env_RAZORPAY_KEY_ID : option string;
  env_RAZORPAY_KEY_SECRET : option string;
  env_razorpay_create : option string       (* razorpay.orders.create: its id, None when it throws *)
}.

Inductive OkBody :=
| OrderCreatedRazorpay (orderId razorpayOrderId : string) (amount : num)
| OrderCreatedDemo (orderId : string) (amount : num)
| DemoPaymentSuccessful (orderId : string)
| PaymentVerifiedOrder (orderId : string) (order : Order)
| PaymentVerified (orderId : string)
| ReviewCreated (review : Review)
| ProductUpdated (id : string)
| ProductsUpdated (count : nat).

Inductive Response :=
| Ok (body : OkBody)
| Error (status : Z) (message : string)
| ValidationErrors (status : Z).

Definition is_ok (r : Response) : bool :=
  match r with Ok _ => true | _ => false end.

Record Result := {
  res_response : Response;
  res_state : State;
  res_session : Session
}.

(** ** Schemas and saving *)

Definition in_enum (s : string) (values : list string) : bool :=
  existsb (String.eqb s) values.

Definition orderStatusEnum : list string :=
  ["pending"; "paid"; "shipped"; "delivered"; "cancelled"].

Definition paymentStatusEnum : list string :=
  ["created"; "attempted"; "paid"; "failed"; "cancelled"].

Definition payoutStatusEnum : list string :=
  ["pending"; "processed"; "failed"].

Definition is_some {A} (o : option A) : bool :=
  match o with Some _ => true | None => false end.

(** orderSchema: [qty] has [min: 1], [totalAmount] has [min: 0], [status]
    is an enum. *)
Definition orderSchema_validate (o : Order) : bool :=
  forallb (fun it => 1 <=? oi_qty it) (o_items o)
  && num_leb num_zero (o_totalAmount o)
  && in_enum (o_status o) orderStatusEnum.

(** paymentSchema: [orderId], [userId], [razorpayOrderId] and [amount] are
    required (an empty string does not satisfy [required]); [status] and
    the payout [status] are enums. *)
Definition paymentSchema_validate (p : Payment) : bool :=
  is_some (pay_orderId p)
  && is_some (pay_userId p)
  && truthy (pay_razorpayOrderId p)
  && is_some (pay_amount p)
  && in_enum (pay_status p) paymentStatusEnum
  && forallb (fun po => in_enum (po_status po) payoutStatusEnum) (pay_vendorPayouts p).

(** [new Payment(init)]: paths outside the schema ([vendorId],
    [commission], [type]) are dropped, defaults are filled in. *)
Definition new_Payment (init : PaymentInit) : Payment :=
  {| pay_orderId := pi_orderId init;
     pay_userId := pi_userId init;
     pay_razorpayOrderId := pi_razorpayOrderId init;
     pay_razorpayPaymentId := pi_razorpayPaymentId init;
     pay_razorpaySignature := None;
     pay_amount := pi_amount init;
     pay_status := match pi_status init with Some s => s | None => "created" end;
     pay_vendorPayouts := [] |}.

(** [payment.save()] of a new document: validation, then insertion. *)
Definition Payment_save (p : Payment) (ps : list Payment) : option (list Payment) :=
  if paymentSchema_validate p then Some (ps ++ [p]) else None.

(** reviewSchema: [rating] between 1 and 5, [comment] at most 500 long. *)
Definition reviewSchema_validate (r : Review) : bool :=
  (1 <=? r_rating r) && (r_rating r <=? 5)
  && (String.length (r_comment r) <=? 500)%nat.

Definition same_review_key (a b : Review) : bool :=
  String.eqb (r_userId a) (r_userId b)
  && String.eqb (r_orderId a) (r_orderId b)
  && String.eqb (r_productId a) (r_productId b).

(** [review.save()]: validation, then insertion under the unique index
    [{ userId: 1, orderId: 1, productId: 1 }]. *)
Definition Review_save (r : Review) (rs : list Review) : option (list Review) :=
  if reviewSchema_validate r then
    if existsb (same_review_key r) rs then None else Some (rs ++ [r])
  else None.

Definition set_vendorProducts (st : State) (vps : gmap string VendorProduct) : State :=
  {| productMasters := productMasters st; vendors := vendors st;
     vendorProducts := vps; orders := orders st; payments := payments st;
     reviews := reviews st; caches := caches st |}.

Definition set_orders (st : State) (os : gmap string Order) : State :=
  {| productMasters := productMasters st; vendors := vendors st;
     vendorProducts := vendorProducts st; orders := os; payments := payments st;
     reviews := reviews st; caches := caches st |}.

Definition set_payments (st : State) (ps : list Payment) : State :=
  {| productMasters := productMasters st; vendors := vendors st;
     vendorProducts := vendorProducts st; orders := orders st; payments := ps;
     reviews := reviews st; caches := caches st |}.

Definition set_reviews (st : State) (rs : list Review) : State :=
  {| productMasters := productMasters st; vendors := vendors st;
     vendorProducts := vendorProducts st; orders := orders st; payments := payments st;
     reviews := rs; caches := caches st |}.

Definition set_caches (st : State) (c : Caches) : State :=
  {| productMasters := productMasters st; vendors := vendors st;
     vendorProducts := vendorProducts st; orders := orders st; payments := payments st;
     reviews := reviews st; caches := c |}.

Definition set_cart (s : Session) (c : option (list CartItem)) : Session :=
  {| sess_user := sess_user s; sess_cart := c |}.

Definition reply (r : Response) (st : State) (sess : Session) : Result :=
  {| res_response := r; res_state := st; res_session := sess |}.

(** ** routes/orders.js: POST /create-order *)

Definition product_not_found_msg (productName : string) : string :=
  "Product " +:+ productName +:+ " not found".

Definition insufficient_stock_msg (productName : string) (stock : Z) : string :=
  "Insufficient stock for " +:+ productName +:+ ". Available: " +:+ pretty stock.

(** The [for (const item of cart)] loop: the listings were fetched by
    [_id] and populated, each line is looked up by the string of its
    [vendorProductId], checked against the current stock, added to the
    total and pushed with the listing's current price.  When the product
    or the vendor of the listing is gone, [populate] has left [null] and
    [vendorProduct.productId._id] (or [.vendorId._id]) throws: the
    handler's [catch] answers 500. *)
Fixpoint collect_items (st : State) (cart : list CartItem)
    (totalAmount : num) (orderItems : list OrderItem)
    : Response + (num * list OrderItem) :=
  match cart with
  | [] => inr (totalAmount, orderItems)
  | item :: rest =>
    match vendorProducts st !! ci_vendorProductId item with
    | None => inl (Error 400 (product_not_found_msg (ci_productName item)))
    | Some vendorProduct =>
      if vp_stock vendorProduct <? ci_qty item then
        inl (Error 400 (insufficient_stock_msg (ci_productName item) (vp_stock vendorProduct)))
      else
        let itemTotal := num_mul (vp_price vendorProduct) (num_of_Z (ci_qty item)) in
        match productMasters st !! vp_productId vendorProduct,
              vendors st !! vp_vendorId vendorProduct with
        | Some _, Some _ =>
          collect_items st rest (num_add totalAmount itemTotal)
            (orderItems ++ [ {| oi_vendorProductId := ci_vendorProductId item;
                                oi_productId := vp_productId vendorProduct;
                                oi_vendorId := vp_vendorId vendorProduct;
                                oi_price := vp_price vendorProduct;
                                oi_qty := ci_qty item |} ])
        | _, _ => inl (Error 500 "Failed to create order")
        end
    end
  end.

(** [VendorProduct.find({ _id: { $in: vendorProductIds } })] casts every
    id of the cart; one that is no ObjectId is a CastError. *)
Definition castable_ids (cart : list CartItem) : bool :=
  forallb (fun item => is_some (castObjectId (ci_vendorProductId item))) cart.

(** The gateway is tried only with configured keys; a failing call is
    caught and leaves demo mode. *)
Definition open_gateway_order (env : Env) : option string :=
  if truthy (env_RAZORPAY_KEY_ID env)
     && strict_neq "rzp_test_demo_key" (env_RAZORPAY_KEY_ID env)
  then env_razorpay_create env
  else None.

(** [order.save()] of a new order: validation, then insertion by [_id]. *)
Definition Order_save_new (id : string) (o : Order) (os : gmap string Order)
    : option (gmap string Order) :=
  if orderSchema_validate o then
    match os !! id with
    | None => Some (<[id := o]> os)
    | Some _ => None
    end
  else None.

Definition createOrder (env : Env) (st : State) (sess : Session) : Result :=
  match sess_user sess with
  | None => reply (Error 401 "Unauthorized") st sess
  | Some user =>
    match sess_cart sess with
    | None | Some [] => reply (Error 400 "Cart is empty") st sess
    | Some cart =>
      if negb (castable_ids cart) then reply (Error 500 "Failed to create order") st sess
      else
      match collect_items st cart num_zero [] with
      | inl err => reply err st sess
      | inr (totalAmount, orderItems) =>
        let razorpayOrder := open_gateway_order env in
        let paymentType :=
          match razorpayOrder with Some _ => "razorpay" | None => "demo" end in
        let order :=
          {| o_userId := su_id user;
             o_items := orderItems;
             o_totalAmount := totalAmount;
             o_status := "pending";
             o_paymentType := paymentType;
             o_razorpayOrderId :=
               Some (if truthy razorpayOrder then js_str razorpayOrder
                     else "demo_" +:+ pretty (env_now env));
             o_razorpayPaymentId := None;
             o_paidAt := None |} in
        match Order_save_new (env_newId env) order (orders st) with
        | None => reply (Error 500 "Failed to create order") st sess
        | Some os =>
          match razorpayOrder with
          | Some rid =>
            reply (Ok (OrderCreatedRazorpay (env_newId env) rid totalAmount))
                  (set_orders st os) sess
          | None =>
            reply (Ok (OrderCreatedDemo (env_newId env) totalAmount))
                  (set_orders st os) sess
          end
        end
      end
    end
  end.

(** ** Stock updates: [VendorProduct.bulkWrite] of [$inc] operations *)

Definition inc_stock (d : Z) (vp : VendorProduct) : VendorProduct :=
  {| vp_vendorId := vp_vendorId vp; vp_productId := vp_productId vp;
     vp_price := vp_price vp; vp_stock := vp_stock vp + d;
     vp_isActive := vp_isActive vp |}.

(** [order.items.map(item => updateOne { _id: item.vendorProductId }
    { $inc: { stock: -item.qty } })]. *)
Definition stockUpdates (items : list OrderItem) : list (string * Z) :=
  map (fun item => (oi_vendorProductId item, - oi_qty item)) items.

(** An [updateOne] whose filter matches nothing changes nothing. *)
Definition VendorProduct_bulkWrite (ops : list (string * Z))
    (vps : gmap string VendorProduct) : gmap string VendorProduct :=
  fold_left (fun m op => alter (inc_stock (snd op)) (fst op) m) ops vps.

Definition mark_paid (o : Order) (paymentId : option string) (now : Z) : Order :=
  {| o_userId := o_userId o; o_items := o_items o;
     o_totalAmount := o_totalAmount o; o_status := "paid";
     o_paymentType := o_paymentType o;
     o_razorpayOrderId := o_razorpayOrderId o;
     o_razorpayPaymentId := paymentId; o_paidAt := Some now |}.

(** ** routes/orders.js: processVendorPayouts *)

(** [vendorGroups[vendorId].push(item)], groups kept in insertion order. *)
Fixpoint group_push (vendorId : string) (item : OrderItem)
    (groups : list (string * list OrderItem)) : list (string * list OrderItem) :=
  match groups with
  | [] => [(vendorId, [item])]
  | (k, items) :: rest =>
    if String.eqb k vendorId then (k, items ++ [item]) :: rest
    else (k, items) :: group_push vendorId item rest
  end.

Definition vendorGroups (items : list OrderItem) : list (string * list OrderItem) :=
  fold_left (fun groups item => group_push (oi_vendorId item) item groups) items [].

Definition line_amount (item : OrderItem) : num :=
  num_mul (oi_price item) (num_of_Z (oi_qty item)).

(** [items.reduce((sum, item) => sum + (item.price * item.qty), 0)]. *)
Definition items_total (items : list OrderItem) : num :=
  fold_left (fun sum item => num_add sum (line_amount item)) items num_zero.

(** The body of the payout loop: the literal given to [new Payment]. *)
Definition payout_init (orderId : string) (group : string * list OrderItem)
    : PaymentInit :=
  let vendorTotal := items_total (snd group) in
  let commission := num_mul vendorTotal num_lit_0_01 in
  let vendorEarning := num_sub vendorTotal commission in
  {| pi_orderId := Some orderId;
     pi_userId := None;
     pi_vendorId := Some (fst group);
     pi_amount := Some vendorEarning;
     pi_commission := Some commission;
     pi_razorpayOrderId := None;
     pi_razorpayPaymentId := None;
     pi_status := Some "pending_payout";
     pi_type := Some "vendor_payout" |}.

(** [await payout.save()] for each group; the first save that throws
    leaves the loop through the function's own [catch], which only logs. *)
Fixpoint save_payouts (inits : list PaymentInit) (ps : list Payment) : list Payment :=
  match inits with
  | [] => ps
  | init :: rest =>
    match Payment_save (new_Payment init) ps with
    | Some ps' => save_payouts rest ps'
    | None => ps
    end
  end.

Definition processVendorPayouts (orderId : string) (order : Order) (st : State) : State :=
  set_payments st
    (save_payouts (map (payout_init orderId) (vendorGroups (o_items order)))
                  (payments st)).

(** ** routes/orders.js: POST /demo-checkout

    [order.save()] of a stored order writes the changed paths; the new
    status ['paid'] is in the schema's enum. *)

Definition demoCheckout (env : Env) (st : State) (sess : Session)
    (orderId : string) : Result :=
  match sess_user sess with
  | None => reply (Error 401 "Unauthorized") st sess
  | Some user =>
    match orders st !! orderId with
    | None => reply (Error 404 "Order not found") st sess
    | Some order =>
      if negb (String.eqb (o_userId order) (su_id user)) then
        reply (Error 403 "Unauthorized") st sess
      else
        let st1 := set_vendorProducts st
          (VendorProduct_bulkWrite (stockUpdates (o_items order)) (vendorProducts st)) in
        let order' :=
          mark_paid order (Some ("demo_payment_" +:+ pretty (env_now env))) (env_now env) in
        let st2 := set_orders st1 (<[orderId := order']> (orders st1)) in
        let st3 := processVendorPayouts orderId order' st2 in
        reply (Ok (DemoPaymentSuccessful orderId)) st3 (set_cart sess (Some []))
    end
  end.

(** ** routes/orders.js: POST /verify-payment *)

Record VerifyBody := {
  razorpay_order_id : option string;
  razorpay_payment_id : option string;
  razorpay_signature : option string;
  vb_orderId : string
}.

(** The digest the request must carry; [None] when the secret is not
    configured and [createHmac] throws. *)
Definition expectedSignature (env : Env) (body : VerifyBody) : option string :=
  match env_RAZORPAY_KEY_SECRET env with
  | None => None
  | Some secret =>
    Some (hmac_sha256_hex secret
            (js_str (razorpay_order_id body) +:+ "|" +:+ js_str (razorpay_payment_id body)))
  end.

Definition verifyPayment (env : Env) (st : State) (sess : Session)
    (body : VerifyBody) : Result :=
  match sess_user sess with
  | None => reply (Error 401 "Unauthorized") st sess
  | Some user =>
    match expectedSignature env body with
    | None => reply (Error 500 "Payment verification failed") st sess
    | Some expected =>
      if strict_neq expected (razorpay_signature body) then
        reply (Error 400 "Invalid payment signature") st sess
      else
        match orders st !! vb_orderId body with
        | None => reply (Error 404 "Order not found") st sess
        | Some order =>
          let st1 := set_vendorProducts st
            (VendorProduct_bulkWrite (stockUpdates (o_items order)) (vendorProducts st)) in
          let order' := mark_paid order (razorpay_payment_id body) (env_now env) in
          let st2 := set_orders st1 (<[vb_orderId body := order']> (orders st1)) in
          let payment := new_Payment
            {| pi_orderId := Some (vb_orderId body);
               pi_userId := Some (o_userId order');
               pi_vendorId := None;
               pi_amount := Some (o_totalAmount order');
               pi_commission := None;
               pi_razorpayOrderId := razorpay_order_id body;
               pi_razorpayPaymentId := razorpay_payment_id body;
               pi_status := Some "completed";
               pi_type := None |} in
          match Payment_save payment (payments st2) with
          | None => reply (Error 500 "Payment verification failed") st2 sess
          | Some ps =>
            let st3 := set_payments st2 ps in
            let st4 := processVendorPayouts (vb_orderId body) order' st3 in
            reply (Ok (PaymentVerifiedOrder (vb_orderId body) order'))
                  st4 (set_cart sess (Some []))
          end
        end
    end
  end.

(** ** routes/payments.js: POST /verify *)

(** [vendorGroups[vendorId].totalAmount += item.price * item.qty], a new
    group starting at [totalAmount: 0]. *)
Fixpoint group_add (vendorId : string) (amount : num)
    (groups : list (string * num)) : list (string * num) :=
  match groups with
  | [] => [(vendorId, num_add num_zero amount)]
  | (k, totalAmount) :: rest =>
    if String.eqb k vendorId then (k, num_add totalAmount amount) :: rest
    else (k, totalAmount) :: group_add vendorId amount rest
  end.

Definition vendorTotals (items : list OrderItem) : list (string * num) :=
  fold_left (fun groups item => group_add (oi_vendorId item) (line_amount item) groups)
            items [].

Definition payout_entry (vendorGroup : string * num) : VendorPayout :=
  let commissionRate := num_lit_1_0 in
  let commission := num_div (num_mul (snd vendorGroup) commissionRate) num_lit_100 in
  let netAmount := num_sub (snd vendorGroup) commission in
  {| po_vendorId := fst vendorGroup;
     po_amount := snd vendorGroup;
     po_commission := commission;
     po_netAmount := netAmount;
     po_status := "pending" |}.

Definition computeVendorPayouts (items : list OrderItem) : list VendorPayout :=
  map payout_entry (vendorTotals items).

Definition set_order_status (o : Order) (status : string) : Order :=
  {| o_userId := o_userId o; o_items := o_items o;
     o_totalAmount := o_totalAmount o; o_status := status;
     o_paymentType := o_paymentType o;
     o_razorpayOrderId := o_razorpayOrderId o;
     o_razorpayPaymentId := o_razorpayPaymentId o; o_paidAt := o_paidAt o |}.

(** [Order.findById(payment.orderId).populate('items.vendorId')]: a line
    whose vendor is gone is populated with [null], and reading
    [item.vendorId._id] in the grouping loop then throws. *)
Definition vendors_populated (st : State) (order : Order) : bool :=
  forallb (fun item => is_some (vendors st !! oi_vendorId item)) (o_items order).

Definition paymentsVerify (env : Env) (st : State) (sess : Session)
    (body : VerifyBody) : Result :=
  match sess_user sess with
  | None => reply (Error 401 "Unauthorized") st sess
  | Some user =>
    match expectedSignature env body with
    | None => reply (Error 500 "Payment verification failed") st sess
    | Some expected =>
      if strict_neq expected (razorpay_signature body) then
        reply (Error 400 "Invalid payment signature") st sess
      else
        match list_find (fun p => pay_razorpayOrderId p = razorpay_order_id body)
                        (payments st) with
        | None => reply (Error 404 "Payment record not found") st sess
        | Some (i, payment) =>
          match pay_orderId payment with
          | None => reply (Error 500 "Payment verification failed") st sess
          | Some oid =>
            match orders st !! oid with
            | None => reply (Error 500 "Payment verification failed") st sess
            | Some order =>
              if negb (vendors_populated st order) then
                reply (Error 500 "Payment verification failed") st sess
              else
              let payment' :=
                {| pay_orderId := pay_orderId payment;
                   pay_userId := pay_userId payment;
                   pay_razorpayOrderId := pay_razorpayOrderId payment;
                   pay_razorpayPaymentId := razorpay_payment_id body;
                   pay_razorpaySignature := razorpay_signature body;
                   pay_amount := pay_amount payment;
                   pay_status := "paid";
                   pay_vendorPayouts := computeVendorPayouts (o_items order) |} in
              if paymentSchema_validate payment' then
                let st1 := set_payments st (<[i := payment']> (payments st)) in
                let st2 := set_orders st1
                  (<[oid := set_order_status order "paid"]> (orders st1)) in
                reply (Ok (PaymentVerified oid)) st2 sess
              else reply (Error 500 "Payment verification failed") st sess
            end
          end
        end
    end
  end.

(** ** middleware/cache.js: invalidateCache *)

Definition invalidateCache_products (c : Caches) : Caches :=
  {| cache_short := cache_short c; cache_medium := ∅;
     cache_long := cache_long c; cache_session := cache_session c |}.

Definition invalidateCache_reviews (productId : string) (c : Caches) : Caches :=
  {| cache_short :=
       filter (fun kv => String.prefix ("reviews_" +:+ productId) (fst kv) = false)
              (cache_short c);
     cache_medium := cache_medium c;
     cache_long := cache_long c; cache_session := cache_session c |}.

Definition invalidateCache_all (c : Caches) : Caches :=
  {| cache_short := ∅; cache_medium := ∅; cache_long := ∅; cache_session := ∅ |}.

(** ** routes/reviews.js: POST / *)

Record ReviewBody := {
  rb_orderId : string;
  rb_productId : string;
  rb_vendorId : string;
  rb_rating : Z;
  rb_comment : option string
}.

Definition review_body_valid (body : ReviewBody) : bool :=
  isMongoId (rb_orderId body) && isMongoId (rb_productId body)
  && isMongoId (rb_vendorId body)
  && (1 <=? rb_rating body) && (rb_rating body <=? 5).

(** [Order.findOne({ _id: orderId, userId, status: 'paid' })]. *)
Definition find_paid_order (st : State) (orderId userId : string) : option Order :=
  match orders st !! orderId with
  | Some order =>
    if String.eqb (o_userId order) userId && String.eqb (o_status order) "paid"
    then Some order else None
  | None => None
  end.

Definition item_matches (productId vendorId : string) (item : OrderItem) : bool :=
  String.eqb (oi_productId item) productId && String.eqb (oi_vendorId item) vendorId.

(** [Review.findOne({ userId, orderId, productId, vendorId })]. *)
Definition review_matches (userId orderId productId vendorId : string) (r : Review) : bool :=
  String.eqb (r_userId r) userId && String.eqb (r_orderId r) orderId
  && String.eqb (r_productId r) productId && String.eqb (r_vendorId r) vendorId.

(** The handler up to [await review.save()]: the validators, the purchase
    check, the duplicate check and the construction of the review.  The
    order id passes [isMongoId] and is then cast by the query on [_id]
    (a CastError is answered 500 by the handler's [catch]); the product
    and the vendor are compared as the strings they were sent as.  The
    comment is trimmed by the validator chain and by the schema. *)
Definition review_checks (st : State) (sess : Session) (body : ReviewBody)
    : Response + Review :=
  match sess_user sess with
  | None => inl (Error 401 "Unauthorized")
  | Some user =>
    if negb (review_body_valid body) then inl (ValidationErrors 400)
    else
      match castObjectId (rb_orderId body) with
      | None => inl (Error 500 "Failed to create review")
      | Some orderId =>
        match find_paid_order st orderId (su_id user) with
        | None => inl (Error 400 "Order not found or not paid")
        | Some order =>
          match find (item_matches (rb_productId body) (rb_vendorId body))
                     (o_items order) with
          | None => inl (Error 400 "Product not found in this order")
          | Some orderItem =>
            if existsb (review_matches (su_id user) orderId
                          (rb_productId body) (rb_vendorId body)) (reviews st)
            then inl (Error 400 "Review already exists for this product")
            else
              inr {| r_userId := su_id user;
                     r_orderId := orderId;
                     r_vendorId := rb_vendorId body;
                     r_productId := rb_productId body;
                     r_vendorProductId := oi_vendorProductId orderItem;
                     r_rating := rb_rating body;
                     r_comment := match rb_comment body with
                                  | Some c => trim c | None => "" end |}
          end
        end
      end
  end.

(** The handler from [await review.save()] on, against the database as it
    is at that moment. *)
Definition review_commit (st : State) (sess : Session) (review : Review) : Result :=
  match Review_save review (reviews st) with
  | None => reply (Error 500 "Failed to create review") st sess
  | Some rs =>
    let st1 := set_reviews st rs in
    let st2 := set_caches st1
      (invalidateCache_reviews (r_productId review) (caches st1)) in
    reply (Ok (ReviewCreated review)) st2 sess
  end.

Definition createReview (st : State) (sess : Session) (body : ReviewBody) : Result :=
  match review_checks st sess body with
  | inl err => reply err st sess
  | inr review => review_commit st sess review
  end.

(** ** routes/vendors.js: PUT /products/:id *)

Record UpdateBody := {
  ub_price : option num;
  ub_stock : option Z
}.

(** [VendorProduct.findByIdAndUpdate(id, updateData)]. *)
Definition apply_update (body : UpdateBody) (vp : VendorProduct) : VendorProduct :=
  {| vp_vendorId := vp_vendorId vp; vp_productId := vp_productId vp;
     vp_price := match ub_price body with Some p => p | None => vp_price vp end;
     vp_stock := match ub_stock body with Some s => s | None => vp_stock vp end;
     vp_isActive := vp_isActive vp |}.

(** [vendor] is the result of [Vendor.findOne({ userId })]. *)
Definition updateVendorProduct (vendor : option string) (st : State) (sess : Session)
    (id : string) (body : UpdateBody) : Result :=
  match sess_user sess with
  | None => reply (Error 401 "Unauthorized") st sess
  | Some user =>
    if negb (String.eqb (su_role user) "vendor") then
      reply (Error 403 "Vendor access required") st sess
    else
      match vendor with
      | None => reply (Error 500 "Failed to update product") st sess
      | Some vendorId =>
        match vendorProducts st !! id with
        | None => reply (Error 404 "Product not found") st sess
        | Some product =>
          if String.eqb (vp_vendorId product) vendorId then
            reply (Ok (ProductUpdated id))
                  (set_vendorProducts st (alter (apply_update body) id (vendorProducts st)))
                  sess
          else reply (Error 404 "Product not found") st sess
        end
      end
  end.

(** ** routes/optimized-products.js: POST /bulk-update *)

(** One element of [updates]; [bu_price] is [None] when the price is
    absent or falsy, [bu_stock] is [None] when the stock is [undefined]. *)
Record BulkUpdate := {
  bu_id : string;
  bu_price : option num;
  bu_stock : option Z
}.

(** An [updateOne] with filter [{ _id, vendorId }]. *)
Definition apply_bulk_update (vendorId : option string) (m : gmap string VendorProduct)
    (update : BulkUpdate) : gmap string VendorProduct :=
  match m !! bu_id update with
  | Some vp =>
    if is_some vendorId && String.eqb (js_str vendorId) (vp_vendorId vp) then
      <[bu_id update :=
          apply_update {| ub_price := bu_price update; ub_stock := bu_stock update |} vp]> m
    else m
  | None => m
  end.

(** [vendorId] is [req.user.vendorId]. After the [bulkWrite] the handler
    calls [invalidateCache.products()] ("Invalidate related caches"). *)
Definition bulkUpdate (vendorId : option string) (st : State) (sess : Session)
    (updates : list BulkUpdate) : Result :=
  match sess_user sess with
  | None => reply (Error 401 "Unauthorized") st sess
  | Some user =>
    match updates with
    | [] => reply (Error 400 "Invalid updates array") st sess
    | _ =>
      let st1 := set_vendorProducts st
        (fold_left (apply_bulk_update vendorId) updates (vendorProducts st)) in
      let st2 := set_caches st1 (invalidateCache_products (caches st1)) in
      reply (Ok (ProductsUpdated (length updates))) st2 sess
    end
  end.

(** ** routes/cart.js

    The cart lives in the session; the handlers read the listings and
    write nothing to the database. Quantities in requests are integers. *)

Inductive CartAnswer :=
| CartOk (message : string) (cart : list CartItem)
| CartView (cart : list CartItem) (total : num) (itemCount : Z)
| CartError (status : Z) (message : string).

Record AddBody := {
  ab_vendorProductId : string;
  ab_qty : option Z                     (* [qty = 1] when absent *)
}.

(** [cart.findIndex(item => item.vendorProductId === vendorProductId)]. *)
Fixpoint findIndex (vendorProductId : string) (cart : list CartItem) : option nat :=
  match cart with
  | [] => None
  | item :: rest =>
    if String.eqb (ci_vendorProductId item) vendorProductId then Some 0%nat
    else option_map S (findIndex vendorProductId rest)
  end.

Definition set_qty (qty : Z) (item : CartItem) : CartItem :=
  {| ci_vendorProductId := ci_vendorProductId item; ci_productId := ci_productId item;
     ci_vendorId := ci_vendorId item; ci_qty := qty; ci_price := ci_price item;
     ci_productName := ci_productName item; ci_storeName := ci_storeName item |}.

(** [cart[i] = f(cart[i])]. *)
Fixpoint update_at (i : nat) (f : CartItem -> CartItem) (cart : list CartItem)
    : list CartItem :=
  match cart, i with
  | [], _ => []
  | item :: rest, O => f item :: rest
  | item :: rest, S j => item :: update_at j f rest
  end.

(** [cart.splice(i, 1)]. *)
Fixpoint splice_at (i : nat) (cart : list CartItem) : list CartItem :=
  match cart, i with
  | [], _ => []
  | item :: rest, O => rest
  | item :: rest, S j => item :: splice_at j rest
  end.

(** POST /cart/add.  [VendorProduct.findById] casts the id it is given;
    the cart is searched for, and the new line keeps, the id as it was
    sent.  [req.session.cart] is initialised before the line is built, so
    it stays initialised when building the line throws on a listing whose
    product or vendor is gone. *)
Definition cartAdd (st : State) (sess : Session) (body : AddBody)
    : CartAnswer * Session :=
  let qty := match ab_qty body with Some q => q | None => 1 end in
  match castObjectId (ab_vendorProductId body) with
  | None => (CartError 500 "Failed to add item to cart", sess)
  | Some id =>
    match vendorProducts st !! id with
    | None => (CartError 404 "Product not found", sess)
    | Some vendorProduct =>
      if vp_stock vendorProduct <? qty then (CartError 400 "Insufficient stock", sess)
      else
        let cart := match sess_cart sess with Some c => c | None => [] end in
        match findIndex (ab_vendorProductId body) cart with
        | Some existingItemIndex =>
          let cart' :=
            update_at existingItemIndex (fun item => set_qty (ci_qty item + qty) item) cart in
          (CartOk "Item added to cart" cart', set_cart sess (Some cart'))
        | None =>
          match productMasters st !! vp_productId vendorProduct,
                vendors st !! vp_vendorId vendorProduct with
          | Some product, Some vendor =>
            let cart' :=
              cart ++ [ {| ci_vendorProductId := ab_vendorProductId body;
                           ci_productId := vp_productId vendorProduct;
                           ci_vendorId := vp_vendorId vendorProduct;
                           ci_qty := qty;
                           ci_price := vp_price vendorProduct;
                           ci_productName := pm_name product;
                           ci_storeName := vendor_storeName vendor |} ] in
            (CartOk "Item added to cart" cart', set_cart sess (Some cart'))
          | _, _ =>
            (CartError 500 "Failed to add item to cart", set_cart sess (Some cart))
          end
        end
    end
  end.

(** POST /cart/remove. *)
Definition cartRemove (sess : Session) (vendorProductId : string) : CartAnswer * Session :=
  match sess_cart sess with
  | None => (CartError 400 "Cart is empty", sess)
  | Some cart =>
    let cart' :=
      List.filter (fun item => negb (String.eqb (ci_vendorProductId item) vendorProductId))
                  cart in
    (CartOk "Item removed from cart" cart', set_cart sess (Some cart'))
  end.

(** POST /cart/update. *)
Definition cartUpdate (sess : Session) (vendorProductId : string) (qty : Z)
    : CartAnswer * Session :=
  match sess_cart sess with
  | None => (CartError 400 "Cart is empty", sess)
  | Some cart =>
    match findIndex vendorProductId cart with
    | None => (CartError 404 "Item not found in cart", sess)
    | Some itemIndex =>
      let cart' :=
        if qty <=? 0 then splice_at itemIndex cart
        else update_at itemIndex (set_qty qty) cart in
      (CartOk "Cart updated" cart', set_cart sess (Some cart'))
    end
  end.

(** [cart.reduce((sum, item) => sum + (item.price * item.qty), 0)]. *)
Definition cart_total (cart : list CartItem) : num :=
  fold_left (fun sum item => num_add sum (num_mul (ci_price item) (num_of_Z (ci_qty item))))
            cart num_zero.

(** [cart.reduce((sum, item) => sum + item.qty, 0)]. *)
Definition cart_itemCount (cart : list CartItem) : Z :=
  fold_left (fun sum item => sum + ci_qty item) cart 0.

(** GET /cart. *)
Definition cartGet (sess : Session) : CartAnswer :=
  let cart := match sess_cart sess with Some c => c | None => [] end in
  CartView cart (cart_total cart) (cart_itemCount cart).

(** POST /cart/clear. *)
Definition cartClear (sess : Session) : CartAnswer * Session :=
  (CartOk "Cart cleared" [], set_cart sess (Some [])).

(** ** routes/payments.js: POST /create-order *)

Inductive PaymentOrderAnswer :=
| PaymentOrderCreated (razorpayOrderId : string)
| PaymentOrderError (status : Z) (message : string).

Definition paymentsCreateOrder (env : Env) (st : State) (sess : Session)
    (orderId : string) : PaymentOrderAnswer * State :=
  match sess_user sess with
  | None => (PaymentOrderError 401 "Unauthorized", st)
  | Some user =>
    match orders st !! orderId with
    | None => (PaymentOrderError 404 "Order not found", st)
    | Some order =>
      if negb (String.eqb (o_userId order) (su_id user)) then
        (PaymentOrderError 404 "Order not found", st)
      else if negb (String.eqb (o_status order) "pending") then
        (PaymentOrderError 400 "Order is not pending payment", st)
      else
        match env_razorpay_create env with
        | None => (PaymentOrderError 500 "Failed to create payment order", st)
        | Some rid =>
          let payment :=
            {| pay_orderId := Some orderId;
               pay_userId := Some (su_id user);
               pay_razorpayOrderId := Some rid;
               pay_razorpayPaymentId := None;
               pay_razorpaySignature := None;
               pay_amount := Some (o_totalAmount order);
               pay_status := "created";
               pay_vendorPayouts := [] |} in
          match Payment_save payment (payments st) with
          | None => (PaymentOrderError 500 "Failed to create payment order", st)
          | Some ps => (PaymentOrderCreated rid, set_payments st ps)
          end
        end
    end
  end.

(** ** routes/payments.js: GET /vendor/earnings *)

(** [earningsHistory] is kept in the order of the loop, before the final
    sort by date. *)
Record Earnings := {
  totalEarnings : num;
  totalCommission : num;
  totalNetAmount : num;
  earningsHistory : list VendorPayout
}.

Definition payout_of (vendorId : string) (po : VendorPayout) : bool :=
  String.eqb (po_vendorId po) vendorId.

(** [Payment.find({ 'vendorPayouts.vendorId': vendor._id, status: 'paid' })]. *)
Definition paid_payments_of (vendorId : string) (ps : list Payment) : list Payment :=
  List.filter (fun p => existsb (payout_of vendorId) (pay_vendorPayouts p)
                        && String.eqb (pay_status p) "paid") ps.

(** The [payments.forEach] loop. *)
Definition add_earnings (vendorId : string) (acc : Earnings) (p : Payment) : Earnings :=
  match find (payout_of vendorId) (pay_vendorPayouts p) with
  | Some vendorPayout =>
    {| totalEarnings := num_add (totalEarnings acc) (po_amount vendorPayout);
       totalCommission := num_add (totalCommission acc) (po_commission vendorPayout);
       totalNetAmount := num_add (totalNetAmount acc) (po_netAmount vendorPayout);
       earningsHistory := earningsHistory acc ++ [vendorPayout] |}
  | None => acc
  end.

Definition vendorEarnings (vendorId : string) (ps : list Payment) : Earnings :=
  fold_left (add_earnings vendorId) (paid_payments_of vendorId ps)
    {| totalEarnings := num_zero; totalCommission := num_zero;
       totalNetAmount := num_zero; earningsHistory := [] |}.

Inductive EarningsAnswer :=
| EarningsOk (earnings : Earnings)
| EarningsError (status : Z) (message : string).

(** [vendor] is the result of [Vendor.findOne({ userId })]. *)
Definition getVendorEarnings (vendor : option string) (st : State) (sess : Session)
    : EarningsAnswer :=
  match sess_user sess with
  | None => EarningsError 401 "Unauthorized"
  | Some user =>
    if negb (String.eqb (su_role user) "vendor") then
      EarningsError 403 "Access denied. Vendor role required."
    else
      match vendor with
      | None => EarningsError 404 "Vendor profile not found"
      | Some vendorId => EarningsOk (vendorEarnings vendorId (payments st))
      end
  end.

(** ** Pagination, as the list endpoints of routes/orders.js compute it *)

(** [parseInt(req.query.x) || fallback]: [None] is an absent or
    non-numeric parameter. *)
Definition parse_or (q : option Z) (fallback : Z) : Z :=
  match q with
  | Some z => if z =? 0 then fallback else z
  | None => fallback
  end.

(** [Math.ceil(a / b)] on integers. *)
Definition ceil_div (a b : Z) : Z := - ((- a) / b).

Record Pagination := {
  currentPage : Z;
  totalPages : Z;
  totalOrders : Z;
  hasNext : bool;
  hasPrev : bool
}.

Definition pagination (page limit total : Z) : Pagination :=
  {| currentPage := page;
     totalPages := ceil_div total limit;
     totalOrders := total;
     hasNext := page <? ceil_div total limit;
     hasPrev := 1 <? page |}.

(** [.skip(skip).limit(limit)] on the sorted result of a query; a negative
    skip is refused by the database. *)
Definition skip_limit {A} (skip limit : Z) (sorted : list A) : option (list A) :=
  if skip <? 0 then None
  else Some (take (Z.to_nat (Z.abs limit)) (drop (Z.to_nat skip) sorted)).

(** [{ $skip: skip }, { $limit: limit }] in an aggregation pipeline: the
    skip must not be negative and the limit must be positive. *)
Definition aggregate_skip_limit {A} (skip limit : Z) (sorted : list A) : option (list A) :=
  if (skip <? 0) || (limit <? 1) then None
  else Some (take (Z.to_nat limit) (drop (Z.to_nat skip) sorted)).

Inductive ListAnswer :=
| OrdersPage (orders : list (string * Order)) (info : Pagination)
| OrdersList (orders : list (string * Order))
| OneOrder (order : Order)
| ListError (status : Z) (message : string).

(** GET /orders/my-orders. [sorted] is the orders collection in
    descending order of [createdAt]. *)
Definition myOrders (sorted : list (string * Order)) (sess : Session)
    (qpage qlimit : option Z) : ListAnswer :=
  match sess_user sess with
  | None => ListError 401 "Unauthorized"
  | Some user =>
    let page := parse_or qpage 1 in
    let limit := parse_or qlimit 10 in
    let skip := (page - 1) * limit in
    let mine := List.filter (fun io => String.eqb (o_userId (snd io)) (su_id user)) sorted in
    match skip_limit skip limit mine with
    | None => ListError 500 "Failed to fetch orders"
    | Some orders =>
      OrdersPage orders (pagination page limit (Z.of_nat (length mine)))
    end
  end.

(** GET /orders/:orderId.  [Order.findOne({ _id: req.params.orderId,
    userId })] casts the parameter; a CastError is answered 500 by the
    handler's [catch]. *)
Definition getOrder (st : State) (sess : Session) (orderId : string) : ListAnswer :=
  match sess_user sess with
  | None => ListError 401 "Unauthorized"
  | Some user =>
    match castObjectId orderId with
    | None => ListError 500 "Failed to fetch order"
    | Some id =>
      match orders st !! id with
      | Some order =>
        if String.eqb (o_userId order) (su_id user) then OneOrder order
        else ListError 404 "Order not found"
      | None => ListError 404 "Order not found"
      end
    end
  end.

Definition has_vendor_item (vendorId : string) (o : Order) : bool :=
  existsb (fun item => String.eqb (oi_vendorId item) vendorId) (o_items o).

Definition only_vendor_items (vendorId : string) (o : Order) : Order :=
  {| o_userId := o_userId o;
     o_items := List.filter (fun item => String.eqb (oi_vendorId item) vendorId) (o_items o);
     o_totalAmount := o_totalAmount o; o_status := o_status o;
     o_paymentType := o_paymentType o; o_razorpayOrderId := o_razorpayOrderId o;
     o_razorpayPaymentId := o_razorpayPaymentId o; o_paidAt := o_paidAt o |}.

(** GET /orders/vendor-orders. [vendor] is the result of
    [Vendor.findOne({ userId })]. *)
Definition vendorOrders (vendor : option string) (sorted : list (string * Order))
    (sess : Session) : ListAnswer :=
  match sess_user sess with
  | None => ListError 401 "Unauthorized"
  | Some user =>
    if negb (String.eqb (su_role user) "vendor") then
      ListError 403 "Access denied. Vendor role required."
    else
      match vendor with
      | None => ListError 404 "Vendor profile not found"
      | Some vendorId =>
        OrdersList
          (map (fun io => (fst io, only_vendor_items vendorId (snd io)))
               (List.filter (fun io => has_vendor_item vendorId (snd io)) sorted))
      end
  end.

(** GET /orders/vendor/my-orders: the aggregation pipeline ([$match] on
    the vendor and on [status: { $ne: 'pending' }], [$filter] of the
    items, [$skip], [$limit]). *)
Definition vendorMyOrders (vendor : option string) (sorted : list (string * Order))
    (sess : Session) (qpage qlimit : option Z) : ListAnswer :=
  match sess_user sess with
  | None => ListError 401 "Unauthorized"
  | Some user =>
    match vendor with
    | None => ListError 404 "Vendor profile not found"
    | Some vendorId =>
      let page := parse_or qpage 1 in
      let limit := parse_or qlimit 10 in
      let skip := (page - 1) * limit in
      let matched :=
        List.filter (fun io => has_vendor_item vendorId (snd io)
                               && negb (String.eqb (o_status (snd io)) "pending")) sorted in
      match aggregate_skip_limit skip limit
              (map (fun io => (fst io, only_vendor_items vendorId (snd io))) matched) with
      | None => ListError 500 "Failed to fetch vendor orders"
      | Some orders =>
        OrdersPage orders (pagination page limit (Z.of_nat (length matched)))
      end
    end
  end.

(** ** routes/orders.js: the GET routes

    Express tries the routes of a router in the order they were
    registered and hands the request to the first whose path matches.  A
    parameter such as [:orderId] matches any one segment; a literal
    segment matches whatever the case of the letters (the router is not
    created with [caseSensitive]). *)

Inductive Segment :=
| Lit (s : string)
| Param (name : string).

Fixpoint path_matches (pattern : list Segment) (path : list string) : bool :=
  match pattern, path with
  | [], [] => true
  | Lit s :: pattern', segment :: path' =>
    String.eqb (lower s) (lower segment) && path_matches pattern' path'
  | Param _ :: pattern', segment :: path' =>
    negb (String.eqb segment "") && path_matches pattern' path'
  | _, _ => false
  end.

Inductive OrdersGetHandler :=
| MyOrders
| GetOrder
| VendorMyOrders
| VendorOrders.

(** [router.get] of '/my-orders', '/:orderId', '/vendor/my-orders' and
    '/vendor-orders', in the order of the file. *)
Definition ordersGetRoutes : list (list Segment * OrdersGetHandler) :=
  [ ([Lit "my-orders"], MyOrders);
    ([Param "orderId"], GetOrder);
    ([Lit "vendor"; Lit "my-orders"], VendorMyOrders);
    ([Lit "vendor-orders"], VendorOrders) ].

Definition route (path : list string) : option OrdersGetHandler :=
  option_map snd (find (fun r => path_matches (fst r) path) ordersGetRoutes).

(** A GET request to the orders router, by the segments of its path
    below the mount point; [None] when no route of the router matches. *)
Definition ordersGet (vendor : option string) (sorted : list (string * Order))
    (st : State) (sess : Session) (path : list string) (qpage qlimit : option Z)
    : option ListAnswer :=
  match route path, path with
  | Some MyOrders, _ => Some (myOrders sorted sess qpage qlimit)
  | Some GetOrder, [orderId] => Some (getOrder st sess orderId)
  | Some VendorMyOrders, _ => Some (vendorMyOrders vendor sorted sess qpage qlimit)
  | Some VendorOrders, _ => Some (vendorOrders vendor sorted sess)
  | _, _ => None
  end.

(** ** middlewares/auth.js *)

(** [userCache]: the cached identity and the time it was cached. *)
Definition CACHE_TTL : Z := 5 * 60 * 1000.

Definition user_cache_key (user : SessionUser) : string := "user_" +:+ su_id user.

(** The outcome of a middleware: [None] is the 401 answer, [Some u] is
    [req.user] handed to the next handler. *)
Definition ensureAuthenticated (now : Z) (userCache : gmap string (SessionUser * Z))
    (sess : Session) : option SessionUser * gmap string (SessionUser * Z) :=
  match sess_user sess with
  | Some user => (Some user, <[user_cache_key user := (user, now)]> userCache)
  | None => (None, userCache)
  end.

Definition ensureAuthenticatedWithCache (now : Z) (userCache : gmap string (SessionUser * Z))
    (sess : Session) : option SessionUser * gmap string (SessionUser * Z) :=
  match sess_user sess with
  | None => (None, userCache)
  | Some user =>
    match userCache !! user_cache_key user with
    | Some (data, timestamp) =>
      if now - timestamp <? CACHE_TTL then (Some data, userCache)
      else (Some user, <[user_cache_key user := (user, now)]> userCache)
    | None => (Some user, <[user_cache_key user := (user, now)]> userCache)
    end
  end.

Definition clearUserCache (userId : string) (userCache : gmap string (SessionUser * Z))
    : gmap string (SessionUser * Z) :=
  delete ("user_" +:+ userId) userCache.

(** ** middleware/cache.js: cache keys and user invalidation *)

(** The key of [cacheMiddleware.reviews]; [page] and [sortBy] are given
    with their defaults applied. *)
Definition reviews_cache_key (productId page sortBy : string) (rating : option string)
    : string :=
  "reviews_" +:+ productId +:+ "_" +:+ page +:+ "_" +:+ sortBy +:+ "_"
  +:+ (if truthy rating then js_str rating else "all").

Definition invalidateCache_user (userId : string) (c : Caches) : Caches :=
  let patterns :=
    ["user_profile_" +:+ userId; "vendor_profile_" +:+ userId;
     "vendor_products_" +:+ userId] in
  fold_left (fun c pattern =>
               {| cache_short := delete pattern (cache_short c);
                  cache_medium := cache_medium c;
                  cache_long := cache_long c;
                  cache_session := delete pattern (cache_session c) |})
            patterns c.

(** ** Specification-side notions *)

(** The quantity the lines of an order take from listing [L]. *)
Definition ordered_qty (L : string) (items : list OrderItem) : Z :=
  fold_right (fun item acc =>
                if String.eqb (oi_vendorProductId item) L then oi_qty item + acc else acc)
             0 items.

Definition stock_of (st : State) (L : string) : option Z :=
  vp_stock <$> vendorProducts st !! L.

Definition status_of (r : Response) : Z :=
  match r with
  | Ok _ => 200
  | Error status _ => status
  | ValidationErrors status => status
  end.

(** A cart line that checkout cannot serve: its listing is gone, or it asks
    for more than the listing's current stock. *)
Definition line_unavailable (vps : gmap string VendorProduct) (item : CartItem) : Prop :=
  match vps !! ci_vendorProductId item with
  | None => True
  | Some vendorProduct => vp_stock vendorProduct < ci_qty item
  end.

(** The descriptive answer for one unavailable line. *)
Definition rejection_for (vps : gmap string VendorProduct) (item : CartItem) : Response :=
  match vps !! ci_vendorProductId item with
  | None => Error 400 (product_not_found_msg (ci_productName item))
  | Some vendorProduct =>
    Error 400 (insufficient_stock_msg (ci_productName item) (vp_stock vendorProduct))
  end.

(** The product and the vendor that a listing refers to are there, so
    that [populate] finds them. *)
Definition populated (st : State) (vp : VendorProduct) : bool :=
  is_some (productMasters st !! vp_productId vp)
  && is_some (vendors st !! vp_vendorId vp).

(** The listing a cart line names, when there is one, is populated. *)
Definition line_populated (st : State) (item : CartItem) : Prop :=
  forall vp, vendorProducts st !! ci_vendorProductId item = Some vp ->
    populated st vp = true.

(** A cart line that passes the stock check and names an orphaned
    listing: one whose product or vendor has been deleted. *)
Definition line_orphaned (st : State) (item : CartItem) : Prop :=
  exists vp, vendorProducts st !! ci_vendorProductId item = Some vp
    /\ ci_qty item <= vp_stock vp
    /\ populated st vp = false.

Definition priced_by (vps : gmap string VendorProduct) (item : OrderItem) : Prop :=
  exists vendorProduct,
    vps !! oi_vendorProductId item = Some vendorProduct
    /\ oi_price item = vp_price vendorProduct.

Definition paid_or_later (status : string) : bool :=
  in_enum status ["paid"; "shipped"; "delivered"].

(** The user holds a paid-or-later order with a line for exactly this
    product from exactly this vendor. *)
Definition purchased (st : State) (userId productId vendorId : string) : Prop :=
  exists orderId order item,
    orders st !! orderId = Some order
    /\ o_userId order = userId
    /\ paid_or_later (o_status order) = true
    /\ In item (o_items order)
    /\ oi_productId item = productId
    /\ oi_vendorId item = vendorId.

Definition review_key (r : Review) : string * string * string :=
  (r_userId r, r_orderId r, r_productId r).

Definition reviews_unique (rs : list Review) : Prop :=
  List.NoDup (map review_key rs).

Definition by_vendor (vendorId : string) (item : OrderItem) : bool :=
  String.eqb (oi_vendorId item) vendorId.

(** Gross of a vendor, in the words of the specification: the sum of
    price times quantity over that vendor's lines. *)
Definition vendor_gross (vendorId : string) (items : list OrderItem) : num :=
  items_total (List.filter (by_vendor vendorId) items).

Definition add_vendor (seen : list string) (vendorId : string) : list string :=
  if existsb (String.eqb vendorId) seen then seen else seen ++ [vendorId].

(** The vendors of an order, each once, in order of first appearance. *)
Definition distinct_vendors (items : list OrderItem) : list string :=
  fold_left (fun seen item => add_vendor seen (oi_vendorId item)) items [].

(** A sum as [reduce((a, b) => a + b, 0)] computes it. *)
Definition sum_num (l : list num) : num := fold_left num_add l num_zero.

(** The net amounts of the payouts that processVendorPayouts builds. *)
Definition payout_nets (orderId : string) (items : list OrderItem) : list num :=
  omap pi_amount (map (payout_init orderId) (vendorGroups items)).

(** Notions for the cart. *)

Definition session_cart (sess : Session) : list CartItem :=
  match sess_cart sess with Some cart => cart | None => [] end.

(** The cart has at most one line per listing. *)
Definition cart_unique (cart : list CartItem) : Prop :=
  List.NoDup (map ci_vendorProductId cart).

(** The listing a cart line stands for: its id as Mongoose casts it. *)
Definition listing_of (item : CartItem) : option string :=
  castObjectId (ci_vendorProductId item).

(** The cart has at most one line per listing, whatever the spelling of
    the ids of its lines. *)
Definition one_line_per_listing (cart : list CartItem) : Prop :=
  List.NoDup (map listing_of cart).

(** The quantity the cart holds of listing [L]. *)
Definition cart_qty (L : string) (cart : list CartItem) : Z :=
  fold_right (fun item acc =>
                if String.eqb (ci_vendorProductId item) L then ci_qty item + acc else acc)
             0 cart.

(** An order line made from a cart line and the listing it names. *)
Definition line_from (vps : gmap string VendorProduct) (ci : CartItem) (oi : OrderItem)
    : Prop :=
  oi_vendorProductId oi = ci_vendorProductId ci
  /\ oi_qty oi = ci_qty ci
  /\ exists vendorProduct,
       vps !! ci_vendorProductId ci = Some vendorProduct
       /\ oi_productId oi = vp_productId vendorProduct
       /\ oi_vendorId oi = vp_vendorId vendorProduct
       /\ oi_price oi = vp_price vendorProduct
       /\ ci_qty ci <= vp_stock vendorProduct.




(** Payouts whose net amount is the amount less the commission. *)
Definition balanced_payouts (ps : list Payment) : Prop :=
  forall p po, In p ps -> In po (pay_vendorPayouts p) ->
    po_netAmount po = num_sub (po_amount po) (po_commission po).

(** The orders of a user, in the order of the collection. *)
Definition orders_of (userId : string) (sorted : list (string * Order))
    : list (string * Order) :=
  List.filter (fun io => String.eqb (o_userId (snd io)) userId) sorted.

(** The stored orders a vendor is shown by /orders/vendor/my-orders. *)
Definition sold_by (vendorId : string) (sorted : list (string * Order))
    : list (string * Order) :=
  List.filter (fun io => has_vendor_item vendorId (snd io)
                         && negb (String.eqb (o_status (snd io)) "pending")) sorted.

(** ** Stock updates *)

Lemma inc_stock_stock d vp : vp_stock (inc_stock d vp) = vp_stock vp + d.
Proof. reflexivity. Qed.

Lemma stock_of_alter_inc (vps : gmap string VendorProduct) L k d :
  vp_stock <$> (alter (inc_stock d) k vps !! L)
  = (fun s => if String.eqb k L then s + d else s) <$> (vp_stock <$> vps !! L).
Proof.
  destruct (String.eqb_spec k L) as [->|Hne].
  - rewrite lookup_alter_eq. destruct (vps !! L); reflexivity.
  - rewrite lookup_alter_ne by exact Hne. destruct (vps !! L); reflexivity.
Qed.

Lemma bulkWrite_stock items : forall (vps : gmap string VendorProduct) L,
  vp_stock <$> (VendorProduct_bulkWrite (stockUpdates items) vps !! L)
  = (fun s => s - ordered_qty L items) <$> (vp_stock <$> vps !! L).
Proof.
  unfold VendorProduct_bulkWrite.
  induction items as [|item items IH]; intros vps L; simpl.
  - destruct (vps !! L); simpl; f_equal; lia.
  - rewrite IH, stock_of_alter_inc.
    destruct (vps !! L) as [vp|]; simpl; [|reflexivity].
    destruct (String.eqb (oi_vendorProductId item) L); f_equal; lia.
Qed.



Lemma demoCheckout_stock env st sess user oid order L :
  sess_user sess = Some user ->
  orders st !! oid = Some order ->
  o_userId order = su_id user ->
  stock_of (res_state (demoCheckout env st sess oid)) L
  = (fun s => s - ordered_qty L (o_items order)) <$> stock_of st L.
Proof.
  intros Hu Ho Hown. unfold demoCheckout, stock_of.
  rewrite Hu, Ho, Hown, String.eqb_refl. simpl.
  apply bulkWrite_stock.
Qed.


Lemma strict_neq_false a b : strict_neq a b = false <-> b = Some a.
Proof.
  unfold strict_neq. destruct b as [s|]; [|split; discriminate].
  destruct (String.eqb_spec a s) as [->|Hne]; simpl; split; intros E;
    try reflexivity; try discriminate.
  inversion E. congruence.
Qed.

(** The Payment built by verify-payment carries a status outside the
    schema's enum, so its [save()] is always rejected. *)
Lemma completed_payment_invalid (init : PaymentInit) :
  pi_status init = Some "completed" ->
  paymentSchema_validate (new_Payment init) = false.
Proof.
  intros E. unfold paymentSchema_validate, new_Payment. simpl. rewrite E. simpl.
  rewrite !andb_false_r. reflexivity.
Qed.

(** The Payment built for a payout has no [userId], which is required. *)
Lemma payout_payment_invalid orderId group :
  paymentSchema_validate (new_Payment (payout_init orderId group)) = false.
Proof. reflexivity. Qed.

Lemma save_payouts_rejected orderId groups ps :
  save_payouts (map (payout_init orderId) groups) ps = ps.
Proof.
  destruct groups as [|g groups]; [reflexivity|].
  cbn [map save_payouts]. unfold Payment_save.
  rewrite payout_payment_invalid. reflexivity.
Qed.

Lemma processVendorPayouts_noop orderId order st :
  processVendorPayouts orderId order st = st.
Proof.
  unfold processVendorPayouts. rewrite save_payouts_rejected.
  destruct st; reflexivity.
Qed.




(** demo-checkout answers 403 to a caller who does not own the order and
    changes nothing. *)
Lemma demoCheckout_rejects_other_user env st sess user oid order :
  sess_user sess = Some user ->
  orders st !! oid = Some order ->
  o_userId order <> su_id user ->
  demoCheckout env st sess oid = reply (Error 403 "Unauthorized") st sess.
Proof.
  intros Hu Ho Hne. unfold demoCheckout. rewrite Hu, Ho.
  destruct (String.eqb_spec (o_userId order) (su_id user)) as [E|_];
    [contradiction|reflexivity].
Qed.

(** ** Payment confirmation and stock (C1) *)


(** ** Rejected signatures (C8) *)

(** C8. When the signature in the request is not the hex HMAC-SHA256 of
    [orderId|paymentId] under the configured secret, verify-payment (and
    /payments/verify) answers 400 and returns the state and the session
    it was given: every order keeps its status, no stock is changed, no
    payment record is written and no payout is computed. *)
Theorem invalid_signature_changes_nothing env st sess user secret body :
  sess_user sess = Some user ->
  env_RAZORPAY_KEY_SECRET env = Some secret ->
  razorpay_signature body
    <> Some (hmac_sha256_hex secret
               (js_str (razorpay_order_id body) +:+ "|" +:+ js_str (razorpay_payment_id body))) ->
  verifyPayment env st sess body = reply (Error 400 "Invalid payment signature") st sess
  /\ paymentsVerify env st sess body = reply (Error 400 "Invalid payment signature") st sess.
Proof.
  intros Hu Hsecret Hsig.
  unfold verifyPayment, paymentsVerify, expectedSignature. rewrite Hu, Hsecret.
  destruct (strict_neq _ (razorpay_signature body)) eqn:E.
  - split; reflexivity.
  - apply strict_neq_false in E. contradiction.
Qed.

(** ** The response cache (C9) *)

(** The sibling write path: a bulk update of prices and stocks empties the
    product cache. *)
Lemma bulkUpdate_invalidates_products vendorId st sess updates :
  is_ok (res_response (bulkUpdate vendorId st sess updates)) = true ->
  cache_medium (caches (res_state (bulkUpdate vendorId st sess updates))) = ∅.
Proof.
  unfold bulkUpdate.
  destruct (sess_user sess); [|discriminate].
  destruct updates; [discriminate|reflexivity].
Qed.

(** C9 (what the code does). Neither confirmation handler touches the
    response cache: whatever was cached for product and vendor views
    before the call is cached after it. *)
Theorem confirmation_leaves_cache_untouched env st sess oid body :
  caches (res_state (demoCheckout env st sess oid)) = caches st
  /\ caches (res_state (verifyPayment env st sess body)) = caches st.
Proof.
  split.
  - unfold demoCheckout.
    destruct (sess_user sess); [|reflexivity].
    destruct (orders st !! oid); [|reflexivity].
    destruct (negb _); [reflexivity|].
    cbv zeta. rewrite processVendorPayouts_noop. reflexivity.
  - unfold verifyPayment.
    destruct (sess_user sess); [|reflexivity].
    destruct (expectedSignature env body); [|reflexivity].
    destruct (strict_neq _ _); [reflexivity|].
    destruct (orders st !! vb_orderId body); [|reflexivity].
    cbv zeta. destruct (Payment_save _ _); [|reflexivity].
    cbv zeta. rewrite processVendorPayouts_noop. reflexivity.
Qed.

(** ** The outcome of verify-payment (C10) *)

(** C10 (what the code does). verify-payment never answers with success
    and never clears the cart: the Payment it builds has status
    ['completed'], which paymentSchema rejects, so the handler ends in
    its [catch] after the stock update and the order update. *)
Theorem verifyPayment_never_succeeds env st sess body :
  is_ok (res_response (verifyPayment env st sess body)) = false
  /\ res_session (verifyPayment env st sess body) = sess.
Proof.
  unfold verifyPayment.
  destruct (sess_user sess); [|split; reflexivity].
  destruct (expectedSignature env body); [|split; reflexivity].
  destruct (strict_neq _ _); [split; reflexivity|].
  destruct (orders st !! vb_orderId body); [|split; reflexivity].
  cbv zeta. unfold Payment_save.
  rewrite completed_payment_invalid by reflexivity.
  split; reflexivity.
Qed.

(** ** Payout records written by the orders route (C2) *)

(** The sibling path: a successful /payments/verify has stored, on the
    Payment record it found, the entries of [computeVendorPayouts] for
    the order's lines (one per distinct vendor, status ['pending'], see
    [computeVendorPayouts_entries]). *)
Lemma paymentsVerify_attaches_payouts env st sess body :
  is_ok (res_response (paymentsVerify env st sess body)) = true ->
  exists i payment oid order,
    payments st !! i = Some payment
    /\ pay_orderId payment = Some oid
    /\ orders st !! oid = Some order
    /\ (pay_vendorPayouts <$> payments (res_state (paymentsVerify env st sess body)) !! i)
       = Some (computeVendorPayouts (o_items order))
    /\ (o_status <$> orders (res_state (paymentsVerify env st sess body)) !! oid)
       = Some "paid".
Proof.
  unfold paymentsVerify.
  destruct (sess_user sess); [|discriminate].
  destruct (expectedSignature env body); [|discriminate].
  destruct (strict_neq _ _); [discriminate|].
  destruct (list_find _ (payments st)) as [[i payment]|] eqn:Efind; [|discriminate].
  destruct (pay_orderId payment) as [oid|] eqn:Eoid; [|discriminate].
  destruct (orders st !! oid) as [order|] eqn:Eorder; [|discriminate].
  destruct (vendors_populated st order); [|discriminate]. cbn [negb].
  destruct (paymentSchema_validate _); [|discriminate].
  intros _. apply list_find_Some in Efind. destruct Efind as (Hi & _ & _).
  exists i, payment, oid, order. simpl.
  repeat split; try assumption.
  - rewrite list_lookup_insert_eq; [reflexivity|].
    apply lookup_lt_Some with payment. exact Hi.
  - rewrite lookup_insert_eq. reflexivity.
Qed.

(** C2 (what the code does). The orders route builds, for each vendor
    group, a stand-alone Payment with status ['pending_payout'] and no
    [userId] or [razorpayOrderId]; paymentSchema rejects it, the error is
    only logged, and neither confirmation handler adds anything to the
    payments collection. *)
Theorem orders_route_persists_no_payout env st sess oid body :
  payments (res_state (demoCheckout env st sess oid)) = payments st
  /\ payments (res_state (verifyPayment env st sess body)) = payments st
  /\ forall group,
       pi_status (payout_init oid group) = Some "pending_payout"
       /\ Payment_save (new_Payment (payout_init oid group)) (payments st) = None.
Proof.
  split; [|split].
  - unfold demoCheckout.
    destruct (sess_user sess); [|reflexivity].
    destruct (orders st !! oid); [|reflexivity].
    destruct (negb _); [reflexivity|].
    cbv zeta. rewrite processVendorPayouts_noop. reflexivity.
  - unfold verifyPayment.
    destruct (sess_user sess); [|reflexivity].
    destruct (expectedSignature env body); [|reflexivity].
    destruct (strict_neq _ _); [reflexivity|].
    destruct (orders st !! vb_orderId body); [|reflexivity].
    cbv zeta. unfold Payment_save.
    rewrite completed_payment_invalid by reflexivity. reflexivity.
  - intros group. split; [reflexivity|].
    unfold Payment_save. rewrite payout_payment_invalid. reflexivity.
Qed.

(** ** Order creation (C7, C4) *)

(** One turn of the loop on a line that is available and populated. *)
Lemma collect_items_step st item rest totalAmount orderItems vp :
  vendorProducts st !! ci_vendorProductId item = Some vp ->
  ci_qty item <= vp_stock vp ->
  populated st vp = true ->
  collect_items st (item :: rest) totalAmount orderItems
  = collect_items st rest
      (num_add totalAmount (num_mul (vp_price vp) (num_of_Z (ci_qty item))))
      (orderItems ++ [ {| oi_vendorProductId := ci_vendorProductId item;
                          oi_productId := vp_productId vp;
                          oi_vendorId := vp_vendorId vp;
                          oi_price := vp_price vp;
                          oi_qty := ci_qty item |} ]).
Proof.
  intros Hl Hq Hp. simpl. rewrite Hl.
  destruct (Z.ltb_spec (vp_stock vp) (ci_qty item)) as [Hlt|_]; [lia|].
  unfold populated in Hp. apply andb_true_iff in Hp. destruct Hp as [Hp Hv].
  destruct (productMasters st !! vp_productId vp); [|discriminate Hp].
  destruct (vendors st !! vp_vendorId vp); [|discriminate Hv].
  reflexivity.
Qed.

(** What the loop answers when it does not reach the end of the cart. *)
Lemma collect_items_error st cart : forall totalAmount orderItems err,
  collect_items st cart totalAmount orderItems = inl err ->
  err = Error 500 "Failed to create order"
  \/ exists item, In item cart /\ line_unavailable (vendorProducts st) item
       /\ err = rejection_for (vendorProducts st) item.
Proof.
  induction cart as [|item cart IH]; intros totalAmount orderItems err; simpl;
    [discriminate|].
  unfold line_unavailable, rejection_for.
  destruct (vendorProducts st !! ci_vendorProductId item) as [vp|] eqn:Elook.
  - destruct (Z.ltb_spec (vp_stock vp) (ci_qty item)) as [Hlt|Hge].
    + intros E. inversion E. right. exists item. rewrite Elook. auto.
    + destruct (productMasters st !! vp_productId vp);
        [|intros E; inversion E; left; reflexivity].
      destruct (vendors st !! vp_vendorId vp);
        [|intros E; inversion E; left; reflexivity].
      intros E. destruct (IH _ _ _ E) as [->|[w [Hw1 [Hw2 Hw3]]]]; [left; reflexivity|].
      right. exists w. auto.
  - intros E. inversion E. right. exists item. rewrite Elook. auto.
Qed.

(** A cart with an unavailable line never reaches the end of the loop. *)
Lemma collect_items_stops st cart : forall totalAmount orderItems,
  (exists item, In item cart /\ line_unavailable (vendorProducts st) item) ->
  exists err, collect_items st cart totalAmount orderItems = inl err.
Proof.
  induction cart as [|item cart IH]; intros totalAmount orderItems [bad [Hin Hbad]].
  - destruct Hin.
  - simpl. unfold line_unavailable in *.
    destruct (vendorProducts st !! ci_vendorProductId item) as [vp|] eqn:Elook;
      [|eexists; reflexivity].
    destruct (Z.ltb_spec (vp_stock vp) (ci_qty item)) as [Hlt|Hge];
      [eexists; reflexivity|].
    destruct (productMasters st !! vp_productId vp); [|eexists; reflexivity].
    destruct (vendors st !! vp_vendorId vp); [|eexists; reflexivity].
    apply IH. destruct Hin as [->|Hin].
    + rewrite Elook in Hbad. lia.
    + exists bad. split; assumption.
Qed.

(** With every listing populated, the loop stops at an unavailable line
    with the answer that describes it. *)
Lemma collect_items_rejects st cart :
  forall totalAmount orderItems,
  Forall (line_populated st) cart ->
  (exists item, In item cart /\ line_unavailable (vendorProducts st) item) ->
  exists item, In item cart /\ line_unavailable (vendorProducts st) item
    /\ collect_items st cart totalAmount orderItems
       = inl (rejection_for (vendorProducts st) item).
Proof.
  induction cart as [|item cart IH]; intros totalAmount orderItems Hpop [bad [Hin Hbad]].
  - destruct Hin.
  - inversion Hpop as [|? ? Hitem Hrest]; subst.
    unfold line_unavailable, rejection_for in *.
    destruct (vendorProducts st !! ci_vendorProductId item) as [vp|] eqn:Elook.
    + destruct (Z.ltb_spec (vp_stock vp) (ci_qty item)) as [Hlt|Hge].
      * exists item. simpl. rewrite Elook.
        destruct (Z.ltb_spec (vp_stock vp) (ci_qty item)); [|lia].
        repeat split; auto.
      * rewrite (collect_items_step st item cart totalAmount orderItems vp Elook Hge
                   (Hitem vp Elook)).
        destruct Hin as [->|Hin].
        { rewrite Elook in Hbad. lia. }
        destruct (IH (num_add totalAmount (num_mul (vp_price vp) (num_of_Z (ci_qty item))))
                     (orderItems ++
                        [ {| oi_vendorProductId := ci_vendorProductId item;
                             oi_productId := vp_productId vp;
                             oi_vendorId := vp_vendorId vp;
                             oi_price := vp_price vp;
                             oi_qty := ci_qty item |} ]) Hrest)
          as [w [Hw1 [Hw2 Hw3]]].
        { exists bad. split; assumption. }
        exists w. split; [right; exact Hw1|]. split; [exact Hw2|exact Hw3].
    + exists item. simpl. rewrite Elook. repeat split; auto.
Qed.

(** The loop throws at the first orphaned line when the lines before it
    are served. *)
Lemma collect_items_orphan st before orphan after :
  forall totalAmount orderItems,
  Forall (fun item => ~ line_unavailable (vendorProducts st) item
                      /\ line_populated st item) before ->
  line_orphaned st orphan ->
  collect_items st (before ++ orphan :: after) totalAmount orderItems
  = inl (Error 500 "Failed to create order").
Proof.
  induction before as [|item before IH]; intros totalAmount orderItems Hbefore Horphan.
  - destruct Horphan as (vp & Hl & Hq & Hp). simpl. rewrite Hl.
    destruct (Z.ltb_spec (vp_stock vp) (ci_qty orphan)) as [Hlt|_]; [lia|].
    unfold populated in Hp.
    destruct (productMasters st !! vp_productId vp); [|reflexivity].
    destruct (vendors st !! vp_vendorId vp); [discriminate Hp|reflexivity].
  - inversion Hbefore as [|? ? [Hav Hpop] Hrest]; subst.
    unfold line_unavailable in Hav.
    destruct (vendorProducts st !! ci_vendorProductId item) as [vp|] eqn:Elook;
      [|exfalso; apply Hav; exact I].
    rewrite <- app_comm_cons.
    rewrite (collect_items_step st item _ totalAmount orderItems vp Elook);
      [apply IH; assumption|lia|exact (Hpop vp Elook)].
Qed.

(** C7 (what the code does). When the cart has a line whose listing no
    longer exists or whose quantity exceeds the listing's current stock,
    create-order never succeeds and returns the state it was given: no
    order is persisted, not even a partial one.  When every id of the
    cart is an ObjectId and every listing of the cart still has its
    product and its vendor, the answer is 400 with the message naming
    such a line (product not found, or insufficient stock with the
    available quantity).  When a line before the first unavailable one
    names an orphaned listing, the loop throws on it and the answer is
    500 'Failed to create order'. *)
Theorem createOrder_rejects_unavailable_line env st sess user cart :
  sess_user sess = Some user ->
  sess_cart sess = Some cart ->
  (exists item, In item cart /\ line_unavailable (vendorProducts st) item) ->
  is_ok (res_response (createOrder env st sess)) = false
  /\ res_state (createOrder env st sess) = st
  /\ orders (res_state (createOrder env st sess)) = orders st
  /\ (castable_ids cart = true ->
      Forall (line_populated st) cart ->
      exists item, In item cart /\ line_unavailable (vendorProducts st) item
        /\ res_response (createOrder env st sess) = rejection_for (vendorProducts st) item
        /\ status_of (res_response (createOrder env st sess)) = 400)
  /\ (forall before orphan after,
        cart = before ++ orphan :: after ->
        Forall (fun item => ~ line_unavailable (vendorProducts st) item
                            /\ line_populated st item) before ->
        line_orphaned st orphan ->
        res_response (createOrder env st sess) = Error 500 "Failed to create order").
Proof.
  intros Hu Hc Hbad.
  assert (Hne : cart <> []) by (destruct Hbad as [item [Hin _]]; intros ->; destruct Hin).
  assert (Hrun : createOrder env st sess
                 = if negb (castable_ids cart)
                   then reply (Error 500 "Failed to create order") st sess
                   else match collect_items st cart num_zero [] with
                        | inl err => reply err st sess
                        | inr _ => createOrder env st sess
                        end).
  { unfold createOrder. rewrite Hu, Hc.
    destruct cart as [|c cart]; [contradiction|].
    destruct (negb (castable_ids (c :: cart))); [reflexivity|].
    destruct (collect_items st (c :: cart) num_zero []) as [err|[T items]]; reflexivity. }
  destruct (collect_items_stops st cart num_zero [] Hbad) as [err Herr].
  assert (Hfail : is_ok err = false).
  { destruct (collect_items_error st cart _ _ _ Herr) as [->|[w [_ [_ ->]]]]; [reflexivity|].
    unfold rejection_for. destruct (vendorProducts st !! ci_vendorProductId w); reflexivity. }
  rewrite Hrun, Herr.
  split; [|split; [|split; [|split]]].
  - destruct (negb (castable_ids cart)); [reflexivity|exact Hfail].
  - destruct (negb (castable_ids cart)); reflexivity.
  - destruct (negb (castable_ids cart)); reflexivity.
  - intros Hcast Hpop. rewrite Hcast. cbn [negb].
    destruct (collect_items_rejects st cart num_zero [] Hpop Hbad) as [item [Hin [Hun Hrej]]].
    rewrite Herr in Hrej. inversion Hrej. subst err.
    exists item. cbn [res_response reply]. repeat split; auto.
    unfold rejection_for. destruct (vendorProducts st !! ci_vendorProductId item); reflexivity.
  - intros before orphan after -> Hbefore Horphan.
    rewrite (collect_items_orphan st before orphan after num_zero [] Hbefore Horphan) in Herr.
    inversion Herr. subst err.
    destruct (negb (castable_ids (before ++ orphan :: after))); reflexivity.
Qed.

Lemma items_total_snoc items item :
  items_total (items ++ [item]) = num_add (items_total items) (line_amount item).
Proof. unfold items_total. rewrite fold_left_app. reflexivity. Qed.

(** A turn of the loop that goes on has found the listing, in stock and
    populated. *)
Lemma collect_items_goes_on st item cart totalAmount orderItems T items :
  collect_items st (item :: cart) totalAmount orderItems = inr (T, items) ->
  exists vp,
    vendorProducts st !! ci_vendorProductId item = Some vp
    /\ ci_qty item <= vp_stock vp
    /\ populated st vp = true
    /\ collect_items st cart
         (num_add totalAmount (num_mul (vp_price vp) (num_of_Z (ci_qty item))))
         (orderItems ++ [ {| oi_vendorProductId := ci_vendorProductId item;
                             oi_productId := vp_productId vp;
                             oi_vendorId := vp_vendorId vp;
                             oi_price := vp_price vp;
                             oi_qty := ci_qty item |} ])
       = inr (T, items).
Proof.
  simpl.
  destruct (vendorProducts st !! ci_vendorProductId item) as [vp|]; [|discriminate].
  destruct (Z.ltb_spec (vp_stock vp) (ci_qty item)) as [|Hge]; [discriminate|].
  destruct (productMasters st !! vp_productId vp) eqn:Ep; [|discriminate].
  destruct (vendors st !! vp_vendorId vp) eqn:Ev; [|discriminate].
  intros E. exists vp. split; [reflexivity|]. split; [exact Hge|].
  split; [|exact E]. unfold populated. rewrite Ep, Ev. reflexivity.
Qed.

(** The loop keeps [totalAmount] equal to the total of the lines pushed so
    far, and every pushed line carries the listing's price of that moment. *)
Lemma collect_items_total st cart :
  forall totalAmount orderItems T items,
  collect_items st cart totalAmount orderItems = inr (T, items) ->
  totalAmount = items_total orderItems ->
  T = items_total items.
Proof.
  induction cart as [|item cart IH]; intros totalAmount orderItems T items.
  - simpl. intros E Ht. inversion E. subst. reflexivity.
  - intros E Ht. apply collect_items_goes_on in E.
    destruct E as (vp & _ & _ & _ & E). apply (IH _ _ _ _ E).
    rewrite items_total_snoc, Ht. reflexivity.
Qed.

Lemma collect_items_prices st cart :
  forall totalAmount orderItems T items,
  collect_items st cart totalAmount orderItems = inr (T, items) ->
  Forall (priced_by (vendorProducts st)) orderItems ->
  Forall (priced_by (vendorProducts st)) items.
Proof.
  induction cart as [|item cart IH]; intros totalAmount orderItems T items.
  - simpl. intros E Hf. inversion E. subst. exact Hf.
  - intros E Hf. apply collect_items_goes_on in E.
    destruct E as (vp & Elook & _ & _ & E). apply (IH _ _ _ _ E).
    apply Forall_app. split; [exact Hf|].
    constructor; [|constructor].
    exists vp. split; [exact Elook|reflexivity].
Qed.

Lemma collect_items_not_ok st cart totalAmount orderItems err :
  collect_items st cart totalAmount orderItems = inl err -> is_ok err = false.
Proof.
  intros E. destruct (collect_items_error st cart _ _ _ E) as [->|[w [_ [_ ->]]]];
    [reflexivity|].
  unfold rejection_for. destruct (vendorProducts st !! ci_vendorProductId w); reflexivity.
Qed.

(** What a successful create-order has done. *)
Lemma createOrder_ok env st sess :
  is_ok (res_response (createOrder env st sess)) = true ->
  exists user cart T items order,
    sess_user sess = Some user /\ sess_cart sess = Some cart
    /\ collect_items st cart num_zero [] = inr (T, items)
    /\ res_state (createOrder env st sess)
       = set_orders st (<[env_newId env := order]> (orders st))
    /\ orders st !! env_newId env = None
    /\ o_userId order = su_id user /\ o_items order = items
    /\ o_totalAmount order = T /\ o_status order = "pending".
Proof.
  unfold createOrder.
  destruct (sess_user sess) as [user|]; [|discriminate].
  destruct (sess_cart sess) as [[|c cart]|]; try discriminate.
  destruct (negb (castable_ids (c :: cart))); [discriminate|].
  destruct (collect_items st (c :: cart) num_zero [])
    as [err|[T items]] eqn:Ecol.
  - intros Hok. exfalso. revert Hok. cbn [res_response reply].
    rewrite (collect_items_not_ok _ _ _ _ _ Ecol). discriminate.
  - cbv zeta. unfold Order_save_new.
    destruct (orderSchema_validate _); [|discriminate].
    destruct (orders st !! env_newId env) eqn:Efresh; [discriminate|].
    intros _.
    destruct (open_gateway_order env) as [rid|]; eexists user, (c :: cart), T, items, _;
      (repeat split; first [exact Ecol | exact Efresh | reflexivity]).
Qed.

(** The stored order and its total, as both C4 and C3 need them. *)
Lemma created_order_total env st sess :
  is_ok (res_response (createOrder env st sess)) = true ->
  exists order,
    orders (res_state (createOrder env st sess)) !! env_newId env = Some order
    /\ o_totalAmount order = items_total (o_items order).
Proof.
  intros Hok.
  destruct (createOrder_ok env st sess Hok)
    as (user & cart & T & items & order & Hu & Hc & Hcol & E & Hfresh & Hown & Hitems & Htot & Hst).
  exists order. rewrite E. simpl. split; [apply lookup_insert_eq|].
  rewrite Htot, Hitems.
  apply (collect_items_total st cart num_zero [] T items Hcol).
  reflexivity.
Qed.

(** C4. The order that create-order stores has as total the sum, over its
    own line items, of the snapshotted price times the quantity; each
    line's price is the listing's price at that moment; and a later change
    of a listing's price (PUT /vendors/products/:id, or any other change
    of the listings) leaves the stored order, its total and its line
    prices as they were. *)
Theorem created_order_total_is_snapshot_sum env st sess :
  is_ok (res_response (createOrder env st sess)) = true ->
  exists order,
    orders (res_state (createOrder env st sess)) !! env_newId env = Some order
    /\ o_totalAmount order = items_total (o_items order)
    /\ Forall (priced_by (vendorProducts st)) (o_items order)
    /\ (forall vendor sess' id body,
         orders (res_state (updateVendorProduct vendor
                              (res_state (createOrder env st sess)) sess' id body))
           !! env_newId env = Some order)
    /\ (forall listings,
         orders (set_vendorProducts (res_state (createOrder env st sess)) listings)
           !! env_newId env = Some order).
Proof.
  intros Hok.
  destruct (createOrder_ok env st sess Hok)
    as (user & cart & T & items & order & Hu & Hc & Hcol & E & Hfresh & Hown & Hitems & Htot & Hst).
  exists order. rewrite E. simpl.
  assert (Hl : <[env_newId env := order]> (orders st) !! env_newId env = Some order)
    by apply lookup_insert_eq.
  repeat split.
  - exact Hl.
  - rewrite Htot, Hitems.
    apply (collect_items_total st cart num_zero [] T items Hcol).
    reflexivity.
  - rewrite Hitems.
    apply (collect_items_prices st cart num_zero [] T items Hcol).
    constructor.
  - intros vendor sess' id body. unfold updateVendorProduct.
    destruct (sess_user sess'); [|exact Hl].
    destruct (negb _); [exact Hl|].
    destruct vendor; [|exact Hl]. simpl.
    destruct (vendorProducts st !! id); [|exact Hl].
    destruct (String.eqb _ _); exact Hl.
  - intros listings. exact Hl.
Qed.

(** ** The review gate (C5) *)

Lemma review_checks_pass st sess body review :
  review_checks st sess body = inr review ->
  exists user orderId order item,
    sess_user sess = Some user
    /\ castObjectId (rb_orderId body) = Some orderId
    /\ orders st !! orderId = Some order
    /\ o_userId order = su_id user
    /\ o_status order = "paid"
    /\ In item (o_items order)
    /\ oi_productId item = rb_productId body
    /\ oi_vendorId item = rb_vendorId body
    /\ r_userId review = su_id user
    /\ r_orderId review = orderId
    /\ r_productId review = rb_productId body
    /\ r_vendorId review = rb_vendorId body.
Proof.
  unfold review_checks, find_paid_order.
  destruct (sess_user sess) as [user|]; [|discriminate].
  destruct (negb _); [discriminate|].
  destruct (castObjectId (rb_orderId body)) as [orderId|] eqn:Ecast; [|discriminate].
  destruct (orders st !! orderId) as [order|] eqn:Eorder; [|discriminate].
  destruct (String.eqb_spec (o_userId order) (su_id user)) as [Hown|]; [|discriminate].
  destruct (String.eqb_spec (o_status order) "paid") as [Hpaid|]; [|discriminate].
  simpl.
  destruct (find _ (o_items order)) as [item|] eqn:Efind; [|discriminate].
  destruct (existsb _ (reviews st)); [discriminate|].
  intros E. inversion E. subst review. clear E.
  apply find_some in Efind. destruct Efind as [Hin Hm].
  unfold item_matches in Hm. apply andb_true_iff in Hm. destruct Hm as [Hp Hv].
  apply String.eqb_eq in Hp. apply String.eqb_eq in Hv.
  exists user, orderId, order, item. repeat split; auto.
Qed.

Lemma createReview_ok st sess body :
  is_ok (res_response (createReview st sess body)) = true ->
  exists review, review_checks st sess body = inr review.
Proof.
  unfold createReview.
  destruct (review_checks st sess body) as [err|review] eqn:E.
  - unfold review_checks in E.
    destruct (sess_user sess); [|inversion E; discriminate].
    destruct (negb _); [inversion E; discriminate|].
    destruct (castObjectId _); [|inversion E; discriminate].
    destruct (find_paid_order _ _ _); [|inversion E; discriminate].
    destruct (find _ _); [|inversion E; discriminate].
    destruct (existsb _ _); inversion E; discriminate.
  - intros _. exists review. reflexivity.
Qed.

Lemma createReview_failed st sess body :
  is_ok (res_response (createReview st sess body)) = false ->
  res_state (createReview st sess body) = st.
Proof.
  unfold createReview, review_commit.
  destruct (review_checks st sess body); [reflexivity|].
  destruct (Review_save _ _); [discriminate|reflexivity].
Qed.

(** C5. create-review answers with success only when the caller holds a
    paid-or-later order (the code asks for status ['paid'] and the order
    named in the request) whose lines contain the reviewed product from
    the reviewed vendor; when the caller holds no such order the request
    fails, and a request that fails leaves the reviews as they were. *)
Theorem review_requires_paid_purchase st sess body :
  (is_ok (res_response (createReview st sess body)) = true ->
     exists user, sess_user sess = Some user
       /\ purchased st (su_id user) (rb_productId body) (rb_vendorId body))
  /\ ((forall user, sess_user sess = Some user ->
         ~ purchased st (su_id user) (rb_productId body) (rb_vendorId body)) ->
      is_ok (res_response (createReview st sess body)) = false)
  /\ (is_ok (res_response (createReview st sess body)) = false ->
      reviews (res_state (createReview st sess body)) = reviews st).
Proof.
  assert (Hsucc : is_ok (res_response (createReview st sess body)) = true ->
     exists user, sess_user sess = Some user
       /\ purchased st (su_id user) (rb_productId body) (rb_vendorId body)).
  { intros Hok. destruct (createReview_ok st sess body Hok) as [review E].
    destruct (review_checks_pass st sess body review E)
      as (user & orderId & order & item & Hu & _ & Ho & Hown & Hpaid & Hin & Hp & Hv & _).
    exists user. split; [exact Hu|].
    exists orderId, order, item. repeat split; auto.
    rewrite Hpaid. reflexivity. }
  split; [exact Hsucc|]. split.
  - intros Hnone.
    destruct (is_ok (res_response (createReview st sess body))) eqn:Hok; [|reflexivity].
    destruct (Hsucc eq_refl) as [user [Hu Hp]].
    exfalso. exact (Hnone user Hu Hp).
  - intros Hfail. rewrite (createReview_failed st sess body Hfail). reflexivity.
Qed.

(** ** One review per key (C6) *)

Lemma same_review_key_true a b :
  same_review_key a b = true <-> review_key a = review_key b.
Proof.
  unfold same_review_key, review_key. rewrite !andb_true_iff, !String.eqb_eq.
  split.
  - intros [[-> ->] ->]. reflexivity.
  - intros E. inversion E. auto.
Qed.

Lemma key_taken r rs :
  existsb (same_review_key r) rs = true <-> In (review_key r) (map review_key rs).
Proof.
  rewrite existsb_exists, in_map_iff. split.
  - intros [x [Hin Hk]]. exists x. apply same_review_key_true in Hk. auto.
  - intros [x [Hk Hin]]. exists x. split; [exact Hin|].
    apply same_review_key_true. auto.
Qed.

(** The unique index at work: a save never produces two reviews with one
    key, and a save whose key is taken is refused. *)
Lemma Review_save_unique r rs rs' :
  reviews_unique rs -> Review_save r rs = Some rs' -> reviews_unique rs'.
Proof.
  unfold Review_save, reviews_unique. intros Hnd.
  destruct (reviewSchema_validate r); [|discriminate].
  destruct (existsb (same_review_key r) rs) eqn:E; [discriminate|].
  intros E'. inversion E'. subst rs'. rewrite map_app. simpl.
  apply List.NoDup_app.
  - exact Hnd.
  - constructor; [intros []|constructor].
  - intros k Hin [<-|[]].
    apply key_taken in Hin. rewrite Hin in E. discriminate.
Qed.

Lemma Review_save_taken r rs :
  In (review_key r) (map review_key rs) -> Review_save r rs = None.
Proof.
  intros Hin. apply key_taken in Hin. unfold Review_save. rewrite Hin.
  destruct (reviewSchema_validate r); reflexivity.
Qed.

Lemma review_commit_unique st sess review :
  reviews_unique (reviews st) ->
  reviews_unique (reviews (res_state (review_commit st sess review))).
Proof.
  intros Hnd. unfold review_commit.
  destruct (Review_save review (reviews st)) as [rs|] eqn:E; [|exact Hnd].
  simpl. exact (Review_save_unique review (reviews st) rs Hnd E).
Qed.

Lemma review_commit_taken st sess review :
  In (review_key review) (map review_key (reviews st)) ->
  review_commit st sess review = reply (Error 500 "Failed to create review") st sess.
Proof.
  intros Hin. unfold review_commit. rewrite (Review_save_taken _ _ Hin). reflexivity.
Qed.

Lemma review_checks_status st sess user body orderId err :
  sess_user sess = Some user ->
  castObjectId (rb_orderId body) = Some orderId ->
  review_checks st sess body = inl err -> status_of err = 400.
Proof.
  intros Hu Hcast. unfold review_checks. rewrite Hu, Hcast.
  destruct (negb _); [intros E; inversion E; reflexivity|].
  destruct (find_paid_order _ _ _); [|intros E; inversion E; reflexivity].
  destruct (find _ _); [|intros E; inversion E; reflexivity].
  destruct (existsb _ _); intros E; inversion E; reflexivity.
Qed.

Lemma review_checks_not_ok st sess body err :
  review_checks st sess body = inl err -> is_ok err = false.
Proof.
  unfold review_checks.
  destruct (sess_user sess); [|intros E; inversion E; reflexivity].
  destruct (negb _); [intros E; inversion E; reflexivity|].
  destruct (castObjectId _); [|intros E; inversion E; reflexivity].
  destruct (find_paid_order _ _ _); [|intros E; inversion E; reflexivity].
  destruct (find _ _); [|intros E; inversion E; reflexivity].
  destruct (existsb _ _); intros E; inversion E; reflexivity.
Qed.

(** C6 (what the code does). At most one review exists per (user, order,
    product): create-review keeps the reviews unique by that key, and so
    does the saving step of the handler against any state it may find,
    because the unique index refuses the save.  The handler's own
    duplicate check looks for (user, order, product, vendor): a second
    attempt that it finds is answered 400 and creates nothing; a second
    attempt with the key of an existing review is never successful and
    creates nothing, whatever the vendor, but one that the handler's
    check lets through fails on the index and is answered 500. *)
Theorem at_most_one_review_per_key st sess user body :
  sess_user sess = Some user ->
  (reviews_unique (reviews st) ->
     reviews_unique (reviews (res_state (createReview st sess body))))
  /\ (forall st' review,
        reviews_unique (reviews st') ->
        reviews_unique (reviews (res_state (review_commit st' sess review)))
        /\ (In (review_key review) (map review_key (reviews st')) ->
            review_commit st' sess review
            = reply (Error 500 "Failed to create review") st' sess))
  /\ (forall orderId,
        castObjectId (rb_orderId body) = Some orderId ->
        (exists old, In old (reviews st)
           /\ review_key old = (su_id user, orderId, rb_productId body)
           /\ r_vendorId old = rb_vendorId body) ->
        status_of (res_response (createReview st sess body)) = 400
        /\ res_state (createReview st sess body) = st)
  /\ (forall orderId,
        castObjectId (rb_orderId body) = Some orderId ->
        (exists old, In old (reviews st)
           /\ review_key old = (su_id user, orderId, rb_productId body)) ->
        is_ok (res_response (createReview st sess body)) = false
        /\ res_state (createReview st sess body) = st)
  /\ (forall review,
        review_checks st sess body = inr review ->
        In (review_key review) (map review_key (reviews st)) ->
        createReview st sess body
        = reply (Error 500 "Failed to create review") st sess).
Proof.
  intros Hu. split; [|split; [|split; [|split]]].
  - intros Hnd. unfold createReview.
    destruct (review_checks st sess body); [exact Hnd|].
    apply review_commit_unique. exact Hnd.
  - intros st' review Hnd. split.
    + apply review_commit_unique. exact Hnd.
    + apply review_commit_taken.
  - intros orderId Hcast (old & Hin & Hkey & Hvend).
    unfold createReview.
    destruct (review_checks st sess body) as [err|review] eqn:E.
    + simpl. split; [|reflexivity].
      exact (review_checks_status st sess user body orderId err Hu Hcast E).
    + exfalso. revert E. unfold review_checks. rewrite Hu, Hcast.
      destruct (negb _); [discriminate|].
      destruct (find_paid_order _ _ _); [|discriminate].
      destruct (find _ _); [|discriminate].
      assert (Hex : existsb (review_matches (su_id user) orderId
                      (rb_productId body) (rb_vendorId body)) (reviews st) = true).
      { apply existsb_exists. exists old. split; [exact Hin|].
        unfold review_key in Hkey. inversion Hkey.
        unfold review_matches. rewrite Hvend, !String.eqb_refl. reflexivity. }
      rewrite Hex. discriminate.
  - intros orderId Hcast (old & Hin & Hkey).
    unfold createReview.
    destruct (review_checks st sess body) as [err|review] eqn:E.
    + simpl. split; [|reflexivity].
      exact (review_checks_not_ok st sess body err E).
    + destruct (review_checks_pass st sess body review E)
        as (user' & oid & order & item & Hu' & Hcast' & _ & _ & _ & _ & _ & _
            & Hr1 & Hr2 & Hr3 & _).
      rewrite Hu in Hu'. inversion Hu'. subst user'.
      rewrite Hcast in Hcast'. injection Hcast' as Hoid. rewrite <- Hoid in Hr2.
      rewrite review_commit_taken; [split; reflexivity|].
      apply in_map_iff. exists old. split; [|exact Hin].
      rewrite Hkey. unfold review_key. rewrite Hr1, Hr2, Hr3. reflexivity.
  - intros review E Hin. unfold createReview. rewrite E.
    apply review_commit_taken. exact Hin.
Qed.

(** ** Vendor groups (C2, C3) *)

Lemma existsb_eqb_In v (l : list string) : existsb (String.eqb v) l = true <-> In v l.
Proof.
  rewrite existsb_exists. split.
  - intros [x [Hin E]]. apply String.eqb_eq in E. subst. exact Hin.
  - intros Hin. exists v. split; [exact Hin|apply String.eqb_refl].
Qed.

Lemma distinct_vendors_snoc items x :
  distinct_vendors (items ++ [x]) = add_vendor (distinct_vendors items) (oi_vendorId x).
Proof. unfold distinct_vendors. rewrite fold_left_app. reflexivity. Qed.

Lemma distinct_vendors_In items v :
  In v (distinct_vendors items) <-> exists item, In item items /\ oi_vendorId item = v.
Proof.
  induction items as [|x items IH] using rev_ind.
  - simpl. split; [intros []|intros [item [[] _]]].
  - rewrite distinct_vendors_snoc. unfold add_vendor.
    destruct (existsb (String.eqb (oi_vendorId x)) (distinct_vendors items)) eqn:E.
    + rewrite IH. split.
      * intros [item [Hin Hv]]. exists item. split; [|exact Hv].
        apply in_or_app. left. exact Hin.
      * intros [item [Hin Hv]]. apply in_app_or in Hin. destruct Hin as [Hin|[<-|[]]].
        { exists item. auto. }
        apply IH. apply existsb_eqb_In. rewrite <- Hv. exact E.
    + split.
      * intros Hin. apply in_app_or in Hin. destruct Hin as [Hin|[<-|[]]].
        { apply IH in Hin. destruct Hin as [item [Hin Hv]]. exists item.
          split; [apply in_or_app; left; exact Hin|exact Hv]. }
        exists x. split; [apply in_or_app; right; left; reflexivity|reflexivity].
      * intros [item [Hin Hv]]. apply in_or_app.
        apply in_app_or in Hin. destruct Hin as [Hin|[<-|[]]].
        { left. apply IH. exists item. auto. }
        right. left. exact Hv.
Qed.

Lemma distinct_vendors_NoDup items : List.NoDup (distinct_vendors items).
Proof.
  induction items as [|x items IH] using rev_ind.
  - constructor.
  - rewrite distinct_vendors_snoc. unfold add_vendor.
    destruct (existsb (String.eqb (oi_vendorId x)) (distinct_vendors items)) eqn:E;
      [exact IH|].
    apply List.NoDup_app; [exact IH|constructor; [intros []|constructor]|].
    intros a Hin [<-|[]]. apply existsb_eqb_In in Hin. rewrite Hin in E. discriminate.
Qed.

Lemma filter_snoc_same items x v :
  oi_vendorId x = v ->
  List.filter (by_vendor v) (items ++ [x]) = List.filter (by_vendor v) items ++ [x].
Proof.
  intros <-. rewrite List.filter_app. simpl. unfold by_vendor at 2.
  rewrite String.eqb_refl. reflexivity.
Qed.

Lemma filter_snoc_other items x v :
  oi_vendorId x <> v ->
  List.filter (by_vendor v) (items ++ [x]) = List.filter (by_vendor v) items.
Proof.
  intros Hne. rewrite List.filter_app. simpl. unfold by_vendor at 2.
  destruct (String.eqb_spec (oi_vendorId x) v); [contradiction|].
  apply app_nil_r.
Qed.

Lemma filter_unseen items v :
  ~ In v (distinct_vendors items) -> List.filter (by_vendor v) items = [].
Proof.
  intros Hn.
  destruct (List.filter (by_vendor v) items) as [|item rest] eqn:E; [reflexivity|].
  exfalso. apply Hn. apply distinct_vendors_In.
  assert (Hin : In item (List.filter (by_vendor v) items)) by (rewrite E; left; reflexivity).
  apply List.filter_In in Hin. destruct Hin as [Hin Hv].
  exists item. split; [exact Hin|]. apply String.eqb_eq. exact Hv.
Qed.

Lemma group_push_closed items x : forall D,
  List.NoDup D ->
  group_push (oi_vendorId x) x (map (fun k => (k, List.filter (by_vendor k) items)) D)
  = map (fun k => (k, List.filter (by_vendor k) (items ++ [x]))) D
    ++ (if existsb (String.eqb (oi_vendorId x)) D then [] else [(oi_vendorId x, [x])]).
Proof.
  induction D as [|k D IH]; intros Hnd; [reflexivity|].
  inversion Hnd as [|? ? Hnotin Hnd']; subst. simpl.
  rewrite (String.eqb_sym (oi_vendorId x) k).
  destruct (String.eqb_spec k (oi_vendorId x)) as [->|Hne]; simpl.
  - rewrite app_nil_r, filter_snoc_same by reflexivity. f_equal.
    apply List.map_ext_in. intros k' Hin. rewrite filter_snoc_other; [reflexivity|].
    intros E. apply Hnotin. rewrite E. exact Hin.
  - rewrite IH by exact Hnd'. rewrite filter_snoc_other by congruence. reflexivity.
Qed.

(** processVendorPayouts' groups: one per distinct vendor, in order of
    first appearance, each holding that vendor's lines in order. *)
Lemma vendorGroups_closed items :
  vendorGroups items
  = map (fun k => (k, List.filter (by_vendor k) items)) (distinct_vendors items).
Proof.
  induction items as [|x items IH] using rev_ind; [reflexivity|].
  unfold vendorGroups. rewrite fold_left_app. simpl. fold (vendorGroups items).
  rewrite IH, group_push_closed by apply distinct_vendors_NoDup.
  rewrite distinct_vendors_snoc. unfold add_vendor.
  destruct (existsb (String.eqb (oi_vendorId x)) (distinct_vendors items)) eqn:E.
  - apply app_nil_r.
  - rewrite List.map_app. simpl. rewrite filter_snoc_same by reflexivity.
    rewrite filter_unseen; [reflexivity|].
    intros Hin. apply existsb_eqb_In in Hin. rewrite Hin in E. discriminate.
Qed.

Lemma vendor_gross_snoc_same items x v :
  oi_vendorId x = v ->
  vendor_gross v (items ++ [x]) = num_add (vendor_gross v items) (line_amount x).
Proof.
  intros Hv. unfold vendor_gross. rewrite filter_snoc_same by exact Hv.
  apply items_total_snoc.
Qed.

Lemma vendor_gross_snoc_other items x v :
  oi_vendorId x <> v -> vendor_gross v (items ++ [x]) = vendor_gross v items.
Proof.
  intros Hv. unfold vendor_gross. rewrite filter_snoc_other by exact Hv. reflexivity.
Qed.

Lemma group_add_closed items x : forall D,
  List.NoDup D ->
  group_add (oi_vendorId x) (line_amount x) (map (fun k => (k, vendor_gross k items)) D)
  = map (fun k => (k, vendor_gross k (items ++ [x]))) D
    ++ (if existsb (String.eqb (oi_vendorId x)) D then []
        else [(oi_vendorId x, num_add num_zero (line_amount x))]).
Proof.
  induction D as [|k D IH]; intros Hnd; [reflexivity|].
  inversion Hnd as [|? ? Hnotin Hnd']; subst. simpl.
  rewrite (String.eqb_sym (oi_vendorId x) k).
  destruct (String.eqb_spec k (oi_vendorId x)) as [->|Hne]; simpl.
  - rewrite app_nil_r, vendor_gross_snoc_same by reflexivity. f_equal.
    apply List.map_ext_in. intros k' Hin. rewrite vendor_gross_snoc_other; [reflexivity|].
    intros E. apply Hnotin. rewrite E. exact Hin.
  - rewrite IH by exact Hnd'. rewrite vendor_gross_snoc_other by congruence. reflexivity.
Qed.

(** /payments/verify's groups: one per distinct vendor, each holding that
    vendor's gross. *)
Lemma vendorTotals_closed items :
  vendorTotals items = map (fun k => (k, vendor_gross k items)) (distinct_vendors items).
Proof.
  induction items as [|x items IH] using rev_ind; [reflexivity|].
  unfold vendorTotals. rewrite fold_left_app. simpl. fold (vendorTotals items).
  rewrite IH, group_add_closed by apply distinct_vendors_NoDup.
  rewrite distinct_vendors_snoc. unfold add_vendor.
  destruct (existsb (String.eqb (oi_vendorId x)) (distinct_vendors items)) eqn:E.
  - apply app_nil_r.
  - assert (Hz : vendor_gross (oi_vendorId x) items = num_zero).
    { unfold vendor_gross. rewrite filter_unseen; [reflexivity|].
      intros Hin. apply existsb_eqb_In in Hin. rewrite Hin in E. discriminate. }
    rewrite List.map_app. simpl. rewrite vendor_gross_snoc_same by reflexivity.
    rewrite Hz. reflexivity.
Qed.

(** The sibling path: /payments/verify attaches to the Payment record one
    entry per distinct vendor of the order, each with status ['pending']. *)
Lemma computeVendorPayouts_entries items :
  map po_vendorId (computeVendorPayouts items) = distinct_vendors items
  /\ Forall (fun p => po_status p = "pending"
                      /\ po_amount p = vendor_gross (po_vendorId p) items
                      /\ po_commission p
                         = num_div (num_mul (po_amount p) num_lit_1_0) num_lit_100
                      /\ po_netAmount p = num_sub (po_amount p) (po_commission p))
            (computeVendorPayouts items).
Proof.
  unfold computeVendorPayouts. rewrite vendorTotals_closed, !List.map_map. simpl. split.
  - apply List.map_id.
  - apply List.Forall_forall. intros p Hin. apply List.in_map_iff in Hin.
    destruct Hin as [k [<- _]]. simpl. repeat split.
Qed.

Lemma payout_nets_closed orderId items :
  payout_nets orderId items
  = map (fun k => num_sub (vendor_gross k items)
                          (num_mul (vendor_gross k items) num_lit_0_01))
        (distinct_vendors items).
Proof.
  unfold payout_nets. rewrite vendorGroups_closed, List.map_map.
  induction (distinct_vendors items) as [|k D IH]; [reflexivity|].
  simpl. f_equal. exact IH.
Qed.

Lemma items_total_sum items : items_total items = sum_num (map line_amount items).
Proof.
  unfold items_total, sum_num. generalize num_zero.
  induction items as [|x items IH]; intros a; simpl; [reflexivity|apply IH].
Qed.

(** ** Payout sums in exact arithmetic (C3) *)

Section Exact.
Context {Hexact : ExactArith num}.

Lemma fold_add_acc l : forall a, fold_left num_add l a = num_add a (sum_num l).
Proof.
  unfold sum_num. induction l as [|x l IH]; intros a; simpl.
  - rewrite exact_add_comm, exact_add_0_l. reflexivity.
  - rewrite (IH (num_add a x)), (IH (num_add num_zero x)), exact_add_0_l.
    symmetry. apply exact_add_assoc.
Qed.

Lemma sum_num_cons x l : sum_num (x :: l) = num_add x (sum_num l).
Proof.
  unfold sum_num at 1. simpl. rewrite fold_add_acc, exact_add_0_l. reflexivity.
Qed.

Lemma add_shuffle a b c : num_add (num_add a b) c = num_add (num_add a c) b.
Proof.
  rewrite <- exact_add_assoc, (exact_add_comm b c), exact_add_assoc. reflexivity.
Qed.

Lemma sum_zeros (D : list string) : sum_num (map (fun _ => num_zero) D) = num_zero.
Proof.
  induction D as [|k D IH]; [reflexivity|].
  simpl. rewrite sum_num_cons, IH. apply exact_add_0_l.
Qed.

(** Nets add up to the gross total less the commission on it. *)
Lemma sum_nets_of_grosses (g : string -> num) (rate : num) D :
  sum_num (map (fun k => num_sub (g k) (num_mul (g k) rate)) D)
  = num_sub (sum_num (map g D)) (num_mul (sum_num (map g D)) rate).
Proof.
  induction D as [|k D IH]; simpl.
  - unfold sum_num. simpl. rewrite exact_mul_0_l, exact_sub_0_r. reflexivity.
  - rewrite !sum_num_cons, IH, exact_sub_add, exact_mul_add_distr_r. reflexivity.
Qed.

Lemma sum_bump (g : string -> num) v a D :
  List.NoDup D ->
  sum_num (map (fun k => if String.eqb v k then num_add (g k) a else g k) D)
  = if existsb (String.eqb v) D then num_add (sum_num (map g D)) a
    else sum_num (map g D).
Proof.
  induction D as [|k D IH]; intros Hnd; [reflexivity|].
  inversion Hnd as [|? ? Hnotin Hnd']; subst. simpl.
  rewrite !sum_num_cons, (IH Hnd').
  destruct (String.eqb_spec v k) as [->|Hne]; simpl.
  - assert (E : existsb (String.eqb k) D = false).
    { destruct (existsb (String.eqb k) D) eqn:E; [|reflexivity].
      apply existsb_eqb_In in E. contradiction. }
    rewrite E. apply add_shuffle.
  - destruct (existsb (String.eqb v) D); [apply exact_add_assoc|reflexivity].
Qed.

(** The grosses of the distinct vendors add up to the total of all lines. *)
Lemma sum_grosses items :
  sum_num (map (fun k => vendor_gross k items) (distinct_vendors items))
  = items_total items.
Proof.
  assert (Hgen : forall D, List.NoDup D ->
            (forall item, In item items -> In (oi_vendorId item) D) ->
            sum_num (map (fun k => vendor_gross k items) D) = items_total items).
  { induction items as [|x items IH] using rev_ind; intros D Hnd Hcov.
    - apply sum_zeros.
    - rewrite items_total_snoc.
      rewrite (List.map_ext (fun k => vendor_gross k (items ++ [x]))
                 (fun k => if String.eqb (oi_vendorId x) k
                           then num_add (vendor_gross k items) (line_amount x)
                           else vendor_gross k items)).
      + rewrite sum_bump by exact Hnd.
        assert (Hin : existsb (String.eqb (oi_vendorId x)) D = true).
        { apply existsb_eqb_In. apply Hcov. apply in_or_app. right. left. reflexivity. }
        rewrite Hin, IH; [reflexivity|exact Hnd|].
        intros item Hitem. apply Hcov. apply in_or_app. left. exact Hitem.
      + intros k. destruct (String.eqb_spec (oi_vendorId x) k) as [E|Hne].
        * apply vendor_gross_snoc_same. exact E.
        * apply vendor_gross_snoc_other. exact Hne. }
  apply Hgen.
  - apply distinct_vendors_NoDup.
  - intros item Hin. apply distinct_vendors_In. exists item. auto.
Qed.

Lemma payout_nets_sum orderId items :
  sum_num (payout_nets orderId items)
  = num_sub (items_total items) (num_mul (items_total items) num_lit_0_01).
Proof.
  rewrite payout_nets_closed.
  rewrite (sum_nets_of_grosses (fun k => vendor_gross k items)), sum_grosses.
  reflexivity.
Qed.

Lemma netAmounts_sum items :
  sum_num (map po_netAmount (computeVendorPayouts items))
  = num_sub (items_total items) (num_mul (items_total items) num_lit_0_01).
Proof.
  unfold computeVendorPayouts. rewrite vendorTotals_closed, !List.map_map. simpl.
  rewrite (List.map_ext _ (fun k => num_sub (vendor_gross k items)
                                     (num_mul (vendor_gross k items) num_lit_0_01)))
    by (intros k; rewrite exact_percent; reflexivity).
  rewrite (sum_nets_of_grosses (fun k => vendor_gross k items)), sum_grosses.
  reflexivity.
Qed.

End Exact.

(** C3 (as amended). For the order that create-order stores, both payout
    computations make one group per distinct vendor of the order's lines;
    a group's gross is the sum of price times quantity over that vendor's
    lines and its net is the gross less its commission, where the
    commission is [gross * 0.01] in the orders route
    (processVendorPayouts) and [(gross * 1.0) / 100] in /payments/verify.
    All of this holds in whatever arithmetic the amounts live in, binary64
    included.  When amounts are exact (a decimal or rational type) the two
    commissions agree, and the nets of all groups add up to
    [totalAmount - totalAmount * 0.01]. *)
Theorem payout_nets_sum_to_total_less_commission env st sess :
  is_ok (res_response (createOrder env st sess)) = true ->
  exists order,
    orders (res_state (createOrder env st sess)) !! env_newId env = Some order
    /\ map fst (vendorGroups (o_items order)) = distinct_vendors (o_items order)
    /\ map po_vendorId (computeVendorPayouts (o_items order))
       = distinct_vendors (o_items order)
    /\ (forall group, In group (vendorGroups (o_items order)) ->
         let gross := vendor_gross (fst group) (o_items order) in
         items_total (snd group) = gross
         /\ pi_commission (payout_init (env_newId env) group)
            = Some (num_mul gross num_lit_0_01)
         /\ pi_amount (payout_init (env_newId env) group)
            = Some (num_sub gross (num_mul gross num_lit_0_01)))
    /\ (forall p, In p (computeVendorPayouts (o_items order)) ->
         let gross := vendor_gross (po_vendorId p) (o_items order) in
         po_amount p = gross
         /\ po_commission p = num_div (num_mul gross num_lit_1_0) num_lit_100
         /\ po_netAmount p
            = num_sub gross (num_div (num_mul gross num_lit_1_0) num_lit_100))
    /\ (ExactArith num ->
        (forall gross,
           num_div (num_mul gross num_lit_1_0) num_lit_100 = num_mul gross num_lit_0_01)
        /\ sum_num (payout_nets (env_newId env) (o_items order))
           = num_sub (o_totalAmount order) (num_mul (o_totalAmount order) num_lit_0_01)
        /\ sum_num (map po_netAmount (computeVendorPayouts (o_items order)))
           = num_sub (o_totalAmount order)
                     (num_mul (o_totalAmount order) num_lit_0_01)).
Proof.
  intros Hok.
  destruct (created_order_total env st sess Hok) as [order [Hl Htot]].
  exists order. split; [exact Hl|].
  split; [|split; [|split; [|split]]].
  - rewrite vendorGroups_closed, List.map_map. simpl. apply List.map_id.
  - apply computeVendorPayouts_entries.
  - intros group Hin. rewrite vendorGroups_closed in Hin.
    apply List.in_map_iff in Hin. destruct Hin as [k [<- _]]. simpl.
    repeat split.
  - intros p Hin.
    destruct (computeVendorPayouts_entries (o_items order)) as [_ Hall].
    rewrite List.Forall_forall in Hall.
    destruct (Hall p Hin) as (_ & Ha & Hc & Hn). cbv zeta.
    rewrite <- Ha. split; [reflexivity|].
    rewrite Hn, Hc. split; reflexivity.
  - intros Hexact. split; [|split].
    + intros gross. apply exact_percent.
    + rewrite Htot. apply payout_nets_sum.
    + rewrite Htot. apply netAmounts_sum.
Qed.

(** * Further properties of the code *)

(** ** The cart (routes/cart.js) *)

Lemma findIndex_None id cart :
  findIndex id cart = None <-> ~ In id (map ci_vendorProductId cart).
Proof.
  induction cart as [|item cart IH]; simpl.
  - split; [intros _ []|reflexivity].
  - destruct (String.eqb_spec (ci_vendorProductId item) id) as [E|Hne].
    + split; [discriminate|]. intros Hn. exfalso. apply Hn. left. exact E.
    + destruct (findIndex id cart) as [i|]; simpl.
      * split; [discriminate|]. intros Hn. exfalso.
        assert (Hsome : Some i <> None) by discriminate.
        apply Hsome. apply IH. intros Hin. apply Hn. right. exact Hin.
      * split; [|reflexivity]. intros _ [E|Hin]; [contradiction|].
        revert Hin. apply IH. reflexivity.
Qed.

Lemma update_at_ids i f cart :
  (forall item, ci_vendorProductId (f item) = ci_vendorProductId item) ->
  map ci_vendorProductId (update_at i f cart) = map ci_vendorProductId cart.
Proof.
  intros Hf. revert i. induction cart as [|item cart IH]; intros [|i]; simpl;
    try reflexivity.
  - rewrite Hf. reflexivity.
  - rewrite IH. reflexivity.
Qed.

Lemma splice_at_incl i cart x :
  In x (map ci_vendorProductId (splice_at i cart)) -> In x (map ci_vendorProductId cart).
Proof.
  revert i. induction cart as [|item cart IH]; intros [|i]; simpl; auto.
  intros [E|Hin]; [left; exact E|right; exact (IH i Hin)].
Qed.

Lemma splice_at_unique i cart : cart_unique cart -> cart_unique (splice_at i cart).
Proof.
  unfold cart_unique. revert i.
  induction cart as [|item cart IH]; intros [|i] Hnd; simpl; try exact Hnd.
  - inversion Hnd. assumption.
  - inversion Hnd as [|? ? Hnotin Hnd']; subst. constructor.
    + intros Hin. apply Hnotin. exact (splice_at_incl i cart _ Hin).
    + apply IH. exact Hnd'.
Qed.

Lemma filter_unique (keep : CartItem -> bool) cart :
  cart_unique cart -> cart_unique (List.filter keep cart).
Proof.
  unfold cart_unique. induction cart as [|item cart IH]; intros Hnd; simpl; [exact Hnd|].
  inversion Hnd as [|? ? Hnotin Hnd']; subst.
  destruct (keep item); simpl; [|exact (IH Hnd')].
  constructor; [|exact (IH Hnd')].
  intros Hin. apply Hnotin. apply List.in_map_iff in Hin.
  destruct Hin as [x [Hx Hin]]. apply List.filter_In in Hin.
  apply List.in_map_iff. exists x. split; [exact Hx|apply Hin].
Qed.

Lemma update_at_listings i f cart :
  (forall item, ci_vendorProductId (f item) = ci_vendorProductId item) ->
  map listing_of (update_at i f cart) = map listing_of cart.
Proof.
  intros Hf. revert i. induction cart as [|item cart IH]; intros [|i]; simpl;
    try reflexivity.
  - unfold listing_of. rewrite Hf. reflexivity.
  - rewrite IH. reflexivity.
Qed.

Lemma splice_at_listings_incl i cart x :
  In x (map listing_of (splice_at i cart)) -> In x (map listing_of cart).
Proof.
  revert i. induction cart as [|item cart IH]; intros [|i]; simpl; auto.
  intros [E|Hin]; [left; exact E|right; exact (IH i Hin)].
Qed.

Lemma splice_at_listings i cart :
  one_line_per_listing cart -> one_line_per_listing (splice_at i cart).
Proof.
  unfold one_line_per_listing. revert i.
  induction cart as [|item cart IH]; intros [|i] Hnd; simpl; try exact Hnd.
  - inversion Hnd. assumption.
  - inversion Hnd as [|? ? Hnotin Hnd']; subst. constructor.
    + intros Hin. apply Hnotin. exact (splice_at_listings_incl i cart _ Hin).
    + apply IH. exact Hnd'.
Qed.

Lemma filter_listings (keep : CartItem -> bool) cart :
  one_line_per_listing cart -> one_line_per_listing (List.filter keep cart).
Proof.
  unfold one_line_per_listing.
  induction cart as [|item cart IH]; intros Hnd; simpl; [exact Hnd|].
  inversion Hnd as [|? ? Hnotin Hnd']; subst.
  destruct (keep item); simpl; [|exact (IH Hnd')].
  constructor; [|exact (IH Hnd')].
  intros Hin. apply Hnotin. apply List.in_map_iff in Hin.
  destruct Hin as [x [Hx Hin]]. apply List.filter_In in Hin.
  apply List.in_map_iff. exists x. split; [exact Hx|apply Hin].
Qed.

(** The cart that /cart/add leaves in the session. *)
Lemma cartAdd_cart st sess body :
  session_cart (snd (cartAdd st sess body)) = session_cart sess
  \/ (exists i,
        findIndex (ab_vendorProductId body) (session_cart sess) = Some i
        /\ session_cart (snd (cartAdd st sess body))
           = update_at i
               (fun item =>
                  set_qty (ci_qty item
                           + match ab_qty body with Some q => q | None => 1 end) item)
               (session_cart sess))
  \/ (exists line,
        findIndex (ab_vendorProductId body) (session_cart sess) = None
        /\ ci_vendorProductId line = ab_vendorProductId body
        /\ session_cart (snd (cartAdd st sess body)) = session_cart sess ++ [line]).
Proof.
  unfold cartAdd.
  destruct (castObjectId (ab_vendorProductId body)) as [id|]; [|left; reflexivity].
  destruct (vendorProducts st !! id) as [vp|]; [|left; reflexivity].
  destruct (vp_stock vp <? _); [left; reflexivity|].
  cbv zeta. fold (session_cart sess).
  destruct (findIndex (ab_vendorProductId body) (session_cart sess)) as [i|] eqn:E.
  - right. left. exists i. split; reflexivity.
  - destruct (productMasters st !! vp_productId vp) as [product|]; [|left; reflexivity].
    destruct (vendors st !! vp_vendorId vp) as [vendor|]; [|left; reflexivity].
    right. right. eexists. split; [reflexivity|]. split; [|reflexivity]. reflexivity.
Qed.

(** X1. The cart handlers keep the cart at one line per id as the ids
    were sent: /cart/add, /cart/remove, /cart/update and /cart/clear
    leave no two lines with the same [vendorProductId] when they found
    none.  Two spellings of one ObjectId are two different strings:
    /cart/remove, /cart/update and /cart/clear also keep the cart at one
    line per listing, and /cart/add does when the listing is not already
    in the cart under another spelling of its id (otherwise it pushes a
    second line for the listing, see [second_spelling_run]). *)
Theorem cart_operations_keep_lines_unique st sess body vendorProductId qty :
  cart_unique (session_cart sess) ->
  (cart_unique (session_cart (snd (cartAdd st sess body)))
   /\ cart_unique (session_cart (snd (cartRemove sess vendorProductId)))
   /\ cart_unique (session_cart (snd (cartUpdate sess vendorProductId qty)))
   /\ cart_unique (session_cart (snd (cartClear sess))))
  /\ (one_line_per_listing (session_cart sess) ->
      one_line_per_listing (session_cart (snd (cartRemove sess vendorProductId)))
      /\ one_line_per_listing (session_cart (snd (cartUpdate sess vendorProductId qty)))
      /\ one_line_per_listing (session_cart (snd (cartClear sess)))
      /\ ((forall item, In item (session_cart sess) ->
              listing_of item = castObjectId (ab_vendorProductId body) ->
              ci_vendorProductId item = ab_vendorProductId body) ->
          one_line_per_listing (session_cart (snd (cartAdd st sess body))))).
Proof.
  intros Hu. split; [repeat split|].
  - destruct (cartAdd_cart st sess body) as [->|[(i & _ & ->)|(line & E & Hid & ->)]].
    + exact Hu.
    + unfold cart_unique. rewrite update_at_ids; [exact Hu|reflexivity].
    + unfold cart_unique. rewrite List.map_app. simpl.
      apply List.NoDup_app; [exact Hu|constructor; [intros []|constructor]|].
      intros a Hin [<-|[]]. apply findIndex_None in E. rewrite Hid in Hin. contradiction.
  - unfold cartRemove.
    destruct (sess_cart sess) as [cart|] eqn:Ec; cbn [snd]; [|exact Hu].
    unfold session_cart in *. rewrite Ec in Hu. cbn [set_cart sess_cart].
    apply filter_unique. exact Hu.
  - unfold cartUpdate.
    destruct (sess_cart sess) as [cart|] eqn:Ec; cbn [snd]; [|exact Hu].
    destruct (findIndex vendorProductId cart) as [i|]; cbn [snd]; [|exact Hu].
    unfold session_cart in *. rewrite Ec in Hu.
    cbv zeta. cbn [set_cart sess_cart]. destruct (qty <=? 0).
    + apply splice_at_unique. exact Hu.
    + unfold cart_unique. rewrite update_at_ids; [exact Hu|reflexivity].
  - constructor.
  - intros Hl. split; [|split; [|split]].
    + unfold cartRemove.
      destruct (sess_cart sess) as [cart|] eqn:Ec; cbn [snd]; [|exact Hl].
      unfold session_cart in *. rewrite Ec in Hl. cbn [set_cart sess_cart].
      apply filter_listings. exact Hl.
    + unfold cartUpdate.
      destruct (sess_cart sess) as [cart|] eqn:Ec; cbn [snd]; [|exact Hl].
      destruct (findIndex vendorProductId cart) as [i|]; cbn [snd]; [|exact Hl].
      unfold session_cart in *. rewrite Ec in Hl.
      cbv zeta. cbn [set_cart sess_cart]. destruct (qty <=? 0).
      * apply splice_at_listings. exact Hl.
      * unfold one_line_per_listing.
        rewrite update_at_listings; [exact Hl|reflexivity].
    + constructor.
    + intros Hspell.
      destruct (cartAdd_cart st sess body) as [->|[(i & _ & ->)|(line & E & Hid & ->)]].
      * exact Hl.
      * unfold one_line_per_listing.
        rewrite update_at_listings; [exact Hl|reflexivity].
      * unfold one_line_per_listing. rewrite List.map_app. simpl.
        apply List.NoDup_app; [exact Hl|constructor; [intros []|constructor]|].
        intros a Hin [<-|[]]. apply List.in_map_iff in Hin.
        destruct Hin as [item [Hsame Hitem]].
        apply findIndex_None in E. apply E.
        apply List.in_map_iff. exists item. split; [|exact Hitem].
        apply Hspell; [exact Hitem|]. rewrite Hsame. unfold listing_of.
        rewrite Hid. reflexivity.
Qed.

Lemma cart_qty_absent L cart :
  ~ In L (map ci_vendorProductId cart) -> cart_qty L cart = 0.
Proof.
  induction cart as [|item cart IH]; simpl; intros Hn; [reflexivity|].
  destruct (String.eqb_spec (ci_vendorProductId item) L) as [E|_].
  - exfalso. apply Hn. left. exact E.
  - apply IH. intros Hin. apply Hn. right. exact Hin.
Qed.








(** ** From the cart to the order (routes/cart.js, routes/orders.js) *)

(** create-order on a cart that the loop does not get through. *)
Lemma createOrder_stopped env st sess user cart err :
  sess_user sess = Some user ->
  sess_cart sess = Some cart ->
  collect_items st cart num_zero [] = inl err ->
  createOrder env st sess
  = if negb (castable_ids cart)
    then reply (Error 500 "Failed to create order") st sess
    else reply err st sess.
Proof.
  intros Hu Hc Herr. unfold createOrder. rewrite Hu, Hc.
  destruct cart as [|c cart]; [discriminate Herr|].
  destruct (negb (castable_ids (c :: cart))); [reflexivity|].
  rewrite Herr. reflexivity.
Qed.






Lemma collect_items_cart_total st cart :
  forall totalAmount orderItems T items,
  collect_items st cart totalAmount orderItems = inr (T, items) ->
  (forall item vendorProduct, In item cart ->
     vendorProducts st !! ci_vendorProductId item = Some vendorProduct ->
     ci_price item = vp_price vendorProduct) ->
  T = fold_left (fun sum item =>
                   num_add sum (num_mul (ci_price item) (num_of_Z (ci_qty item))))
                cart totalAmount.
Proof.
  induction cart as [|item cart IH]; intros totalAmount orderItems T items.
  - simpl. intros E _. inversion E. reflexivity.
  - intros E Hp. apply collect_items_goes_on in E.
    destruct E as (vp & El & _ & _ & E).
    cbn [fold_left]. rewrite (Hp item vp (or_introl eq_refl) El).
    apply (IH _ _ _ _ E). intros x vpx Hin. apply Hp. right. exact Hin.
Qed.

(** X5. When every line of the cart still carries the current price of
    its listing, the total that GET /cart shows is the total of the order
    that create-order stores. *)
Theorem cart_total_is_order_total env st sess cart :
  sess_cart sess = Some cart ->
  (forall item vendorProduct, In item cart ->
     vendorProducts st !! ci_vendorProductId item = Some vendorProduct ->
     ci_price item = vp_price vendorProduct) ->
  is_ok (res_response (createOrder env st sess)) = true ->
  exists order,
    orders (res_state (createOrder env st sess)) !! env_newId env = Some order
    /\ cartGet sess = CartView cart (o_totalAmount order) (cart_itemCount cart).
Proof.
  intros Hc Hp Hok.
  destruct (createOrder_ok env st sess Hok)
    as (user & cart0 & T & items & order & Hu & Hc0 & Hcol & E & Hfresh & Hown & Hitems
        & Htot & Hst).
  rewrite Hc in Hc0. inversion Hc0. subst cart0.
  exists order. rewrite E. simpl. split; [apply lookup_insert_eq|].
  unfold cartGet. rewrite Hc. f_equal. rewrite Htot.
  symmetry. exact (collect_items_cart_total _ _ _ _ _ _ Hcol Hp).
Qed.

(** X6. create-order reserves nothing: it leaves the listings (so every
    stock), the payments, the reviews, the cache and the session (so the
    cart) as they were, and it never changes or replaces a stored order. *)
Theorem createOrder_reserves_nothing env st sess :
  vendorProducts (res_state (createOrder env st sess)) = vendorProducts st
  /\ payments (res_state (createOrder env st sess)) = payments st
  /\ reviews (res_state (createOrder env st sess)) = reviews st
  /\ caches (res_state (createOrder env st sess)) = caches st
  /\ res_session (createOrder env st sess) = sess
  /\ forall id order, orders st !! id = Some order ->
       orders (res_state (createOrder env st sess)) !! id = Some order.
Proof.
  unfold createOrder.
  destruct (sess_user sess) as [user|]; [|repeat split; auto].
  destruct (sess_cart sess) as [[|c cart]|]; try (repeat split; auto; fail).
  destruct (negb (castable_ids (c :: cart))); [repeat split; auto|].
  destruct (collect_items _ _ _ _) as [err|[T items]]; [repeat split; auto|].
  cbv zeta. unfold Order_save_new.
  destruct (orderSchema_validate _); [|repeat split; auto].
  destruct (orders st !! env_newId env) eqn:Efresh; [repeat split; auto|].
  destruct (open_gateway_order env); simpl; repeat split; auto;
    intros id order Hl; rewrite lookup_insert_ne; auto; congruence.
Qed.

Lemma collect_items_lines st cart :
  forall totalAmount orderItems T items,
  collect_items st cart totalAmount orderItems = inr (T, items) ->
  exists new, items = orderItems ++ new
              /\ Forall2 (line_from (vendorProducts st)) cart new.
Proof.
  induction cart as [|item cart IH]; intros totalAmount orderItems T items.
  - simpl. intros E. inversion E. exists []. split; [symmetry; apply app_nil_r|constructor].
  - intros E. apply collect_items_goes_on in E.
    destruct E as (vp & El & Hge & _ & E).
    destruct (IH _ _ _ _ E) as [new [Hitems Hall]].
    eexists (_ :: new). split.
    + rewrite Hitems, <- app_assoc. reflexivity.
    + constructor; [|exact Hall].
      unfold line_from. simpl. repeat split. exists vp. repeat split; auto.
Qed.

Lemma lines_same_listings (vps : gmap string VendorProduct) cart items :
  Forall2 (line_from vps) cart items ->
  map oi_vendorProductId items = map ci_vendorProductId cart
  /\ map oi_qty items = map ci_qty cart.
Proof.
  induction 1 as [|ci oi cart items Hl _ [IH1 IH2]]; [split; reflexivity|].
  destruct Hl as (Hid & Hq & _). simpl. rewrite Hid, Hq, IH1, IH2. split; reflexivity.
Qed.

(** X7. The order that create-order stores is pending, owned by the
    caller, and has exactly one line per cart line, in the cart's order:
    same listing and quantity, with product, vendor and price read from
    the listing, whose stock covers the quantity. A cart with one line
    per listing gives an order with one line per listing. *)
Theorem created_order_follows_cart env st sess :
  is_ok (res_response (createOrder env st sess)) = true ->
  exists user cart order,
    sess_user sess = Some user /\ sess_cart sess = Some cart
    /\ orders (res_state (createOrder env st sess)) !! env_newId env = Some order
    /\ o_userId order = su_id user
    /\ o_status order = "pending"
    /\ Forall2 (line_from (vendorProducts st)) cart (o_items order)
    /\ (cart_unique cart -> List.NoDup (map oi_vendorProductId (o_items order))).
Proof.
  intros Hok.
  destruct (createOrder_ok env st sess Hok)
    as (user & cart & T & items & order & Hu & Hc & Hcol & E & Hfresh & Hown & Hitems
        & Htot & Hst).
  destruct (collect_items_lines _ _ _ _ _ _ Hcol) as [new [Hnew Hall]].
  simpl in Hnew. subst new.
  exists user, cart, order. rewrite E, Hitems. simpl.
  repeat split; auto.
  - apply lookup_insert_eq.
  - intros Huniq. destruct (lines_same_listings _ _ _ Hall) as [Hids _].
    rewrite Hids. exact Huniq.
Qed.

(** X8. Whether create-order stores the order does not depend on the
    payment gateway; when the gateway call fails the stored order is in
    demo mode, with the local id [demo_<now>] in place of the gateway's. *)
Theorem createOrder_survives_gateway_failure env env' st sess :
  env_newId env' = env_newId env ->
  is_ok (res_response (createOrder env' st sess))
    = is_ok (res_response (createOrder env st sess))
  /\ (env_razorpay_create env = None ->
      is_ok (res_response (createOrder env st sess)) = true ->
      exists order,
        orders (res_state (createOrder env st sess)) !! env_newId env = Some order
        /\ o_paymentType order = "demo"
        /\ o_razorpayOrderId order = Some ("demo_" +:+ pretty (env_now env))
        /\ res_response (createOrder env st sess)
           = Ok (OrderCreatedDemo (env_newId env) (o_totalAmount order))).
Proof.
  intros Hid. split.
  - unfold createOrder.
    destruct (sess_user sess) as [user|]; [|reflexivity].
    destruct (sess_cart sess) as [[|c cart]|]; try reflexivity.
    destruct (negb (castable_ids (c :: cart))); [reflexivity|].
    destruct (collect_items _ _ _ _) as [err|[T items]]; [reflexivity|].
    cbv zeta. unfold Order_save_new, orderSchema_validate. cbn [o_items o_totalAmount o_status].
    rewrite Hid.
    destruct (forallb _ items && num_leb num_zero T && in_enum "pending" orderStatusEnum);
      [|reflexivity].
    destruct (orders st !! env_newId env); [reflexivity|].
    destruct (open_gateway_order env'), (open_gateway_order env); reflexivity.
  - intros Hgw. unfold createOrder.
    destruct (sess_user sess) as [user|]; [|discriminate].
    destruct (sess_cart sess) as [[|c cart]|]; try discriminate.
    destruct (negb (castable_ids (c :: cart))); [discriminate|].
    destruct (collect_items _ _ _ _) as [err|[T items]] eqn:Ecol.
    + intros Hok. exfalso.
      cbn [res_response reply] in Hok.
      rewrite (collect_items_not_ok _ _ _ _ _ Ecol) in Hok. discriminate.
    + assert (Hopen : open_gateway_order env = None).
      { unfold open_gateway_order. rewrite Hgw. destruct (_ && _); reflexivity. }
      cbv zeta. rewrite Hopen. unfold Order_save_new.
      destruct (orderSchema_validate _); [|discriminate].
      destruct (orders st !! env_newId env); [discriminate|].
      intros _. eexists. simpl. split; [apply lookup_insert_eq|].
      repeat split.
Qed.

(** X9. /cart/add does not ask for a positive quantity, orderSchema does
    ([min: 1]): when every line of the cart is available and some line
    has a quantity below 1, create-order fails in [order.save()], answers
    500 and stores nothing. *)
Theorem createOrder_refuses_nonpositive_quantity env st sess user cart :
  sess_user sess = Some user ->
  sess_cart sess = Some cart ->
  (forall item, In item cart -> ~ line_unavailable (vendorProducts st) item) ->
  (exists item, In item cart /\ ci_qty item < 1) ->
  createOrder env st sess = reply (Error 500 "Failed to create order") st sess.
Proof.
  intros Hu Hc Hav [bad [Hin Hbad]].
  destruct (collect_items st cart num_zero []) as [err|[T items]] eqn:Hcol.
  { rewrite (createOrder_stopped env st sess user cart err Hu Hc Hcol).
    destruct (negb (castable_ids cart)); [reflexivity|].
    destruct (collect_items_error st cart _ _ _ Hcol) as [->|[w [Hw [Hun _]]]];
      [reflexivity|].
    exfalso. exact (Hav w Hw Hun). }
  destruct (collect_items_lines _ _ _ _ _ _ Hcol) as [new [Hnew Hall]].
  simpl in Hnew. subst new.
  destruct (lines_same_listings _ _ _ Hall) as [_ Hq].
  unfold createOrder. rewrite Hu, Hc.
  destruct cart as [|c cart]; [destruct Hin|].
  destruct (negb (castable_ids (c :: cart))); [reflexivity|].
  rewrite Hcol. cbv zeta. unfold Order_save_new, orderSchema_validate.
  cbn [o_items o_totalAmount o_status].
  assert (Hf : forallb (fun it => 1 <=? oi_qty it) items = false).
  { destruct (forallb (fun it => 1 <=? oi_qty it) items) eqn:Ef; [|reflexivity].
    exfalso. rewrite forallb_forall in Ef.
    assert (Hinq : In (ci_qty bad) (map oi_qty items)).
    { rewrite Hq. apply in_map. exact Hin. }
    apply List.in_map_iff in Hinq. destruct Hinq as [oi [Hoq Hoi]].
    specialize (Ef oi Hoi). apply Z.leb_le in Ef. lia. }
  rewrite Hf. reflexivity.
Qed.

(** ** Confirmation by demo-checkout (routes/orders.js) *)





(** X12. Confirmation does not look at the stock: after the
    demo-checkouts of two different stored orders by their owners, the
    stock of a listing is its stock before, less the quantities of both
    orders, with no lower bound at zero. *)
Theorem two_confirmations_take_both_quantities
    env1 env2 st sess1 sess2 user1 user2 oid1 oid2 first second L s :
  oid1 <> oid2 ->
  sess_user sess1 = Some user1 ->
  sess_user sess2 = Some user2 ->
  orders st !! oid1 = Some first ->
  orders st !! oid2 = Some second ->
  o_userId first = su_id user1 ->
  o_userId second = su_id user2 ->
  stock_of st L = Some s ->
  stock_of (res_state (demoCheckout env2 (res_state (demoCheckout env1 st sess1 oid1))
                         sess2 oid2)) L
  = Some (s - ordered_qty L (o_items first) - ordered_qty L (o_items second)).
Proof.
  intros Hne Hu1 Hu2 Ho1 Ho2 Hown1 Hown2 Hs.
  assert (Ho2' : orders (res_state (demoCheckout env1 st sess1 oid1)) !! oid2 = Some second).
  { unfold demoCheckout. rewrite Hu1, Ho1, Hown1, String.eqb_refl. cbv zeta. simpl negb.
    cbv iota. rewrite processVendorPayouts_noop. simpl.
    rewrite lookup_insert_ne by exact Hne. exact Ho2. }
  rewrite (demoCheckout_stock env2 _ sess2 user2 oid2 second L Hu2 Ho2' Hown2).
  rewrite (demoCheckout_stock env1 st sess1 user1 oid1 first L Hu1 Ho1 Hown1).
  rewrite Hs. reflexivity.
Qed.

(** ** Gateway payments (routes/payments.js) *)





(** X15. /payments/verify never writes to the listings: an order paid
    through it keeps every stock as it was. It leaves the reviews, the
    cache and the session (so the cart) untouched as well. *)
Theorem paymentsVerify_takes_no_stock env st sess body :
  vendorProducts (res_state (paymentsVerify env st sess body)) = vendorProducts st
  /\ reviews (res_state (paymentsVerify env st sess body)) = reviews st
  /\ caches (res_state (paymentsVerify env st sess body)) = caches st
  /\ res_session (paymentsVerify env st sess body) = sess.
Proof.
  unfold paymentsVerify.
  destruct (sess_user sess); [|repeat split].
  destruct (expectedSignature env body); [|repeat split].
  destruct (strict_neq _ _); [repeat split|].
  destruct (list_find _ (payments st)) as [[i payment]|]; [|repeat split].
  destruct (pay_orderId payment) as [oid|]; [|repeat split].
  destruct (orders st !! oid) as [order|]; [|repeat split].
  destruct (vendors_populated st order); [|repeat split]. cbn [negb].
  destruct (paymentSchema_validate _); repeat split.
Qed.




(** ** Vendor earnings (routes/payments.js, GET /vendor/earnings) *)

Lemma demoCheckout_payments env st sess oid :
  payments (res_state (demoCheckout env st sess oid)) = payments st.
Proof.
  unfold demoCheckout.
  destruct (sess_user sess); [|reflexivity].
  destruct (orders st !! oid); [|reflexivity].
  destruct (negb _); [reflexivity|].
  cbv zeta. rewrite processVendorPayouts_noop. reflexivity.
Qed.

Lemma verifyPayment_payments env st sess body :
  payments (res_state (verifyPayment env st sess body)) = payments st.
Proof.
  unfold verifyPayment.
  destruct (sess_user sess); [|reflexivity].
  destruct (expectedSignature env body); [|reflexivity].
  destruct (strict_neq _ _); [reflexivity|].
  destruct (orders st !! vb_orderId body); [|reflexivity].
  cbv zeta. unfold Payment_save.
  rewrite completed_payment_invalid by reflexivity. reflexivity.
Qed.

Lemma paymentsCreateOrder_payments env st sess oid :
  payments (snd (paymentsCreateOrder env st sess oid)) = payments st
  \/ exists p, payments (snd (paymentsCreateOrder env st sess oid)) = payments st ++ [p]
               /\ pay_status p = "created" /\ pay_vendorPayouts p = [].
Proof.
  unfold paymentsCreateOrder.
  destruct (sess_user sess) as [user|]; [|left; reflexivity].
  destruct (orders st !! oid) as [order|]; [|left; reflexivity].
  destruct (negb _); [left; reflexivity|].
  destruct (negb _); [left; reflexivity|].
  destruct (env_razorpay_create env) as [rid|]; [|left; reflexivity].
  unfold Payment_save.
  destruct (paymentSchema_validate _); [|left; reflexivity].
  right. eexists. split; [reflexivity|]. split; reflexivity.
Qed.

Lemma paid_payments_of_snoc_unpaid vendorId ps p :
  pay_status p <> "paid" ->
  paid_payments_of vendorId (ps ++ [p]) = paid_payments_of vendorId ps.
Proof.
  intros Hne. unfold paid_payments_of. rewrite List.filter_app. simpl.
  destruct (String.eqb_spec (pay_status p) "paid") as [E|_]; [contradiction|].
  rewrite andb_false_r. apply app_nil_r.
Qed.

Lemma earningsHistory_fold vendorId l acc :
  earningsHistory (fold_left (add_earnings vendorId) l acc)
  = earningsHistory acc ++ omap (fun p => find (payout_of vendorId) (pay_vendorPayouts p)) l.
Proof.
  revert acc. induction l as [|p l IH]; intros acc; simpl.
  - symmetry. apply app_nil_r.
  - rewrite IH. unfold add_earnings.
    destruct (find (payout_of vendorId) (pay_vendorPayouts p)) as [po|]; simpl.
    + rewrite <- app_assoc. reflexivity.
    + reflexivity.
Qed.

Lemma first_payouts_length vendorId ps :
  length (omap (fun p => find (payout_of vendorId) (pay_vendorPayouts p))
               (paid_payments_of vendorId ps))
  = length (paid_payments_of vendorId ps).
Proof.
  unfold paid_payments_of.
  induction ps as [|p ps IH]; [reflexivity|]. simpl.
  destruct (existsb (payout_of vendorId) (pay_vendorPayouts p)) eqn:Ex; simpl; [|exact IH].
  destruct (String.eqb (pay_status p) "paid"); simpl; [|exact IH].
  destruct (find (payout_of vendorId) (pay_vendorPayouts p)) as [po|] eqn:Ef.
  - simpl. f_equal. exact IH.
  - apply existsb_exists in Ex. destruct Ex as [po [Hin Hpo]].
    apply (find_none _ _ Ef) in Hin. rewrite Hin in Hpo. discriminate.
Qed.

(** X17. A vendor's earnings count settled payments only, one payout
    per payment: a Payment whose status is not ['paid'] adds nothing, the
    history has exactly one entry per paid Payment that holds a payout of
    the vendor, and every entry is a payout of that vendor.  So opening
    a gateway payment, and confirming an order through the orders route
    (demo-checkout, verify-payment), leave every vendor's earnings as
    they were. *)
Theorem earnings_count_settled_payments_only env st sess oid body vendorId :
  (forall p, pay_status p <> "paid" ->
     vendorEarnings vendorId (payments st ++ [p]) = vendorEarnings vendorId (payments st))
  /\ length (earningsHistory (vendorEarnings vendorId (payments st)))
     = length (paid_payments_of vendorId (payments st))
  /\ Forall (fun po => po_vendorId po = vendorId)
            (earningsHistory (vendorEarnings vendorId (payments st)))
  /\ vendorEarnings vendorId (payments (snd (paymentsCreateOrder env st sess oid)))
     = vendorEarnings vendorId (payments st)
  /\ vendorEarnings vendorId (payments (res_state (demoCheckout env st sess oid)))
     = vendorEarnings vendorId (payments st)
  /\ vendorEarnings vendorId (payments (res_state (verifyPayment env st sess body)))
     = vendorEarnings vendorId (payments st).
Proof.
  assert (Hunpaid : forall p, pay_status p <> "paid" ->
            vendorEarnings vendorId (payments st ++ [p])
            = vendorEarnings vendorId (payments st)).
  { intros p Hne. unfold vendorEarnings.
    rewrite paid_payments_of_snoc_unpaid by exact Hne. reflexivity. }
  split; [exact Hunpaid|]. split; [|split; [|split; [|split]]].
  - unfold vendorEarnings. rewrite earningsHistory_fold. cbn [earningsHistory app].
    apply first_payouts_length.
  - unfold vendorEarnings. rewrite earningsHistory_fold. cbn [earningsHistory app].
    apply List.Forall_forall. intros po Hin.
    apply list_elem_of_In in Hin. apply list_elem_of_omap in Hin.
    destruct Hin as [p [_ Hf]]. apply find_some in Hf. destruct Hf as [_ Hv].
    apply String.eqb_eq. exact Hv.
  - destruct (paymentsCreateOrder_payments env st sess oid) as [E|[p [E [Hs _]]]];
      rewrite E; [reflexivity|].
    apply Hunpaid. rewrite Hs. discriminate.
  - rewrite demoCheckout_payments. reflexivity.
  - rewrite verifyPayment_payments. reflexivity.
Qed.

(** Every payout the handlers store is balanced. *)
Lemma computeVendorPayouts_balanced items po :
  In po (computeVendorPayouts items) ->
  po_netAmount po = num_sub (po_amount po) (po_commission po).
Proof.
  intros Hin. unfold computeVendorPayouts in Hin.
  apply List.in_map_iff in Hin. destruct Hin as [g [<- _]]. reflexivity.
Qed.

Lemma paymentsVerify_balanced env st sess body :
  balanced_payouts (payments st) ->
  balanced_payouts (payments (res_state (paymentsVerify env st sess body))).
Proof.
  intros Hb. unfold paymentsVerify.
  destruct (sess_user sess); [|exact Hb].
  destruct (expectedSignature env body); [|exact Hb].
  destruct (strict_neq _ _); [exact Hb|].
  destruct (list_find _ (payments st)) as [[i payment]|]; [|exact Hb].
  destruct (pay_orderId payment) as [oid|]; [|exact Hb].
  destruct (orders st !! oid) as [order|]; [|exact Hb].
  destruct (vendors_populated st order); [|exact Hb]. cbn [negb].
  destruct (paymentSchema_validate _); [|exact Hb].
  cbn [res_state reply payments set_orders set_payments].
  intros p po Hp Hpo.
  apply list_elem_of_In, list_elem_of_lookup in Hp. destruct Hp as [j Hj].
  destruct (Nat.eq_dec i j) as [->|Hne].
  - destruct (decide (j < length (payments st))%nat) as [Hlt|Hge].
    + rewrite list_lookup_insert_eq in Hj by exact Hlt.
      inversion Hj. subst p. cbn [pay_vendorPayouts] in Hpo.
      apply (computeVendorPayouts_balanced _ _ Hpo).
    + apply lookup_lt_Some in Hj. rewrite length_insert in Hj. contradiction.
  - rewrite list_lookup_insert_ne in Hj by exact Hne.
    apply (Hb p po); [|exact Hpo].
    apply list_elem_of_In, list_elem_of_lookup. exists j. exact Hj.
Qed.

(** X18. Every payout the payments route stores has its net amount equal
    to its amount less its commission, and no handler breaks that: when
    the stored payouts are balanced, they still are after
    /payments/create-order, /payments/verify, demo-checkout and
    verify-payment. *)
Theorem stored_payouts_stay_balanced env st sess oid body :
  balanced_payouts (payments st) ->
  balanced_payouts (payments (snd (paymentsCreateOrder env st sess oid)))
  /\ balanced_payouts (payments (res_state (paymentsVerify env st sess body)))
  /\ balanced_payouts (payments (res_state (demoCheckout env st sess oid)))
  /\ balanced_payouts (payments (res_state (verifyPayment env st sess body))).
Proof.
  intros Hb. split; [|split; [|split]].
  - destruct (paymentsCreateOrder_payments env st sess oid) as [E|[p [E [_ Hnil]]]];
      rewrite E; [exact Hb|].
    intros q po Hq Hpo. apply in_app_or in Hq. destruct Hq as [Hq|[<-|[]]].
    + exact (Hb q po Hq Hpo).
    + rewrite Hnil in Hpo. destruct Hpo.
  - apply paymentsVerify_balanced. exact Hb.
  - rewrite demoCheckout_payments. exact Hb.
  - rewrite verifyPayment_payments. exact Hb.
Qed.

Lemma fold_earnings_totals vendorId l acc :
  totalEarnings (fold_left (add_earnings vendorId) l acc)
  = fold_left (fun sum po => num_add sum (po_amount po))
      (omap (fun p => find (payout_of vendorId) (pay_vendorPayouts p)) l)
      (totalEarnings acc)
  /\ totalCommission (fold_left (add_earnings vendorId) l acc)
     = fold_left (fun sum po => num_add sum (po_commission po))
         (omap (fun p => find (payout_of vendorId) (pay_vendorPayouts p)) l)
         (totalCommission acc)
  /\ totalNetAmount (fold_left (add_earnings vendorId) l acc)
     = fold_left (fun sum po => num_add sum (po_netAmount po))
         (omap (fun p => find (payout_of vendorId) (pay_vendorPayouts p)) l)
         (totalNetAmount acc).
Proof.
  revert acc. induction l as [|p l IH]; intros acc; [repeat split|].
  cbn [fold_left]. destruct (IH (add_earnings vendorId acc p)) as (IH1 & IH2 & IH3).
  rewrite IH1, IH2, IH3. unfold add_earnings. cbn [omap list_omap].
  destruct (find (payout_of vendorId) (pay_vendorPayouts p)) as [po|];
    repeat split.
Qed.

(** X19. The three totals of a vendor's earnings report are the sums of
    the entries of its history: starting from 0 and adding in the order
    of the history (the order of the loop, before the answer sorts the
    entries by date), the amounts give [totalEarnings], the commissions
    [totalCommission] and the net amounts [totalNetAmount].  This holds
    in the arithmetic the code runs, binary64 included: the three sums
    are taken separately, and nothing is said of the net total being the
    difference of the other two. *)
Theorem earnings_totals_are_sums_of_history st vendorId :
  totalEarnings (vendorEarnings vendorId (payments st))
  = fold_left (fun sum po => num_add sum (po_amount po))
      (earningsHistory (vendorEarnings vendorId (payments st))) num_zero
  /\ totalCommission (vendorEarnings vendorId (payments st))
     = fold_left (fun sum po => num_add sum (po_commission po))
         (earningsHistory (vendorEarnings vendorId (payments st))) num_zero
  /\ totalNetAmount (vendorEarnings vendorId (payments st))
     = fold_left (fun sum po => num_add sum (po_netAmount po))
         (earningsHistory (vendorEarnings vendorId (payments st))) num_zero.
Proof.
  unfold vendorEarnings. rewrite earningsHistory_fold. cbn [earningsHistory app].
  exact (fold_earnings_totals vendorId (paid_payments_of vendorId (payments st)) _).
Qed.

(** ** The review cache (middleware/cache.js) *)










(** ** Order views (routes/orders.js) *)

Lemma ceil_div_lt page limit total :
  0 < limit -> (page <? ceil_div total limit) = (page * limit <? total).
Proof.
  intros Hl. unfold ceil_div.
  pose proof (Z.div_mod (- total) limit ltac:(lia)) as Hdm.
  pose proof (Z.mod_pos_bound (- total) limit Hl) as Hm.
  destruct (Z.ltb_spec page (- (- total / limit)));
    destruct (Z.ltb_spec (page * limit) total); try reflexivity; exfalso; nia.
Qed.

Lemma ceil_div_bounds limit total :
  0 < limit -> total <= limit * ceil_div total limit < total + limit.
Proof.
  intros Hl. unfold ceil_div.
  pose proof (Z.div_mod (- total) limit ltac:(lia)) as Hdm.
  pose proof (Z.mod_pos_bound (- total) limit Hl) as Hm.
  nia.
Qed.

Lemma parse_or_positive z fallback : 1 <= z -> parse_or (Some z) fallback = z.
Proof.
  intros Hz. unfold parse_or. destruct (Z.eqb_spec z 0); [lia|reflexivity].
Qed.

Lemma page_lookup {A} (l : list A) (skip limit k : nat) :
  (k < limit)%nat -> take limit (drop skip l) !! k = l !! (skip + k)%nat.
Proof.
  intros Hk. rewrite lookup_take_lt by exact Hk. apply lookup_drop.
Qed.

Lemma page_In {A} (l : list A) (skip limit : nat) x :
  In x (take limit (drop skip l)) -> In x l.
Proof.
  intros Hin. apply list_elem_of_In, list_elem_of_lookup in Hin.
  destruct Hin as [k Hk]. apply lookup_take_Some in Hk. destruct Hk as [Hk _].
  rewrite lookup_drop in Hk.
  apply list_elem_of_In, list_elem_of_lookup. exists (skip + k)%nat. exact Hk.
Qed.

(** X21. GET /orders/my-orders pages through the caller's orders and
    nobody else's: for a page number and a limit of at least 1, the
    answer holds only orders of the caller, entry k of the page is entry
    (page-1)*limit + k of the caller's orders in the order of the sort,
    the page has at most [limit] entries and exactly [limit] when it is
    not the last one, and [hasNext] is true exactly when orders remain
    after this page; [totalPages] is the number of pages needed. *)
Theorem myOrders_pages sorted sess user page limit :
  sess_user sess = Some user -> 1 <= page -> 1 <= limit ->
  exists shown,
    myOrders sorted sess (Some page) (Some limit)
    = OrdersPage shown
        (pagination page limit (Z.of_nat (length (orders_of (su_id user) sorted))))
    /\ Forall (fun io => o_userId (snd io) = su_id user /\ In io sorted) shown
    /\ (forall k, (k < Z.to_nat limit)%nat ->
          shown !! k
          = orders_of (su_id user) sorted !! (Z.to_nat ((page - 1) * limit) + k)%nat)
    /\ Z.of_nat (length shown) <= limit
    /\ (page * limit <= Z.of_nat (length (orders_of (su_id user) sorted)) ->
        Z.of_nat (length shown) = limit)
    /\ (hasNext (pagination page limit
                   (Z.of_nat (length (orders_of (su_id user) sorted)))) = true
        <-> page * limit < Z.of_nat (length (orders_of (su_id user) sorted)))
    /\ Z.of_nat (length (orders_of (su_id user) sorted))
       <= limit * totalPages (pagination page limit
                                (Z.of_nat (length (orders_of (su_id user) sorted))))
       < Z.of_nat (length (orders_of (su_id user) sorted)) + limit.
Proof.
  intros Hu Hp Hl. unfold myOrders. rewrite Hu.
  rewrite !parse_or_positive by assumption. cbv zeta.
  fold (orders_of (su_id user) sorted). unfold skip_limit.
  destruct (Z.ltb_spec ((page - 1) * limit) 0) as [Hneg|Hskip]; [nia|].
  rewrite Z.abs_eq by lia.
  eexists. split; [reflexivity|]. split; [|split; [|split; [|split; [|split]]]].
  - apply List.Forall_forall. intros io Hin. apply page_In in Hin.
    unfold orders_of in Hin. apply List.filter_In in Hin. destruct Hin as [Hin Hown].
    split; [|exact Hin]. apply String.eqb_eq. exact Hown.
  - intros k Hk. apply page_lookup. exact Hk.
  - rewrite length_take, length_drop. lia.
  - intros Hfull. rewrite length_take, length_drop.
    assert (Hs : page * limit = (page - 1) * limit + limit) by ring. lia.
  - cbn [hasNext pagination]. rewrite ceil_div_lt by lia. apply Z.ltb_lt.
  - cbn [totalPages pagination]. apply ceil_div_bounds. lia.
Qed.

(** X22. GET /orders/:orderId shows an order to its owner only.  The
    parameter is cast to an ObjectId: an answer with an order means the
    parameter is a spelling of the id of a stored order that the caller
    owns.  The order that create-order has just stored is returned to the
    session that created it, under every spelling of its id, and any
    other user asking for it is answered 404, as for an id that does not
    exist.  A parameter that is no ObjectId is answered 500 ['Failed to
    fetch order'] (the CastError falls into the handler's [catch]). *)
Theorem getOrder_shows_own_order_only env st sess :
  (forall oid order, getOrder st sess oid = OneOrder order ->
     exists user id, sess_user sess = Some user
                     /\ castObjectId oid = Some id
                     /\ orders st !! id = Some order /\ o_userId order = su_id user)
  /\ (is_ok (res_response (createOrder env st sess)) = true ->
      forall oid, castObjectId oid = Some (env_newId env) ->
      (exists order,
         getOrder (res_state (createOrder env st sess))
                  (res_session (createOrder env st sess)) oid
         = OneOrder order)
      /\ forall sess' user user',
           sess_user sess = Some user -> sess_user sess' = Some user' ->
           su_id user' <> su_id user ->
           getOrder (res_state (createOrder env st sess)) sess' oid
           = ListError 404 "Order not found")
  /\ (forall oid user,
        sess_user sess = Some user -> castObjectId oid = None ->
        getOrder st sess oid = ListError 500 "Failed to fetch order").
Proof.
  split; [|split].
  - intros oid order. unfold getOrder.
    destruct (sess_user sess) as [user|]; [|discriminate].
    destruct (castObjectId oid) as [id|]; [|discriminate].
    destruct (orders st !! id) as [o|] eqn:Eo; [|discriminate].
    destruct (String.eqb_spec (o_userId o) (su_id user)) as [Hown|]; [|discriminate].
    intros E. inversion E. subst o. exists user, id. auto.
  - intros Hok oid Hcast.
    destruct (createOrder_ok env st sess Hok)
      as (user & cart & T & items & order & Hu & Hc & Hcol & E & Hfresh & Hown & _).
    assert (Hs : sess_user (res_session (createOrder env st sess)) = Some user).
    { revert Hok. unfold createOrder. rewrite Hu, Hc.
      destruct cart as [|c cart]; [discriminate|].
      destruct (negb (castable_ids (c :: cart))); [intros _; exact Hu|].
      destruct (collect_items _ _ _ _) as [err|[T' items']]; [intros _; exact Hu|].
      cbv zeta. destruct (Order_save_new _ _ _); [|intros _; exact Hu].
      destruct (open_gateway_order env); intros _; exact Hu. }
    split.
    + exists order. unfold getOrder. rewrite Hs, Hcast, E. cbn [orders set_orders].
      rewrite lookup_insert_eq, Hown, String.eqb_refl. reflexivity.
    + intros sess' user0 user' Hu0 Hu' Hne. unfold getOrder.
      rewrite Hu', Hcast, E. cbn [orders set_orders]. rewrite lookup_insert_eq, Hown.
      rewrite Hu in Hu0. inversion Hu0. subst user0.
      destruct (String.eqb_spec (su_id user) (su_id user')) as [Heq|_]; [|reflexivity].
      exfalso. apply Hne. symmetry. exact Heq.
  - intros oid user Hu Hcast. unfold getOrder. rewrite Hu, Hcast. reflexivity.
Qed.

(** ** Vendor views of the orders (routes/orders.js) *)

Lemma only_vendor_items_lines vendorId o :
  Forall (fun item => oi_vendorId item = vendorId) (o_items (only_vendor_items vendorId o)).
Proof.
  apply List.Forall_forall. intros item Hin. cbn [only_vendor_items o_items] in Hin.
  apply List.filter_In in Hin. apply String.eqb_eq. exact (proj2 Hin).
Qed.

Lemma only_vendor_items_nonempty vendorId o :
  has_vendor_item vendorId o = true -> o_items (only_vendor_items vendorId o) <> [].
Proof.
  unfold has_vendor_item. intros Hex. apply existsb_exists in Hex.
  destruct Hex as [item [Hin Hv]]. cbn [only_vendor_items o_items]. intros Hnil.
  assert (Hf : In item (List.filter (fun item => String.eqb (oi_vendorId item) vendorId)
                          (o_items o)))
    by (apply List.filter_In; split; assumption).
  rewrite Hnil in Hf. destruct Hf.
Qed.

(** The vendor's view of a selection of the stored orders. *)
Lemma vendor_view_In vendorId (keep : string * Order -> bool) sorted id o :
  (forall io, keep io = true -> has_vendor_item vendorId (snd io) = true) ->
  In (id, o) (map (fun io => (fst io, only_vendor_items vendorId (snd io)))
                  (List.filter keep sorted)) ->
  exists stored,
    In (id, stored) sorted /\ keep (id, stored) = true
    /\ o = only_vendor_items vendorId stored
    /\ o_items o <> []
    /\ Forall (fun item => oi_vendorId item = vendorId) (o_items o).
Proof.
  intros Hkeep Hin. apply List.in_map_iff in Hin. destruct Hin as [[id' stored] [E Hin]].
  cbn [fst snd] in E. inversion E. subst id' o.
  apply List.filter_In in Hin. destruct Hin as [Hin Hk].
  exists stored. split; [exact Hin|]. split; [exact Hk|]. split; [reflexivity|]. split.
  - apply only_vendor_items_nonempty. exact (Hkeep _ Hk).
  - apply only_vendor_items_lines.
Qed.

(** X23. GET /orders/vendor-orders never reaches its own callback: the
    router tries ['/:orderId'] first, which matches every path of one
    segment that ['/my-orders'] has not taken, so no request is routed to
    the vendor-orders callback.  The request is answered by the
    single-order handler with ['vendor-orders'] as the order id: 401
    without a session user, and otherwise 500 ['Failed to fetch order'],
    since that string is no ObjectId. *)
Theorem vendor_orders_route_is_shadowed vendor sorted st sess qpage qlimit :
  (forall path, route path <> Some VendorOrders)
  /\ route ["vendor-orders"] = Some GetOrder
  /\ ordersGet vendor sorted st sess ["vendor-orders"] qpage qlimit
     = Some (getOrder st sess "vendor-orders")
  /\ (sess_user sess = None ->
      ordersGet vendor sorted st sess ["vendor-orders"] qpage qlimit
      = Some (ListError 401 "Unauthorized"))
  /\ (forall user, sess_user sess = Some user ->
      ordersGet vendor sorted st sess ["vendor-orders"] qpage qlimit
      = Some (ListError 500 "Failed to fetch order")).
Proof.
  split; [|split; [reflexivity|split; [reflexivity|split]]].
  - intros [|segment [|second rest]]; unfold route, ordersGetRoutes; cbn [find fst snd].
    + cbn. discriminate.
    + cbn [path_matches]. rewrite !andb_true_r.
      destruct (String.eqb (lower "my-orders") (lower segment)); [discriminate|].
      destruct segment as [|c segment]; [cbn; discriminate|].
      cbn [String.eqb negb]. discriminate.
    + cbn [path_matches]. rewrite !andb_false_r.
      match goal with |- context [if ?b then _ else _] => destruct b end;
        cbn; discriminate.
  - intros Hu. change (ordersGet vendor sorted st sess ["vendor-orders"] qpage qlimit)
      with (Some (getOrder st sess "vendor-orders")).
    unfold getOrder. rewrite Hu. reflexivity.
  - intros user Hu. change (ordersGet vendor sorted st sess ["vendor-orders"] qpage qlimit)
      with (Some (getOrder st sess "vendor-orders")).
    unfold getOrder. rewrite Hu. reflexivity.
Qed.

(** X24. GET /orders/vendor/my-orders pages through the orders sold by
    the vendor and leaves the pending ones out: for a page number and a
    limit of at least 1, every order shown is a stored order that is not
    pending, restricted to the vendor's lines (at least one); entry k of
    the page is entry (page-1)*limit + k of those orders; [hasNext] is
    true exactly when such orders remain after this page.  The route
    asks for no vendor role: the answer is the same whatever the role in
    the session. *)
Theorem vendorMyOrders_pages_settled_orders vendorId sorted sess user page limit :
  sess_user sess = Some user -> 1 <= page -> 1 <= limit ->
  exists shown,
    vendorMyOrders (Some vendorId) sorted sess (Some page) (Some limit)
    = OrdersPage shown (pagination page limit (Z.of_nat (length (sold_by vendorId sorted))))
    /\ (forall id o, In (id, o) shown ->
          exists stored,
            In (id, stored) sorted
            /\ o = only_vendor_items vendorId stored
            /\ o_status o <> "pending"
            /\ o_items o <> []
            /\ Forall (fun item => oi_vendorId item = vendorId) (o_items o))
    /\ (forall k, (k < Z.to_nat limit)%nat ->
          shown !! k
          = (fun io => (fst io, only_vendor_items vendorId (snd io)))
              <$> sold_by vendorId sorted !! (Z.to_nat ((page - 1) * limit) + k)%nat)
    /\ (hasNext (pagination page limit (Z.of_nat (length (sold_by vendorId sorted)))) = true
        <-> page * limit < Z.of_nat (length (sold_by vendorId sorted))).
Proof.
  intros Hu Hp Hl. unfold vendorMyOrders. rewrite Hu.
  rewrite !parse_or_positive by assumption. cbv zeta.
  fold (sold_by vendorId sorted). unfold aggregate_skip_limit.
  destruct (Z.ltb_spec ((page - 1) * limit) 0) as [Hneg|Hskip]; [nia|].
  destruct (Z.ltb_spec limit 1) as [Hlim|_]; [lia|]. cbn [orb].
  eexists. split; [reflexivity|]. split; [|split].
  - intros id o Hin. apply page_In in Hin. unfold sold_by in Hin.
    apply vendor_view_In in Hin.
    + destruct Hin as (stored & Hin & Hk & -> & Hne & Hall).
      exists stored. split; [exact Hin|]. split; [reflexivity|]. split; [|split; assumption].
      cbn [snd] in Hk. apply andb_true_iff in Hk. destruct Hk as [_ Hk].
      cbn [only_vendor_items o_status].
      destruct (String.eqb_spec (o_status stored) "pending"); [discriminate|assumption].
    + intros io Hk. apply andb_true_iff in Hk. exact (proj1 Hk).
  - intros k Hk. rewrite page_lookup by exact Hk.
    change (map ?f ?l) with (f <$> l). apply list_lookup_fmap.
  - cbn [hasNext pagination]. rewrite ceil_div_lt by lia. apply Z.ltb_lt.
Qed.

(** ** The identity cache (middlewares/auth.js) *)

(** X25. ensureAuthenticatedWithCache serves the identity that an
    earlier request of the same user id stored, for five minutes: after
    ensureAuthenticated has run for a session, a later request whose
    session names the same user id is handed the cached identity (its
    role included) when less than CACHE_TTL has passed, and its own
    session's identity when the entry has expired or after
    clearUserCache; ensureAuthenticated always hands over the session's
    identity.  A request without a session user is refused by both,
    whatever the cache holds. *)
Theorem cached_identity_is_served_until_expiry now now' userCache sess sess' user user' :
  sess_user sess = Some user -> sess_user sess' = Some user' ->
  su_id user' = su_id user ->
  (now' - now < CACHE_TTL ->
   fst (ensureAuthenticatedWithCache now'
          (snd (ensureAuthenticated now userCache sess)) sess') = Some user)
  /\ (CACHE_TTL <= now' - now ->
      fst (ensureAuthenticatedWithCache now'
             (snd (ensureAuthenticated now userCache sess)) sess') = Some user')
  /\ fst (ensureAuthenticatedWithCache now'
            (clearUserCache (su_id user) (snd (ensureAuthenticated now userCache sess)))
            sess') = Some user'
  /\ fst (ensureAuthenticated now' (snd (ensureAuthenticated now userCache sess)) sess')
     = Some user'
  /\ (forall anonymous,
        sess_user anonymous = None ->
        fst (ensureAuthenticatedWithCache now'
               (snd (ensureAuthenticated now userCache sess)) anonymous) = None
        /\ fst (ensureAuthenticated now'
                  (snd (ensureAuthenticated now userCache sess)) anonymous) = None).
Proof.
  intros Hu Hu' Hid.
  assert (Hkey : user_cache_key user' = user_cache_key user)
    by (unfold user_cache_key; rewrite Hid; reflexivity).
  unfold ensureAuthenticated, ensureAuthenticatedWithCache, clearUserCache.
  rewrite Hu, Hu'. cbn [snd]. rewrite Hkey.
  split; [|split; [|split; [|split]]].
  - intros Hfresh. rewrite lookup_insert_eq.
    destruct (Z.ltb_spec (now' - now) CACHE_TTL); [reflexivity|lia].
  - intros Hold. rewrite lookup_insert_eq.
    destruct (Z.ltb_spec (now' - now) CACHE_TTL); [lia|reflexivity].
  - fold (user_cache_key user). rewrite lookup_delete_eq. reflexivity.
  - reflexivity.
  - intros anonymous Ha. rewrite Ha. split; reflexivity.
Qed.

(** ** From the cart to the stock *)

Lemma createOrder_session env st sess :
  res_session (createOrder env st sess) = sess.
Proof.
  unfold createOrder.
  destruct (sess_user sess) as [user|]; [|reflexivity].
  destruct (sess_cart sess) as [[|c cart]|]; try reflexivity.
  destruct (negb (castable_ids (c :: cart))); [reflexivity|].
  destruct (collect_items _ _ _ _) as [err|[T items]]; [reflexivity|].
  cbv zeta. destruct (Order_save_new _ _ _); [|reflexivity].
  destruct (open_gateway_order env); reflexivity.
Qed.

Lemma ordered_qty_cart (vps : gmap string VendorProduct) L cart items :
  Forall2 (line_from vps) cart items -> ordered_qty L items = cart_qty L cart.
Proof.
  induction 1 as [|ci oi cart items Hl _ IH]; [reflexivity|].
  destruct Hl as (Hid & Hq & _). simpl. rewrite Hid, Hq, IH. reflexivity.
Qed.

(** In a cart with one line per listing that checkout has accepted, the
    quantity asked of a listing is covered by its stock. *)
Lemma cart_qty_covered (vps : gmap string VendorProduct) L vp cart items :
  Forall2 (line_from vps) cart items -> cart_unique cart ->
  vps !! L = Some vp ->
  cart_qty L cart <= vp_stock vp \/ cart_qty L cart = 0.
Proof.
  unfold cart_unique. intros Hall. induction Hall as [|ci oi cart items Hl _ IH];
    intros Hnd HL; [right; reflexivity|].
  simpl in Hnd. inversion Hnd as [|? ? Hnotin Hnd']; subst. simpl.
  destruct (String.eqb_spec (ci_vendorProductId ci) L) as [E|_].
  - left. rewrite cart_qty_absent by (rewrite <- E; exact Hnotin).
    destruct Hl as (_ & _ & vp' & Hvp' & _ & _ & _ & Hle).
    rewrite E, HL in Hvp'. inversion Hvp'. subst vp'. lia.
  - apply IH; assumption.
Qed.

(** X26. Checkout followed by the demo payment takes from every listing
    exactly what the cart asked of it: after a successful create-order,
    demo-checkout of the new order by the same session succeeds, leaves
    each listing with its stock less the cart's quantity for it, and
    empties the cart.  When the cart has one line per listing (which the
    cart handlers maintain), a stock that was not negative is not
    negative afterwards. *)
Theorem checkout_and_payment_take_the_cart env env' st sess L s :
  is_ok (res_response (createOrder env st sess)) = true ->
  stock_of st L = Some s ->
  is_ok (res_response
           (demoCheckout env' (res_state (createOrder env st sess))
              (res_session (createOrder env st sess)) (env_newId env))) = true
  /\ stock_of (res_state
                 (demoCheckout env' (res_state (createOrder env st sess))
                    (res_session (createOrder env st sess)) (env_newId env))) L
     = Some (s - cart_qty L (session_cart sess))
  /\ sess_cart (res_session
                  (demoCheckout env' (res_state (createOrder env st sess))
                     (res_session (createOrder env st sess)) (env_newId env)))
     = Some []
  /\ (cart_unique (session_cart sess) -> 0 <= s ->
      0 <= s - cart_qty L (session_cart sess)).
Proof.
  intros Hok Hs.
  destruct (createOrder_ok env st sess Hok)
    as (user & cart & T & items & order & Hu & Hc & Hcol & E & Hfresh & Hown & Hitems
        & Htot & Hst).
  destruct (collect_items_lines _ _ _ _ _ _ Hcol) as [new [Hnew Hall]].
  simpl in Hnew. subst new.
  assert (Ho : orders (res_state (createOrder env st sess)) !! env_newId env = Some order)
    by (rewrite E; apply lookup_insert_eq).
  assert (Hcart : session_cart sess = cart) by (unfold session_cart; rewrite Hc; reflexivity).
  rewrite createOrder_session, Hcart.
  split; [|split; [|split]].
  - unfold demoCheckout. rewrite Hu, Ho, Hown, String.eqb_refl. reflexivity.
  - rewrite (demoCheckout_stock env' _ sess user (env_newId env) order L Hu Ho Hown).
    rewrite Hitems, (ordered_qty_cart _ L _ _ Hall).
    unfold stock_of in *. rewrite E. cbn [vendorProducts set_orders]. rewrite Hs. reflexivity.
  - unfold demoCheckout. rewrite Hu, Ho, Hown, String.eqb_refl. reflexivity.
  - intros Huniq Hpos. unfold stock_of in Hs.
    destruct (vendorProducts st !! L) as [vp|] eqn:HL; [|discriminate].
    simpl in Hs. inversion Hs. subst s.
    destruct (cart_qty_covered _ L vp _ _ Hall Huniq HL); lia.
Qed.

(** ** Listing updates by vendors *)






End Pipeline.

(** * Scenarios

    A shop with two listings of one product, two customers, and the
    requests that the examples below run through the handlers. *)

Definition listingA : string := "64b0000000000000000000a1".
Definition listingB : string := "64b0000000000000000000a2".
Definition productP : string := "64b0000000000000000000c1".
Definition vendorV : string := "64b0000000000000000000d1".
Definition vendorW : string := "64b0000000000000000000d2".
Definition alice : string := "64b0000000000000000000e1".
Definition bob : string := "64b0000000000000000000e2".
Definition order1 : string := "64b0000000000000000000f1".

(** Listing A (vendor V) and listing B (vendor W) offer the same product,
    five in stock each; the product list is cached. *)
Definition shop {num : Type} `{JsNumber num} (priceA priceB : num) : State :=
  {| productMasters := {[ productP := {| pm_name := "Tea" |} ]};
     vendors := <[vendorV := {| vendor_storeName := "Store" |}]>
                (<[vendorW := {| vendor_storeName := "Store" |}]> ∅);
     vendorProducts :=
       <[listingA := {| vp_vendorId := vendorV; vp_productId := productP;
                        vp_price := priceA; vp_stock := 5; vp_isActive := true |}]>
       (<[listingB := {| vp_vendorId := vendorW; vp_productId := productP;
                         vp_price := priceB; vp_stock := 5; vp_isActive := true |}]> ∅);
     orders := ∅;
     payments := [];
     reviews := [];
     caches := {| cache_short := ∅;
                  cache_medium := {[ "products_1_10_all_none" := "[listing A: stock 5]" ]};
                  cache_long := ∅;
                  cache_session := ∅ |} |}.

Definition cart_line {num : Type} `{JsNumber num} (listing vendor : string)
    (qty : Z) (price : num) : CartItem :=
  {| ci_vendorProductId := listing; ci_productId := productP; ci_vendorId := vendor;
     ci_qty := qty; ci_price := price; ci_productName := "Tea"; ci_storeName := "Store" |}.

Definition session_of {num : Type} (userId : string) (cart : list (@CartItem num)) : Session :=
  {| sess_user := Some {| su_id := userId; su_role := "customer" |};
     sess_cart := Some cart |}.

(** No gateway keys: demo mode. *)
Definition demo_env : Env :=
  {| env_now := 1700000000000; env_newId := order1;
     env_RAZORPAY_KEY_ID := None; env_RAZORPAY_KEY_SECRET := Some "secret";
     env_razorpay_create := None |}.

(** A stand-in digest, enough to tell a right signature from a wrong one. *)
Definition sample_digest (key msg : string) : string := key +:+ "/" +:+ msg.

(** ** Alice buys two of listing A at 100

    The scenario of the specification, in binary64. *)

Definition shop100 : @State float := shop (float_of_Z 100) (float_of_Z 2).

Definition alice_two_of_A : @Session float :=
  session_of alice [cart_line listingA vendorV 2 (float_of_Z 100)].

Definition line_two_of_A : @OrderItem float :=
  {| oi_vendorProductId := listingA; oi_productId := productP; oi_vendorId := vendorV;
     oi_price := float_of_Z 100; oi_qty := 2 |}.

Definition order_two_of_A : @Order float :=
  {| o_userId := alice; o_items := [line_two_of_A]; o_totalAmount := float_of_Z 200;
     o_status := "pending"; o_paymentType := "demo";
     o_razorpayOrderId := Some "demo_1700000000000";
     o_razorpayPaymentId := None; o_paidAt := None |}.

(** The state once Alice's order is created. *)
Definition shop_with_order : @State float :=
  res_state (createOrder demo_env shop100 alice_two_of_A).

Definition signed_body : VerifyBody :=
  {| razorpay_order_id := Some "order_X"; razorpay_payment_id := Some "pay_Y";
     razorpay_signature := Some (sample_digest "secret" "order_X|pay_Y");
     vb_orderId := order1 |}.

Definition forged_body : VerifyBody :=
  {| razorpay_order_id := Some "order_X"; razorpay_payment_id := Some "pay_Y";
     razorpay_signature := Some "forged"; vb_orderId := order1 |}.

(** A cart whose second line asks for nine of listing A. *)
Definition alice_nine_of_A : @Session float :=
  session_of alice [cart_line listingB vendorW 1 (float_of_Z 2);
                    cart_line listingA vendorV 9 (float_of_Z 100)].

(** ** Alice buys one of listing A at 1 and one of listing B at 2 *)

Definition shop12 : @State float := shop (float_of_Z 1) (float_of_Z 2).

Definition alice_A_and_B : @Session float :=
  session_of alice [cart_line listingA vendorV 1 (float_of_Z 1);
                    cart_line listingB vendorW 1 (float_of_Z 2)].

Definition order_A_and_B : @Order float :=
  {| o_userId := alice;
     o_items :=
       [ {| oi_vendorProductId := listingA; oi_productId := productP;
            oi_vendorId := vendorV; oi_price := float_of_Z 1; oi_qty := 1 |};
         {| oi_vendorProductId := listingB; oi_productId := productP;
            oi_vendorId := vendorW; oi_price := float_of_Z 2; oi_qty := 1 |} ];
     o_totalAmount := float_of_Z 3;
     o_status := "pending"; o_paymentType := "demo";
     o_razorpayOrderId := Some "demo_1700000000000";
     o_razorpayPaymentId := None; o_paidAt := None |}.

(** The same shop and cart over exact rationals. *)
Definition shop12_exact : @State Qc := shop (num_of_Z 1) (num_of_Z 2).

Definition alice_A_and_B_exact : @Session Qc :=
  session_of alice [cart_line listingA vendorV 1 (num_of_Z 1);
                    cart_line listingB vendorW 1 (num_of_Z 2)].

Definition alice_session : @Session float := session_of alice [].

(** Alice's order for A and B, created and paid by demo-checkout. *)
Definition shop_paid : @State float :=
  res_state (demoCheckout demo_env
               (res_state (createOrder demo_env shop12 alice_A_and_B))
               alice_A_and_B order1).

Definition review_of_V : ReviewBody :=
  {| rb_orderId := order1; rb_productId := productP; rb_vendorId := vendorV;
     rb_rating := 5; rb_comment := Some "fine" |}.

Definition review_of_W : ReviewBody :=
  {| rb_orderId := order1; rb_productId := productP; rb_vendorId := vendorW;
     rb_rating := 4; rb_comment := None |}.

(** The state once Alice has reviewed product P as bought from vendor V. *)
Definition shop_reviewed : @State float :=
  res_state (createReview shop_paid alice_session review_of_V).

(** ** Carts, gateway payments, order views and listing updates *)

Definition order2 : string := "64b0000000000000000000f2".
Definition productQ : string := "64b0000000000000000000c2".
Definition carol : string := "64b0000000000000000000e3".

Definition alice_user : SessionUser := {| su_id := alice; su_role := "customer" |}.
Definition bob_user : SessionUser := {| su_id := bob; su_role := "customer" |}.

(** Carol is the user behind vendor V. *)
Definition carol_user : SessionUser := {| su_id := carol; su_role := "vendor" |}.

Definition carol_session : @Session float :=
  {| sess_user := Some carol_user; sess_cart := None |}.

Definition bob_session : @Session float := session_of bob [].



Definition two_of_A : list (@CartItem float) :=
  [cart_line listingA vendorV 2 (float_of_Z 100)].

Definition add_one_of_B : AddBody :=
  {| ab_vendorProductId := listingB; ab_qty := Some 1 |}.

Definition add_three_of_A : AddBody :=
  {| ab_vendorProductId := listingA; ab_qty := Some 3 |}.

(** A cart line with quantity 0, which /cart/add accepts. *)
Definition none_of_A : list (@CartItem float) :=
  [cart_line listingA vendorV 0 (float_of_Z 100)].

Definition alice_none_of_A : @Session float := session_of alice none_of_A.

(** The gateway is configured and answers with the order id [order_X]. *)
Definition gateway_env : Env :=
  {| env_now := 1700000000000; env_newId := order1;
     env_RAZORPAY_KEY_ID := Some "rzp_live_key"; env_RAZORPAY_KEY_SECRET := Some "secret";
     env_razorpay_create := Some "order_X" |}.

(** Bob's pending order for four of listing A, beside Alice's for two:
    together they ask for six of the five in stock. *)
Definition order_four_of_A : @Order float :=
  {| o_userId := bob;
     o_items := [ {| oi_vendorProductId := listingA; oi_productId := productP;
                     oi_vendorId := vendorV; oi_price := float_of_Z 100; oi_qty := 4 |} ];
     o_totalAmount := float_of_Z 400;
     o_status := "pending"; o_paymentType := "demo";
     o_razorpayOrderId := Some "demo_1700000000001";
     o_razorpayPaymentId := None; o_paidAt := None |}.

Definition shop_two_orders : @State float :=
  set_orders shop_with_order (<[order2 := order_four_of_A]> (orders shop_with_order)).

(** Alice opens a gateway payment for her order, and it is verified. *)
Definition shop_payment_opened : @State float :=
  snd (paymentsCreateOrder gateway_env shop_with_order alice_two_of_A order1).

Definition shop_settled : @State float :=
  res_state (paymentsVerify sample_digest gateway_env shop_payment_opened
               alice_two_of_A signed_body).

(** The short cache holds the first review page of products P and Q. *)
Definition shop_paid_cached : @State float :=
  set_caches shop_paid
    {| cache_short :=
         <[reviews_cache_key productP "1" "createdAt" None := "[no review of P]"]>
         (<[reviews_cache_key productQ "1" "createdAt" None := "[reviews of Q]"]> ∅);
       cache_medium := ∅; cache_long := ∅; cache_session := ∅ |}.

(** The orders collection, newest first: Bob's pending order for four of
    A, and Alice's paid order for one of A and one of B. *)
Definition orders_by_date : list (string * @Order float) :=
  [(order2, order_four_of_A);
   (order1, mark_paid order_A_and_B (Some "pay_Y") 1700000000000)].



(** Alice's session once her account has become a vendor's. *)
Definition alice_vendor : SessionUser := {| su_id := alice; su_role := "vendor" |}.

Definition alice_as_vendor : @Session float :=
  {| sess_user := Some alice_vendor; sess_cart := Some [] |}.

(** ** Vendor W is deleted and its listing stays

    [DELETE /admin/vendors/:id] without [deleteProducts] removes the
    vendor and leaves its listings. *)

Definition vendor_W_deleted {num : Type} (st : @State num) : State :=
  {| productMasters := productMasters st;
     vendors := delete vendorW (vendors st);
     vendorProducts := vendorProducts st;
     orders := orders st; payments := payments st;
     reviews := reviews st; caches := caches st |}.

Definition shop100_orphan : @State float := vendor_W_deleted shop100.


(** Listing A spelled with upper-case hexadecimal digits. *)
Definition listingA_upper : string := "64B0000000000000000000A1".

Definition add_one_of_A_upper : AddBody :=
  {| ab_vendorProductId := listingA_upper; ab_qty := Some 1 |}.

(** Alice's order for A and B, with a gateway payment opened for it;
    then vendor W is deleted. *)
Definition shop12_payment_opened : @State float :=
  snd (paymentsCreateOrder gateway_env
         (res_state (createOrder demo_env shop12 alice_A_and_B)) alice_A_and_B order1).

Definition shop12_payment_orphan : @State float := vendor_W_deleted shop12_payment_opened.

(** ** Three claims as the specification states them *)


(** Payout sums: the nets of the vendor groups of a created order add up
    to [totalAmount - totalAmount * 0.01], in the arithmetic [num]. *)
Definition nets_sum_to_total (num : Type) `{JsNumber num} : Prop :=
  forall env (st : @State num) sess order,
    is_ok (res_response (createOrder env st sess)) = true ->
    orders (res_state (createOrder env st sess)) !! env_newId env = Some order ->
    sum_num (payout_nets (env_newId env) (o_items order))
    = num_sub (o_totalAmount order) (num_mul (o_totalAmount order) num_lit_0_01).

(** Duplicate reviews: a second attempt with the (user, order, product)
    key of an existing review is answered with a Conflict (400) and
    creates nothing. *)
Definition duplicate_key_answered_conflict (num : Type) `{JsNumber num} : Prop :=
  forall (st : @State num) sess user body,
    sess_user sess = Some user ->
    (exists old, In old (reviews st)
       /\ review_key old = (su_id user, rb_orderId body, rb_productId body)) ->
    status_of (res_response (createReview st sess body)) = 400
    /\ reviews (res_state (createReview st sess body)) = reviews st.

(** * Runs of the scenarios *)

Example shop_with_order_run :
  res_response (createOrder demo_env shop100 alice_two_of_A)
    = Ok (OrderCreatedDemo order1 (float_of_Z 200))
  /\ orders shop_with_order !! order1 = Some order_two_of_A
  /\ stock_of shop_with_order listingA = Some 5.
Proof. repeat split; vm_compute; reflexivity. Qed.

(** The scenario: demo-checkout leaves stock 3 and the order paid; the
    payout computed is gross 200, commission 2, net 198, but it is not in
    the payments collection, and the cached product list is still there. *)
Example demo_checkout_run :
  let r := demoCheckout demo_env shop_with_order alice_two_of_A order1 in
  res_response r = Ok (DemoPaymentSuccessful order1)
  /\ stock_of (res_state r) listingA = Some 3
  /\ (o_status <$> orders (res_state r) !! order1) = Some "paid"
  /\ map (fun init => (pi_vendorId init, pi_amount init, pi_commission init, pi_status init))
         (map (payout_init order1) (vendorGroups [line_two_of_A]))
     = [(Some vendorV, Some (float_of_Z 198), Some (float_of_Z 2), Some "pending_payout")]
  /\ payments (res_state r) = []
  /\ cache_medium (caches (res_state r)) !! "products_1_10_all_none"
     = Some "[listing A: stock 5]"
  /\ sess_cart (res_session r) = Some [].
Proof. repeat split; vm_compute; reflexivity. Qed.

(** verify-payment by Bob, who does not own the order, with the valid
    signature: stock is taken and the order is paid, the answer is 500 and
    Bob's cart is as it was; demo-checkout by Bob is answered 403. *)
Example verify_payment_run :
  let bob_session : @Session float :=
    session_of bob [cart_line listingB vendorW 1 (float_of_Z 2)] in
  let r := verifyPayment sample_digest demo_env shop_with_order bob_session signed_body in
  res_response r = Error 500 "Payment verification failed"
  /\ stock_of (res_state r) listingA = Some 3
  /\ (o_status <$> orders (res_state r) !! order1) = Some "paid"
  /\ payments (res_state r) = []
  /\ res_session r = bob_session
  /\ demoCheckout demo_env shop_with_order bob_session order1
     = reply (Error 403 "Unauthorized") shop_with_order bob_session.
Proof. repeat split; vm_compute; reflexivity. Qed.

(** ** C1: two confirmations in sequence *)




(** ** C8: a forged signature *)

Lemma invalid_signature_witness :
  verifyPayment sample_digest demo_env shop_with_order alice_two_of_A forged_body
    = reply (Error 400 "Invalid payment signature") shop_with_order alice_two_of_A
  /\ paymentsVerify sample_digest demo_env shop_with_order alice_two_of_A forged_body
    = reply (Error 400 "Invalid payment signature") shop_with_order alice_two_of_A.
Proof.
  apply (invalid_signature_changes_nothing sample_digest demo_env shop_with_order
           alice_two_of_A {| su_id := alice; su_role := "customer" |} "secret" forged_body).
  - reflexivity.
  - reflexivity.
  - vm_compute. discriminate.
Defined.

(** ** C7: a cart asking for more than the stock *)

(** Alice's cart asks for one of listing B and nine of listing A, of which
    five are in stock. *)
Lemma createOrder_rejects_witness :
  is_ok (res_response (createOrder demo_env shop100 alice_nine_of_A)) = false
  /\ res_state (createOrder demo_env shop100 alice_nine_of_A) = shop100
  /\ orders (res_state (createOrder demo_env shop100 alice_nine_of_A)) = orders shop100
  /\ (castable_ids ([cart_line listingB vendorW 1 (float_of_Z 2); cart_line listingA vendorV 9 (float_of_Z 100)]) = true ->
      Forall (line_populated shop100) ([cart_line listingB vendorW 1 (float_of_Z 2); cart_line listingA vendorV 9 (float_of_Z 100)]) ->
      exists item, In item ([cart_line listingB vendorW 1 (float_of_Z 2); cart_line listingA vendorV 9 (float_of_Z 100)]) /\ line_unavailable (vendorProducts shop100) item
        /\ res_response (createOrder demo_env shop100 alice_nine_of_A) = rejection_for (vendorProducts shop100) item
        /\ status_of (res_response (createOrder demo_env shop100 alice_nine_of_A)) = 400)
  /\ (forall before orphan after,
        ([cart_line listingB vendorW 1 (float_of_Z 2); cart_line listingA vendorV 9 (float_of_Z 100)]) = before ++ orphan :: after ->
        Forall (fun item => ~ line_unavailable (vendorProducts shop100) item
                            /\ line_populated shop100 item) before ->
        line_orphaned shop100 orphan ->
        res_response (createOrder demo_env shop100 alice_nine_of_A) = Error 500 "Failed to create order").
Proof.
  apply (createOrder_rejects_unavailable_line demo_env shop100 alice_nine_of_A alice_user).
  - reflexivity.
  - reflexivity.
  - exists (cart_line listingA vendorV 9 (float_of_Z 100)). split.
    + right. left. reflexivity.
    + vm_compute. reflexivity.
Defined.

Example createOrder_rejects_run :
  res_response (createOrder demo_env shop100 alice_nine_of_A)
  = Error 400 "Insufficient stock for Tea. Available: 5".
Proof. vm_compute. reflexivity. Qed.

(** The same cart once vendor W is deleted and its listing B is left
    behind: the loop reaches the line of listing B first, reading the
    [_id] of its vendor throws, and the answer is the handler's 500
    instead of the 400 that names the line short of stock.  Nothing is
    stored. *)
Example orphan_checkout_run :
  createOrder demo_env shop100_orphan alice_nine_of_A
  = reply (Error 500 "Failed to create order") shop100_orphan alice_nine_of_A.
Proof. vm_compute. reflexivity. Qed.

(** A cart id that is no ObjectId fails in the query for the listings. *)
Example uncastable_checkout_run :
  createOrder demo_env shop100
    (session_of alice [cart_line "listing-A" vendorV 9 (float_of_Z 100)])
  = reply (Error 500 "Failed to create order") shop100
      (session_of alice [cart_line "listing-A" vendorV 9 (float_of_Z 100)]).
Proof. vm_compute. reflexivity. Qed.

(** ** C4: the stored order *)

Lemma created_order_total_witness :
  exists order,
    orders (res_state (createOrder demo_env shop100 alice_two_of_A)) !! order1 = Some order
    /\ o_totalAmount order = items_total (o_items order)
    /\ Forall (priced_by (vendorProducts shop100)) (o_items order)
    /\ (forall vendor sess' id body,
         orders (res_state (updateVendorProduct vendor
                              (res_state (createOrder demo_env shop100 alice_two_of_A))
                              sess' id body))
           !! order1 = Some order)
    /\ (forall listings,
         orders (set_vendorProducts (res_state (createOrder demo_env shop100 alice_two_of_A))
                   listings)
           !! order1 = Some order).
Proof.
  apply (created_order_total_is_snapshot_sum demo_env shop100 alice_two_of_A).
  vm_compute. reflexivity.
Defined.

(** Vendor V raises the price of listing A to 250 after the order: the
    listing changes, the order does not. *)
Example price_change_run :
  let vendor_session : @Session float :=
    {| sess_user := Some {| su_id := bob; su_role := "vendor" |}; sess_cart := None |} in
  let r := updateVendorProduct (Some vendorV) shop_with_order vendor_session listingA
             {| ub_price := Some (float_of_Z 250); ub_stock := None |} in
  res_response r = Ok (ProductUpdated listingA)
  /\ (vp_price <$> vendorProducts (res_state r) !! listingA) = Some (float_of_Z 250)
  /\ orders (res_state r) !! order1 = Some order_two_of_A.
Proof. repeat split; vm_compute; reflexivity. Qed.

(** ** C3: binary64 against exact arithmetic *)

(** In binary64 the nets are 0.99 and 1.98 and their sum is
    2.9699999999999998 (0x1.7c28f5c28f5c2p+1), while 3 - 3 * 0.01 is the
    double nearest to 2.97 (0x1.7c28f5c28f5c3p+1), one unit in the last
    place above. *)
Example binary64_payout_run :
  orders (res_state (createOrder demo_env shop12 alice_A_and_B)) !! order1
    = Some order_A_and_B
  /\ PrimFloat.eqb (sum_num (payout_nets order1 (o_items order_A_and_B)))
       0x1.7c28f5c28f5c2p+1%float = true
  /\ PrimFloat.eqb
       (num_sub (o_totalAmount order_A_and_B)
                (num_mul (o_totalAmount order_A_and_B) num_lit_0_01))
       0x1.7c28f5c28f5c3p+1%float = true
  /\ PrimFloat.eqb (sum_num (payout_nets order1 (o_items order_A_and_B)))
       (num_sub (o_totalAmount order_A_and_B)
                (num_mul (o_totalAmount order_A_and_B) num_lit_0_01)) = false
  /\ PrimFloat.eqb (sum_num (map po_netAmount (computeVendorPayouts (o_items order_A_and_B))))
       (num_sub (o_totalAmount order_A_and_B)
                (num_mul (o_totalAmount order_A_and_B) num_lit_0_01)) = false.
Proof. repeat split; vm_compute; reflexivity. Qed.

(** The two routes do not compute the same commission in binary64: for a
    gross of 35, [35 * 0.01] is 0.35000000000000003 and [(35 * 1.0) / 100]
    is 0.35 (the double nearest to it). *)
Example binary64_commissions_run :
  PrimFloat.eqb (num_mul (float_of_Z 35) num_lit_0_01) 0x1.6666666666667p-2%float = true
  /\ PrimFloat.eqb (num_div (num_mul (float_of_Z 35) num_lit_1_0) num_lit_100)
       0x1.6666666666666p-2%float = true.
Proof. split; vm_compute; reflexivity. Qed.

(** C3, counterexample. For the order of one item at 1 from vendor V and
    one item at 2 from vendor W, the nets computed in binary64 do not add
    up to [totalAmount - totalAmount * 0.01]. *)
Lemma binary64_nets_miss_total : ~ nets_sum_to_total float.
Proof.
  intros Hclaim.
  assert (E := Hclaim demo_env shop12 alice_A_and_B order_A_and_B).
  destruct binary64_payout_run as (Hl & _ & _ & Hneq & _).
  assert (E' : sum_num (payout_nets order1 (o_items order_A_and_B))
               = num_sub (o_totalAmount order_A_and_B)
                   (num_mul (o_totalAmount order_A_and_B) num_lit_0_01)).
  { apply E; [vm_compute; reflexivity|exact Hl]. }
  rewrite E' in Hneq. vm_compute in Hneq. discriminate Hneq.
Qed.

(** The order for one of A and one of B, over exact rationals. *)
Lemma payout_nets_sum_witness :
  exists order,
    orders (res_state (createOrder demo_env shop12_exact alice_A_and_B_exact)) !! env_newId demo_env = Some order
    /\ map fst (vendorGroups (o_items order)) = distinct_vendors (o_items order)
    /\ map po_vendorId (computeVendorPayouts (o_items order))
       = distinct_vendors (o_items order)
    /\ (forall group, In group (vendorGroups (o_items order)) ->
         let gross := vendor_gross (fst group) (o_items order) in
         items_total (snd group) = gross
         /\ pi_commission (payout_init (env_newId demo_env) group)
            = Some (num_mul gross num_lit_0_01)
         /\ pi_amount (payout_init (env_newId demo_env) group)
            = Some (num_sub gross (num_mul gross num_lit_0_01)))
    /\ (forall p, In p (computeVendorPayouts (o_items order)) ->
         let gross := vendor_gross (po_vendorId p) (o_items order) in
         po_amount p = gross
         /\ po_commission p = num_div (num_mul gross num_lit_1_0) num_lit_100
         /\ po_netAmount p
            = num_sub gross (num_div (num_mul gross num_lit_1_0) num_lit_100))
    /\ (ExactArith Qc ->
        (forall gross,
           num_div (num_mul gross num_lit_1_0) num_lit_100 = num_mul gross num_lit_0_01)
        /\ sum_num (payout_nets (env_newId demo_env) (o_items order))
           = num_sub (o_totalAmount order) (num_mul (o_totalAmount order) num_lit_0_01)
        /\ sum_num (map po_netAmount (computeVendorPayouts (o_items order)))
           = num_sub (o_totalAmount order)
                     (num_mul (o_totalAmount order) num_lit_0_01)).
Proof.
  apply (payout_nets_sum_to_total_less_commission (num := Qc)
           demo_env shop12_exact alice_A_and_B_exact).
  vm_compute. reflexivity.
Defined.

(** ** C5, C6: reviews of a paid order *)

Example first_review_run :
  is_ok (res_response (createReview shop_paid alice_session review_of_V)) = true
  /\ map review_key (reviews shop_reviewed) = [(alice, order1, productP)]
  /\ is_ok (res_response (createReview shop_paid (session_of bob []) review_of_V)) = false.
Proof. repeat split; vm_compute; reflexivity. Qed.

Lemma review_requires_paid_purchase_witness :
  exists user, sess_user alice_session = Some user
    /\ purchased shop_paid (su_id user) productP vendorV.
Proof.
  apply (proj1 (review_requires_paid_purchase shop_paid alice_session review_of_V)).
  vm_compute. reflexivity.
Defined.

(** The order holds product P from vendor V and from vendor W. After the
    review of (order, P) as bought from V, the review of (order, P) as
    bought from W passes the application check, is refused by the unique
    index and is answered 500. *)
Example second_vendor_review_run :
  createReview shop_reviewed alice_session review_of_W
  = reply (Error 500 "Failed to create review") shop_reviewed alice_session.
Proof. vm_compute. reflexivity. Qed.

(** The claim as the specification states it, a Conflict for every
    second attempt with the key of an existing review, fails there. *)
Lemma duplicate_key_answered_500 : ~ duplicate_key_answered_conflict float.
Proof.
  intros Hclaim.
  destruct (Hclaim shop_reviewed alice_session
              {| su_id := alice; su_role := "customer" |} review_of_W) as [Hstatus _].
  - reflexivity.
  - eexists. split; [left; reflexivity|vm_compute; reflexivity].
  - rewrite second_vendor_review_run in Hstatus. simpl in Hstatus. discriminate Hstatus.
Qed.

(** Two identical submissions whose checks both run before either save:
    the first save creates the review, the second is refused by the index
    and answered 500; one review exists. *)
Example interleaved_duplicates_run :
  exists review,
    review_checks shop_paid alice_session review_of_V = inr review
    /\ let first := review_commit shop_paid alice_session review in
       let second := review_commit (res_state first) alice_session review in
       is_ok (res_response first) = true
       /\ res_response second = Error 500 "Failed to create review"
       /\ map review_key (reviews (res_state second)) = [(alice, order1, productP)].
Proof. eexists. split; [vm_compute; reflexivity|]. repeat split. Qed.

(** Alice, who has reviewed product P of her order as bought from vendor V,
    sends that review again. *)
Lemma at_most_one_review_witness :
  (reviews_unique (reviews shop_reviewed) ->
     reviews_unique (reviews (res_state (createReview shop_reviewed alice_session review_of_V))))
  /\ (forall st' review,
        reviews_unique (reviews st') ->
        reviews_unique (reviews (res_state (review_commit st' alice_session review)))
        /\ (In (review_key review) (map review_key (reviews st')) ->
            review_commit st' alice_session review
            = reply (Error 500 "Failed to create review") st' alice_session))
  /\ (forall orderId,
        castObjectId (rb_orderId review_of_V) = Some orderId ->
        (exists old, In old (reviews shop_reviewed)
           /\ review_key old = (su_id alice_user, orderId, rb_productId review_of_V)
           /\ r_vendorId old = rb_vendorId review_of_V) ->
        status_of (res_response (createReview shop_reviewed alice_session review_of_V)) = 400
        /\ res_state (createReview shop_reviewed alice_session review_of_V) = shop_reviewed)
  /\ (forall orderId,
        castObjectId (rb_orderId review_of_V) = Some orderId ->
        (exists old, In old (reviews shop_reviewed)
           /\ review_key old = (su_id alice_user, orderId, rb_productId review_of_V)) ->
        is_ok (res_response (createReview shop_reviewed alice_session review_of_V)) = false
        /\ res_state (createReview shop_reviewed alice_session review_of_V) = shop_reviewed)
  /\ (forall review,
        review_checks shop_reviewed alice_session review_of_V = inr review ->
        In (review_key review) (map review_key (reviews shop_reviewed)) ->
        createReview shop_reviewed alice_session review_of_V
        = reply (Error 500 "Failed to create review") shop_reviewed alice_session).
Proof.
  apply (at_most_one_review_per_key shop_reviewed alice_session alice_user review_of_V).
  reflexivity.
Defined.

(** ** Carts, gateway payments, order views and listing updates *)

(** Both orders confirmed: five in stock, six taken. *)
Example oversold_run :
  stock_of shop_two_orders listingA = Some 5
  /\ stock_of (res_state (demoCheckout demo_env
                            (res_state (demoCheckout demo_env shop_two_orders
                                          alice_session order1))
                            bob_session order2)) listingA
     = Some (-1).
Proof. repeat split; vm_compute; reflexivity. Qed.

(** The gateway path: the payment is opened as ['created'], settled as
    ['paid'] with the payout of vendor V, and the stock stays at 5. *)
Example gateway_payment_run :
  map pay_status (payments shop_payment_opened) = ["created"]
  /\ map pay_status (payments shop_settled) = ["paid"]
  /\ map (fun p => map (fun po => (po_vendorId po, po_amount po, po_commission po,
                                   po_netAmount po, po_status po))
                       (pay_vendorPayouts p))
         (payments shop_settled)
     = [[(vendorV, float_of_Z 200, float_of_Z 2, float_of_Z 198, "pending")]]
  /\ (o_status <$> orders shop_settled !! order1) = Some "paid"
  /\ stock_of shop_settled listingA = Some 5.
Proof. repeat split; vm_compute; reflexivity. Qed.

(** The review of product P removes the cached page of P and keeps the
    one of Q. *)
Example review_cache_run :
  let after := caches (res_state (createReview shop_paid_cached alice_session review_of_V)) in
  cache_short (caches shop_paid_cached) !! reviews_cache_key productP "1" "createdAt" None
    = Some "[no review of P]"
  /\ cache_short after !! reviews_cache_key productP "1" "createdAt" None = None
  /\ cache_short after !! reviews_cache_key productQ "1" "createdAt" None
     = Some "[reviews of Q]".
Proof. repeat split; vm_compute; reflexivity. Qed.

(** Carol asks for /orders/vendor-orders and is answered by the
    single-order handler; on /orders/vendor/my-orders she sees Alice's
    paid order, cut down to her own line, and not Bob's pending one. *)
Example vendor_views_run :
  ordersGet (Some vendorV) orders_by_date shop_paid carol_session ["vendor-orders"] None None
  = Some (ListError 500 "Failed to fetch order")
  /\ match ordersGet (Some vendorV) orders_by_date shop_paid carol_session
             ["vendor"; "my-orders"] (Some 1) (Some 10) with
     | Some (OrdersPage shown info) =>
       map (fun io => (fst io, map oi_vendorProductId (o_items (snd io)),
                       o_totalAmount (snd io)))
           shown
       = [(order1, [listingA], float_of_Z 3)]
       /\ totalOrders info = 1 /\ hasNext info = false
     | _ => False
     end.
Proof. repeat split; vm_compute; reflexivity. Qed.

(** Listing A is in Alice's cart; she adds it again under the upper-case
    spelling of its id.  [findById] finds the listing, [findIndex] does
    not find the line, and the cart gets a second line for listing A. *)
Example second_spelling_run :
  match cartAdd shop100 alice_two_of_A add_one_of_A_upper with
  | (CartOk _ cart', _) =>
    map ci_vendorProductId cart' = [listingA; listingA_upper]
    /\ map listing_of cart' = [Some listingA; Some listingA]
  | _ => False
  end.
Proof. vm_compute. split; reflexivity. Qed.

(** Vendor W is deleted.  Adding its listing B to a cart throws when the
    line is built; verifying the open payment of an order with a line of
    W throws in the grouping loop and saves nothing. *)
Example orphan_runs :
  cartAdd shop100_orphan alice_session add_one_of_B
  = (CartError 500 "Failed to add item to cart", alice_session)
  /\ paymentsVerify sample_digest gateway_env shop12_payment_orphan alice_A_and_B
       signed_body
     = reply (Error 500 "Payment verification failed") shop12_payment_orphan
         alice_A_and_B.
Proof. split; vm_compute; reflexivity. Qed.

(** Alice's cart holds two of listing A; she adds one of B, removes A, sets
    A to three, or clears the cart. *)
Lemma cart_operations_keep_lines_unique_witness :
  (cart_unique (session_cart (snd (cartAdd shop100 alice_two_of_A add_one_of_B)))
   /\ cart_unique (session_cart (snd (cartRemove alice_two_of_A listingA)))
   /\ cart_unique (session_cart (snd (cartUpdate alice_two_of_A listingA 3)))
   /\ cart_unique (session_cart (snd (cartClear alice_two_of_A))))
  /\ (one_line_per_listing (session_cart alice_two_of_A) ->
      one_line_per_listing (session_cart (snd (cartRemove alice_two_of_A listingA)))
      /\ one_line_per_listing (session_cart (snd (cartUpdate alice_two_of_A listingA 3)))
      /\ one_line_per_listing (session_cart (snd (cartClear alice_two_of_A)))
      /\ ((forall item, In item (session_cart alice_two_of_A) ->
              listing_of item = castObjectId (ab_vendorProductId add_one_of_B) ->
              ci_vendorProductId item = ab_vendorProductId add_one_of_B) ->
          one_line_per_listing (session_cart (snd (cartAdd shop100 alice_two_of_A add_one_of_B))))).
Proof.
  apply (cart_operations_keep_lines_unique shop100 alice_two_of_A add_one_of_B listingA 3).
  unfold cart_unique. simpl. constructor; [intros []|constructor].
Defined.




(** The total shown for Alice's cart is the total of the order made from it. *)
Lemma cart_total_is_order_total_witness :
  exists order,
    orders (res_state (createOrder demo_env shop100 alice_two_of_A)) !! env_newId demo_env = Some order
    /\ cartGet alice_two_of_A = CartView two_of_A (o_totalAmount order) (cart_itemCount two_of_A).
Proof.
  apply (cart_total_is_order_total demo_env shop100 alice_two_of_A two_of_A).
  - reflexivity.
  - intros item vendorProduct [<-|[]] Hl. vm_compute in Hl.
    inversion Hl. reflexivity.
  - vm_compute. reflexivity.
Defined.

(** Alice's order has the line of her cart. *)
Lemma created_order_follows_cart_witness :
  exists user cart order,
    sess_user alice_two_of_A = Some user /\ sess_cart alice_two_of_A = Some cart
    /\ orders (res_state (createOrder demo_env shop100 alice_two_of_A)) !! env_newId demo_env = Some order
    /\ o_userId order = su_id user
    /\ o_status order = "pending"
    /\ Forall2 (line_from (vendorProducts shop100)) cart (o_items order)
    /\ (cart_unique cart -> List.NoDup (map oi_vendorProductId (o_items order))).
Proof.
  apply (created_order_follows_cart demo_env shop100 alice_two_of_A).
  vm_compute. reflexivity.
Defined.

(** The same checkout with and without a gateway. *)
Lemma createOrder_survives_gateway_failure_witness :
  is_ok (res_response (createOrder gateway_env shop100 alice_two_of_A))
    = is_ok (res_response (createOrder demo_env shop100 alice_two_of_A))
  /\ (env_razorpay_create demo_env = None ->
      is_ok (res_response (createOrder demo_env shop100 alice_two_of_A)) = true ->
      exists order,
        orders (res_state (createOrder demo_env shop100 alice_two_of_A)) !! env_newId demo_env = Some order
        /\ o_paymentType order = "demo"
        /\ o_razorpayOrderId order = Some ("demo_" +:+ pretty (env_now demo_env))
        /\ res_response (createOrder demo_env shop100 alice_two_of_A)
           = Ok (OrderCreatedDemo (env_newId demo_env) (o_totalAmount order))).
Proof.
  apply (createOrder_survives_gateway_failure demo_env gateway_env shop100 alice_two_of_A).
  reflexivity.
Defined.

(** A cart line with quantity 0 passes the stock check and fails in the
    order schema. *)
Lemma createOrder_refuses_nonpositive_quantity_witness :
  createOrder demo_env shop100 alice_none_of_A = reply (Error 500 "Failed to create order") shop100 alice_none_of_A.
Proof.
  apply (createOrder_refuses_nonpositive_quantity demo_env shop100 alice_none_of_A
           alice_user none_of_A).
  - reflexivity.
  - reflexivity.
  - intros item [<-|[]] Hun. vm_compute in Hun. discriminate Hun.
  - exists (cart_line listingA vendorV 0 (float_of_Z 100)). split.
    + left. reflexivity.
    + simpl. lia.
Defined.

(** Alice's order for two and Bob's for four of listing A, five in stock,
    are both confirmed. *)
Lemma two_confirmations_take_both_quantities_witness :
  stock_of (res_state (demoCheckout demo_env (res_state (demoCheckout demo_env shop_two_orders alice_session order1))
                         bob_session order2)) listingA
  = Some (5 - ordered_qty listingA (o_items order_two_of_A) - ordered_qty listingA (o_items order_four_of_A)).
Proof.
  apply (two_confirmations_take_both_quantities demo_env demo_env shop_two_orders
           alice_session bob_session alice_user bob_user order1 order2
           order_two_of_A order_four_of_A listingA 5).
  - apply String.eqb_neq. reflexivity.
  - reflexivity.
  - reflexivity.
  - vm_compute. reflexivity.
  - vm_compute. reflexivity.
  - reflexivity.
  - reflexivity.
  - vm_compute. reflexivity.
Defined.



(** The payout stored for Alice's settled payment: 200, commission 2, net
    198. *)
Lemma stored_payouts_stay_balanced_witness :
  balanced_payouts (payments (snd (paymentsCreateOrder gateway_env shop_settled alice_two_of_A order1)))
  /\ balanced_payouts (payments (res_state (paymentsVerify sample_digest gateway_env shop_settled alice_two_of_A signed_body)))
  /\ balanced_payouts (payments (res_state (demoCheckout gateway_env shop_settled alice_two_of_A order1)))
  /\ balanced_payouts (payments (res_state (verifyPayment sample_digest gateway_env shop_settled alice_two_of_A signed_body))).
Proof.
  apply (stored_payouts_stay_balanced sample_digest gateway_env shop_settled
           alice_two_of_A order1 signed_body).
  intros p po Hp Hpo. vm_compute in Hp. destruct Hp as [<-|[]].
  vm_compute in Hpo. destruct Hpo as [<-|[]].
  vm_compute. reflexivity.
Defined.


(** Alice asks for the first page of her orders. *)
Lemma myOrders_pages_witness :
  exists shown,
    myOrders orders_by_date alice_session (Some 1) (Some 10)
    = OrdersPage shown
        (pagination 1 10 (Z.of_nat (length (orders_of (su_id alice_user) orders_by_date))))
    /\ Forall (fun io => o_userId (snd io) = su_id alice_user /\ In io orders_by_date) shown
    /\ (forall k, (k < Z.to_nat 10)%nat ->
          shown !! k
          = orders_of (su_id alice_user) orders_by_date !! (Z.to_nat ((1 - 1) * 10) + k)%nat)
    /\ Z.of_nat (length shown) <= 10
    /\ (1 * 10 <= Z.of_nat (length (orders_of (su_id alice_user) orders_by_date)) ->
        Z.of_nat (length shown) = 10)
    /\ (hasNext (pagination 1 10
                   (Z.of_nat (length (orders_of (su_id alice_user) orders_by_date)))) = true
        <-> 1 * 10 < Z.of_nat (length (orders_of (su_id alice_user) orders_by_date)))
    /\ Z.of_nat (length (orders_of (su_id alice_user) orders_by_date))
       <= 10 * totalPages (pagination 1 10
                                (Z.of_nat (length (orders_of (su_id alice_user) orders_by_date))))
       < Z.of_nat (length (orders_of (su_id alice_user) orders_by_date)) + 10.
Proof.
  apply (myOrders_pages orders_by_date alice_session alice_user 1 10).
  - reflexivity.
  - lia.
  - lia.
Defined.

(** Carol asks for the first page of the orders sold. *)
Lemma vendorMyOrders_pages_settled_orders_witness :
  exists shown,
    vendorMyOrders (Some vendorV) orders_by_date carol_session (Some 1) (Some 10)
    = OrdersPage shown (pagination 1 10 (Z.of_nat (length (sold_by vendorV orders_by_date))))
    /\ (forall id o, In (id, o) shown ->
          exists stored,
            In (id, stored) orders_by_date
            /\ o = only_vendor_items vendorV stored
            /\ o_status o <> "pending"
            /\ o_items o <> []
            /\ Forall (fun item => oi_vendorId item = vendorV) (o_items o))
    /\ (forall k, (k < Z.to_nat 10)%nat ->
          shown !! k
          = (fun io => (fst io, only_vendor_items vendorV (snd io)))
              <$> sold_by vendorV orders_by_date !! (Z.to_nat ((1 - 1) * 10) + k)%nat)
    /\ (hasNext (pagination 1 10 (Z.of_nat (length (sold_by vendorV orders_by_date)))) = true
        <-> 1 * 10 < Z.of_nat (length (sold_by vendorV orders_by_date))).
Proof.
  apply (vendorMyOrders_pages_settled_orders vendorV orders_by_date carol_session
           carol_user 1 10).
  - reflexivity.
  - lia.
  - lia.
Defined.

(** Alice's session is cached as a customer; a minute later her session
    says vendor. *)
Lemma cached_identity_is_served_until_expiry_witness :
  (1700000060000 - 1700000000000 < CACHE_TTL ->
   fst (ensureAuthenticatedWithCache 1700000060000
          (snd (ensureAuthenticated 1700000000000 ∅ alice_session)) alice_as_vendor) = Some alice_user)
  /\ (CACHE_TTL <= 1700000060000 - 1700000000000 ->
      fst (ensureAuthenticatedWithCache 1700000060000
             (snd (ensureAuthenticated 1700000000000 ∅ alice_session)) alice_as_vendor) = Some alice_vendor)
  /\ fst (ensureAuthenticatedWithCache 1700000060000
            (clearUserCache (su_id alice_user) (snd (ensureAuthenticated 1700000000000 ∅ alice_session)))
            alice_as_vendor) = Some alice_vendor
  /\ fst (ensureAuthenticated 1700000060000 (snd (ensureAuthenticated 1700000000000 ∅ alice_session)) alice_as_vendor)
     = Some alice_vendor
  /\ (forall anonymous : @Session float,
        sess_user anonymous = None ->
        fst (ensureAuthenticatedWithCache 1700000060000
               (snd (ensureAuthenticated 1700000000000 ∅ alice_session)) anonymous) = None
        /\ fst (ensureAuthenticated 1700000060000
                  (snd (ensureAuthenticated 1700000000000 ∅ alice_session)) anonymous) = None).
Proof.
  apply (cached_identity_is_served_until_expiry 1700000000000 1700000060000 ∅
           alice_session alice_as_vendor alice_user alice_vendor).
  - reflexivity.
  - reflexivity.
  - reflexivity.
Defined.

(** Alice checks out two of listing A and pays: three are left. *)
Lemma checkout_and_payment_take_the_cart_witness :
  is_ok (res_response
           (demoCheckout demo_env (res_state (createOrder demo_env shop100 alice_two_of_A))
              (res_session (createOrder demo_env shop100 alice_two_of_A)) (env_newId demo_env))) = true
  /\ stock_of (res_state
                 (demoCheckout demo_env (res_state (createOrder demo_env shop100 alice_two_of_A))
                    (res_session (createOrder demo_env shop100 alice_two_of_A)) (env_newId demo_env))) listingA
     = Some (5 - cart_qty listingA (session_cart alice_two_of_A))
  /\ sess_cart (res_session
                  (demoCheckout demo_env (res_state (createOrder demo_env shop100 alice_two_of_A))
                     (res_session (createOrder demo_env shop100 alice_two_of_A)) (env_newId demo_env)))
     = Some []
  /\ (cart_unique (session_cart alice_two_of_A) -> 0 <= 5 ->
      0 <= 5 - cart_qty listingA (session_cart alice_two_of_A)).
Proof.
  apply (checkout_and_payment_take_the_cart demo_env demo_env shop100 alice_two_of_A
           listingA 5).
  - vm_compute. reflexivity.
  - vm_compute. reflexivity.
Defined.


